(** * UCloud cloud provider: signed requests, typed API client, provider adapter

    A shallow embedding of [pkg/cloudprovider/providers/ucloud/ulb.go] and
    [pkg/cloudprovider/providers/ucloud/ucloud.go].

    - Go [string]s are byte sequences: Rocq [string]s (lists of [ascii]).
    - Go [int]s are [Z]; the code performs no arithmetic on them.
    - [map[string]string] is [gmap string string]; [range] over a map visits
      the entries in an unspecified order, which is modelled explicitly.
    - [http.Get] followed by [json.Decode] is an interaction with the remote
      API: programs are trees of requests ([prog]) run against a handler. *)

From Stdlib Require Import ZArith NArith Ascii String List.
From stdpp Require Import gmap strings list sorting pretty.

(** ** Go standard library: [crypto/sha1] *)

Module SHA1.
Local Open Scope N_scope.

Definition add32 (x y : N) : N := (x + y) mod 2 ^ 32.
Definition not32 (x : N) : N := N.lxor x 0xFFFFFFFF.
(** [bits.RotateLeft32] *)
Definition RotateLeft32 (x k : N) : N :=
  N.lor (N.shiftl x k mod 2 ^ 32) (N.shiftr x (32 - k)).

Definition _K0 : N := 0x5A827999.
Definition _K1 : N := 0x6ED9EBA1.
Definition _K2 : N := 0x8F1BBCDC.
Definition _K3 : N := 0xCA62C1D6.

Definition init : N * N * N * N * N :=
  (0x67452301, 0xEFCDAB89, 0x98BADCFE, 0x10325476, 0xC3D2E1F0).

(** Big-endian 32-bit words of a block. *)
Fixpoint words (p : list N) : list N :=
  match p with
  | b0 :: b1 :: b2 :: b3 :: p' =>
      N.lor (N.lor (N.lor (N.shiftl b0 24) (N.shiftl b1 16)) (N.shiftl b2 8)) b3
      :: words p'
  | _ => []
  end.

(** The message schedule, most recent word first: [rev_w] holds
    [w(i-1), w(i-2), ...]; the next word is
    [rotl1 (w(i-3) xor w(i-8) xor w(i-14) xor w(i-16))]. *)
Definition next_w (rev_w : list N) : N :=
  RotateLeft32
    (N.lxor (N.lxor (N.lxor (nth 2 rev_w 0) (nth 7 rev_w 0)) (nth 13 rev_w 0))
            (nth 15 rev_w 0)) 1.

Fixpoint extend (n : nat) (rev_w : list N) : list N :=
  match n with
  | O => rev_w
  | S n' => extend n' (next_w rev_w :: rev_w)
  end.

Definition schedule (block : list N) : list N :=
  rev (extend 64 (rev (words block))).

Definition f_K (i : nat) (b c d : N) : N * N :=
  if (i <? 20)%nat then (N.lor (N.land b c) (N.land (not32 b) d), _K0)
  else if (i <? 40)%nat then (N.lxor (N.lxor b c) d, _K1)
  else if (i <? 60)%nat then (N.lor (N.land (N.lor b c) d) (N.land b c), _K2)
  else (N.lxor (N.lxor b c) d, _K3).

Definition round (st : N * N * N * N * N) (iw : nat * N) : N * N * N * N * N :=
  let '(a, b, c, d, e) := st in
  let '(i, w) := iw in
  let '(f, k) := f_K i b c d in
  let t := add32 (add32 (add32 (add32 (RotateLeft32 a 5) f) e) w) k in
  (t, a, RotateLeft32 b 30, c, d).

Definition block (h : N * N * N * N * N) (p : list N) : N * N * N * N * N :=
  let '(h0, h1, h2, h3, h4) := h in
  let '(a, b, c, d, e) :=
    fold_left round (combine (seq 0 80) (schedule p)) h in
  (add32 h0 a, add32 h1 b, add32 h2 c, add32 h3 d, add32 h4 e).

(** Big-endian bytes of [x], [n] of them. *)
Fixpoint be_bytes (n : nat) (x : N) : list N :=
  match n with
  | O => []
  | S n' => (N.shiftr x (8 * N.of_nat n') mod 256) :: be_bytes n' x
  end.

(** Padding: 0x80, zeros up to 56 mod 64, then the bit length on 8 bytes. *)
Definition pad (msg : list N) : list N :=
  let len := N.of_nat (length msg) in
  let zeros := N.to_nat ((55 + 64 - len mod 64) mod 64) in
  msg ++ [0x80] ++ repeat 0 zeros ++ be_bytes 8 ((len * 8) mod 2 ^ 64).

Fixpoint blocks (fuel : nat) (h : N * N * N * N * N) (p : list N)
  : N * N * N * N * N :=
  match fuel, p with
  | S fuel', _ :: _ => blocks fuel' (block h (take 64 p)) (drop 64 p)
  | _, _ => h
  end.

(** [h.Sum(nil)] after writing [s]: the 20 digest bytes. *)
Definition Sum (s : string) : list N :=
  let msg := map N_of_ascii (list_ascii_of_string s) in
  let p := pad msg in
  let '(h0, h1, h2, h3, h4) := blocks (length p) init p in
  be_bytes 4 h0 ++ be_bytes 4 h1 ++ be_bytes 4 h2 ++ be_bytes 4 h3 ++ be_bytes 4 h4.
End SHA1.

(** ** Go standard library: [fmt] verbs used by the provider *)

Definition lower_hex_digit (n : N) : ascii :=
  match n with
  | 0 => "0" | 1 => "1" | 2 => "2" | 3 => "3" | 4 => "4" | 5 => "5"
  | 6 => "6" | 7 => "7" | 8 => "8" | 9 => "9" | 10 => "a" | 11 => "b"
  | 12 => "c" | 13 => "d" | 14 => "e" | _ => "f"
  end%N%char.

(** [fmt.Sprintf("%x", bytes)]: two lowercase hexadecimal digits per byte. *)
Fixpoint Sprintf_x (bs : list N) : string :=
  match bs with
  | [] => ""
  | b :: bs' =>
      String (lower_hex_digit (b / 16)) (String (lower_hex_digit (b mod 16)) (Sprintf_x bs'))
  end.

Definition sha1_hex (s : string) : string := Sprintf_x (SHA1.Sum s).

(** [fmt.Sprintf("%v", value)] for the two kinds of field a parameter struct
    has: a string prints as itself, an int in decimal. *)
Inductive value : Type :=
| VString (s : string)
| VInt (n : Z).

Definition Sprintf_v (v : value) : string :=
  match v with
  | VString s => s
  | VInt n => pretty n
  end.

(** ** Go standard library: [net/url] *)

Definition upper_hex_digit (n : N) : ascii :=
  match n with
  | 0 => "0" | 1 => "1" | 2 => "2" | 3 => "3" | 4 => "4" | 5 => "5"
  | 6 => "6" | 7 => "7" | 8 => "8" | 9 => "9" | 10 => "A" | 11 => "B"
  | 12 => "C" | 13 => "D" | 14 => "E" | _ => "F"
  end%N%char.

(** [shouldEscape(c, encodeQueryComponent)]: only ASCII letters, digits and
    [-], [_], [.], [~] are left alone. *)
Definition shouldEscape (c : ascii) : bool :=
  let n := N_of_ascii c in
  negb ((97 <=? n) && (n <=? 122) || (65 <=? n) && (n <=? 90)
        || (48 <=? n) && (n <=? 57)
        || (n =? 45) || (n =? 95) || (n =? 46) || (n =? 126))%N.

Fixpoint QueryEscape (s : string) : string :=
  match s with
  | EmptyString => ""
  | String c s' =>
      if Ascii.eqb c " " then String "+" (QueryEscape s')
      else if shouldEscape c then
        String "%" (String (upper_hex_digit (N_of_ascii c / 16))
                      (String (upper_hex_digit (N_of_ascii c mod 16)) (QueryEscape s')))
      else String c (QueryEscape s')
  end.

(** [v := url.Values{}; v.Set(k, x); v.Encode()] *)
Definition Values_Encode (k x : string) : string :=
  QueryEscape k +:+ "=" +:+ QueryEscape x.

(** ** ulb.go: the signed request builder *)

(** [type Params map[string]string]; [p[k]] is the empty string when [k] is
    absent. *)
Abbreviation Params := (gmap string string).

Definition index (p : Params) (k : string) : string := default "" (p !! k).

(** The test [k == "PrivateKey" || k == "Signature"] of both loops. *)
Definition unsigned_key (k : string) : bool :=
  bool_decide (k = "PrivateKey") || bool_decide (k = "Signature").

(** First loop of [toQueryString]: the keys with a non-empty value, in the
    order in which [range p] visits the entries. *)
Definition collect_keys (entries : list (string * string)) : list string :=
  foldl (fun keys kv => if bool_decide (kv.2 = "") then keys else keys ++ [kv.1])
        [] entries.

(** [sort.Strings]: ascending byte-wise order. *)
Definition sort_Strings (keys : list string) : list string :=
  merge_sort String.le keys.

(** Second loop followed by [s += p["PrivateKey"]]: the string that is hashed. *)
Definition signing_input (p : Params) (keys : list string) : string :=
  foldl (fun s k => if unsigned_key k then s else s +:+ k +:+ index p k) "" keys
  +:+ index p "PrivateKey".

(** Third loop: the query string before the signature pair. *)
Definition query_pairs (p : Params) (keys : list string) : string :=
  foldl (fun qs k =>
           if unsigned_key k then qs else qs +:+ "&" +:+ Values_Encode k (index p k))
        "" keys.

(** The body of [toQueryString], for a given visiting order of [range p]. *)
Definition toQueryString_ranged (entries : list (string * string)) (p : Params)
  : string :=
  let keys := sort_Strings (collect_keys entries) in
  let s := signing_input p keys in
  let sig := sha1_hex s in
  let qs := query_pairs p keys in
  qs +:+ "&" +:+ Values_Encode "Signature" sig.

(** [func (p Params) toQueryString() string]. The visiting order of [range p]
    is unspecified in Go; [map_to_list] is one such order, and a lemma
    below shows that any other gives the same string. *)
Definition toQueryString (p : Params) : string :=
  toQueryString_ranged (map_to_list p) p.

(** The keys that reach the sorted [keys] slice, and the part of them that
    is signed and emitted. *)
Definition sorted_keys (p : Params) : list string :=
  sort_Strings (collect_keys (map_to_list p)).

Definition signed_keys (p : Params) : list string :=
  filter (fun k => unsigned_key k = false) (sorted_keys p).

(** [func toParams(p interface{}) Params]: reflection over the struct's
    fields in declaration order, given here as the list of
    (json tag, field value). *)
Definition toParams (fields : list (string * value)) : Params :=
  foldl (fun params f => <[f.1 := Sprintf_v f.2]> params) ∅ fields.

(** ** ulb.go: parameter and response records

    One module per Go struct; [t] is the struct, [zero] its zero value. Go
    field [Type] is spelled [Type_]. *)

Module ReturnStatus.
Record t : Type := mk {
  RetCode : Z;
  Action : string;
  Message : string
}.
(** The Go zero value. *)
Definition zero : t :=
  mk 0%Z "" "".
End ReturnStatus.

Module DescribeUHostInstanceParam.
Record t : Type := mk {
  Action : string;
  PublicKey : string;
  PrivateKey : string;
  Signature : string;
  ProjectID : string;
  Region : string;
  Zone : string;
  UHostIDsN : string;
  Tag : string;
  Offset : Z;
  Limit : Z
}.
(** The Go zero value. *)
Definition zero : t :=
  mk "" "" "" "" "" "" "" "" "" 0%Z 0%Z.
(** The fields as [reflect] enumerates them: json tag and value. *)
Definition fields (p : t) : list (string * value) :=
  [ ("Action", VString (p.(Action)));
    ("PublicKey", VString (p.(PublicKey)));
    ("PrivateKey", VString (p.(PrivateKey)));
    ("Signature", VString (p.(Signature)));
    ("ProjectId", VString (p.(ProjectID)));
    ("Region", VString (p.(Region)));
    ("zone", VString (p.(Zone)));
    ("UHostIds.n", VString (p.(UHostIDsN)));
    ("tag", VString (p.(Tag)));
    ("offset", VInt (p.(Offset)));
    ("limit", VInt (p.(Limit))) ].
Definition setKey (pubKey privKey : string) (p : t) : t :=
  mk "DescribeUHostInstance" pubKey privKey (p.(Signature)) (p.(ProjectID))
    (p.(Region)) (p.(Zone)) (p.(UHostIDsN)) (p.(Tag)) (p.(Offset))
    (p.(Limit)).
Definition QueryString (p : t) : string :=
  let params := toParams (fields p) in
  toQueryString params.
End DescribeUHostInstanceParam.

Module UHostDiskSet.
Record t : Type := mk {
  Type_ : string;
  DiskID : string;
  Name : string;
  Drive : string;
  Size : Z
}.
(** The Go zero value. *)
Definition zero : t :=
  mk "" "" "" "" 0%Z.
End UHostDiskSet.

Module UHostIPSet.
Record t : Type := mk {
  Type_ : string;
  IPID : string;
  IP : string;
  Bandwidth : Z
}.
(** The Go zero value. *)
Definition zero : t :=
  mk "" "" "" 0%Z.
End UHostIPSet.

Module UHostInstanceSet.
Record t : Type := mk {
  UHostID : string;
  UHostType : string;
  Zone : string;
  StorageType : string;
  ImageID : string;
  BasicImageID : string;
  BasicImageName : string;
  Tag : string;
  Remark : string;
  Name : string;
  State : string;
  CreateTime : Z;
  ChargeType : string;
  ExpireTime : Z;
  CPU : Z;
  Memory : Z;
  AutoRenew : string;
  DiskSet : list UHostDiskSet.t;
  IPSet : list UHostIPSet.t;
  NetCapability : string;
  NetworkState : string;
  TimemachineFeature : string;
  HotplugFeature : bool
}.
(** The Go zero value. *)
Definition zero : t :=
  mk "" "" "" "" "" "" "" "" "" "" "" 0%Z "" 0%Z 0%Z 0%Z "" [] [] "" "" ""
    false.
End UHostInstanceSet.

Module DescribeUHostInstanceResponse.
Record t : Type := mk {
  ReturnStatus : ReturnStatus.t;
  TotalCount : Z;
  UHostSet : list UHostInstanceSet.t
}.
(** The Go zero value. *)
Definition zero : t :=
  mk ReturnStatus.zero 0%Z [].
(** Fields promoted from the embedded [ReturnStatus]. *)
Definition RetCode (r : t) : Z := ReturnStatus.RetCode (ReturnStatus r).
Definition Message (r : t) : string := ReturnStatus.Message (ReturnStatus r).
End DescribeUHostInstanceResponse.

Module DescribeULBParam.
Record t : Type := mk {
  Action : string;
  PublicKey : string;
  PrivateKey : string;
  Signature : string;
  ProjectID : string;
  Region : string;
  Offset : Z;
  Limit : Z;
  ULBID : string
}.
(** The Go zero value. *)
Definition zero : t :=
  mk "" "" "" "" "" "" 0%Z 0%Z "".
(** The fields as [reflect] enumerates them: json tag and value. *)
Definition fields (p : t) : list (string * value) :=
  [ ("Action", VString (p.(Action)));
    ("PublicKey", VString (p.(PublicKey)));
    ("PrivateKey", VString (p.(PrivateKey)));
    ("Signature", VString (p.(Signature)));
    ("ProjectId", VString (p.(ProjectID)));
    ("Region", VString (p.(Region)));
    ("Offset", VInt (p.(Offset)));
    ("Limit", VInt (p.(Limit)));
    ("ULBId", VString (p.(ULBID))) ].
Definition setKey (pubKey privKey : string) (p : t) : t :=
  mk "DescribeULB" pubKey privKey (p.(Signature)) (p.(ProjectID))
    (p.(Region)) (p.(Offset)) (p.(Limit)) (p.(ULBID)).
Definition QueryString (p : t) : string :=
  let params := toParams (fields p) in
  toQueryString params.
End DescribeULBParam.

Module ULBIPSet.
Record t : Type := mk {
  OperatorName : string;
  EIP : string;
  EIPID : string
}.
(** The Go zero value. *)
Definition zero : t :=
  mk "" "" "".
End ULBIPSet.

Module SSLBindedTargetSet.
Record t : Type := mk {
  VServerID : string;
  VServerName : string;
  ULBID : string;
  ULBName : string
}.
(** The Go zero value. *)
Definition zero : t :=
  mk "" "" "" "".
End SSLBindedTargetSet.

Module ULBSSLSet.
Record t : Type := mk {
  SSLID : string;
  SSLName : string;
  SSLType : string;
  SSLContent : string;
  CreateTime : Z;
  SSLBindedTargetSet : list SSLBindedTargetSet.t
}.
(** The Go zero value. *)
Definition zero : t :=
  mk "" "" "" "" 0%Z [].
End ULBSSLSet.

Module ULBBackendSet.
Record t : Type := mk {
  BackendID : string;
  ResourceType : string;
  ResourceID : string;
  ResourceName : string;
  PrivateIP : string;
  Port : Z;
  Enabled : Z;
  Status : Z
}.
(** The Go zero value. *)
Definition zero : t :=
  mk "" "" "" "" "" 0%Z 0%Z 0%Z.
End ULBBackendSet.

Module ULBVServerSet.
Record t : Type := mk {
  VserverID : string;
  VServerName : string;
  Protocol : string;
  FrontendPort : Z;
  Method : string;
  PersistenceType : string;
  PersistenceInfo : string;
  ClientTimeout : Z;
  Status : Z;
  SSLSet : list ULBSSLSet.t;
  VServerSet : list ULBBackendSet.t
}.
(** The Go zero value. *)
Definition zero : t :=
  mk "" "" "" 0%Z "" "" "" 0%Z 0%Z [] [].
End ULBVServerSet.

Module ULBSet.
Record t : Type := mk {
  ULBID : string;
  ULBName : string;
  Name : string;
  Tag : string;
  Remark : string;
  BandwidthType : Z;
  Bandwidth : Z;
  CreateTime : Z;
  ExpireTime : Z;
  IPSet : list ULBIPSet.t;
  VServerSet : list ULBVServerSet.t;
  ULBType : string
}.
(** The Go zero value. *)
Definition zero : t :=
  mk "" "" "" "" "" 0%Z 0%Z 0%Z 0%Z [] [] "".
End ULBSet.

Module DescribeULBResponse.
Record t : Type := mk {
  ReturnStatus : ReturnStatus.t;
  TotalCount : Z;
  DataSet : list ULBSet.t
}.
(** The Go zero value. *)
Definition zero : t :=
  mk ReturnStatus.zero 0%Z [].
(** Fields promoted from the embedded [ReturnStatus]. *)
Definition RetCode (r : t) : Z := ReturnStatus.RetCode (ReturnStatus r).
Definition Message (r : t) : string := ReturnStatus.Message (ReturnStatus r).
End DescribeULBResponse.

Module CreateULBParam.
Record t : Type := mk {
  Action : string;
  PublicKey : string;
  PrivateKey : string;
  Signature : string;
  ProjectID : string;
  Region : string;
  ULBName : string;
  Tag : string;
  Remark : string;
  OuterMode : string;
  InnerMode : string;
  ChargeType : string
}.
(** The Go zero value. *)
Definition zero : t :=
  mk "" "" "" "" "" "" "" "" "" "" "" "".
(** The fields as [reflect] enumerates them: json tag and value. *)
Definition fields (p : t) : list (string * value) :=
  [ ("Action", VString (p.(Action)));
    ("PublicKey", VString (p.(PublicKey)));
    ("PrivateKey", VString (p.(PrivateKey)));
    ("Signature", VString (p.(Signature)));
    ("ProjectId", VString (p.(ProjectID)));
    ("Region", VString (p.(Region)));
    ("ULBName", VString (p.(ULBName)));
    ("Tag", VString (p.(Tag)));
    ("Remark", VString (p.(Remark)));
    ("OuterMode", VString (p.(OuterMode)));
    ("InnerMode", VString (p.(InnerMode)));
    ("ChargeType", VString (p.(ChargeType))) ].
Definition setKey (pubKey privKey : string) (p : t) : t :=
  mk "CreateULB" pubKey privKey (p.(Signature)) (p.(ProjectID)) (p.(Region))
    (p.(ULBName)) (p.(Tag)) (p.(Remark)) (p.(OuterMode)) (p.(InnerMode))
    (p.(ChargeType)).
Definition QueryString (p : t) : string :=
  let params := toParams (fields p) in
  toQueryString params.
End CreateULBParam.

Module CreateULBResponse.
Record t : Type := mk {
  ReturnStatus : ReturnStatus.t;
  ULBID : string
}.
(** The Go zero value. *)
Definition zero : t :=
  mk ReturnStatus.zero "".
(** Fields promoted from the embedded [ReturnStatus]. *)
Definition RetCode (r : t) : Z := ReturnStatus.RetCode (ReturnStatus r).
Definition Message (r : t) : string := ReturnStatus.Message (ReturnStatus r).
End CreateULBResponse.

Module DeleteULBParam.
Record t : Type := mk {
  Action : string;
  PublicKey : string;
  PrivateKey : string;
  Signature : string;
  ProjectID : string;
  Region : string;
  ULBID : string
}.
(** The Go zero value. *)
Definition zero : t :=
  mk "" "" "" "" "" "" "".
(** The fields as [reflect] enumerates them: json tag and value. *)
Definition fields (p : t) : list (string * value) :=
  [ ("Action", VString (p.(Action)));
    ("PublicKey", VString (p.(PublicKey)));
    ("PrivateKey", VString (p.(PrivateKey)));
    ("Signature", VString (p.(Signature)));
    ("ProjectId", VString (p.(ProjectID)));
    ("Region", VString (p.(Region)));
    ("ULBId", VString (p.(ULBID))) ].
Definition setKey (pubKey privKey : string) (p : t) : t :=
  mk "DeleteULB" pubKey privKey (p.(Signature)) (p.(ProjectID)) (p.(Region))
    (p.(ULBID)).
Definition QueryString (p : t) : string :=
  let params := toParams (fields p) in
  toQueryString params.
End DeleteULBParam.

Module UpdateULBAttributeParam.
Record t : Type := mk {
  Action : string;
  PublicKey : string;
  PrivateKey : string;
  Signature : string;
  ProjectID : string;
  Region : string;
  ULBID : string;
  Name : string;
  Tag : string;
  Remark : string
}.
(** The Go zero value. *)
Definition zero : t :=
  mk "" "" "" "" "" "" "" "" "" "".
(** The fields as [reflect] enumerates them: json tag and value. *)
Definition fields (p : t) : list (string * value) :=
  [ ("Action", VString (p.(Action)));
    ("PublicKey", VString (p.(PublicKey)));
    ("PrivateKey", VString (p.(PrivateKey)));
    ("Signature", VString (p.(Signature)));
    ("ProjectId", VString (p.(ProjectID)));
    ("Region", VString (p.(Region)));
    ("ULBId", VString (p.(ULBID)));
    ("Name", VString (p.(Name)));
    ("Tag", VString (p.(Tag)));
    ("Remark", VString (p.(Remark))) ].
Definition setKey (pubKey privKey : string) (p : t) : t :=
  mk "UpdateULBAttribute" pubKey privKey (p.(Signature)) (p.(ProjectID))
    (p.(Region)) (p.(ULBID)) (p.(Name)) (p.(Tag)) (p.(Remark)).
Definition QueryString (p : t) : string :=
  let params := toParams (fields p) in
  toQueryString params.
End UpdateULBAttributeParam.

Module CreateVServerParam.
Record t : Type := mk {
  Action : string;
  PublicKey : string;
  PrivateKey : string;
  Signature : string;
  ProjectID : string;
  Region : string;
  ULBID : string;
  VServerName : string;
  ListenType : string;
  Protocol : string;
  FrontendPort : Z;
  Method : string;
  PersistenceType : string;
  PersistenceInfo : string;
  ClientTimeout : Z
}.
(** The Go zero value. *)
Definition zero : t :=
  mk "" "" "" "" "" "" "" "" "" "" 0%Z "" "" "" 0%Z.
(** The fields as [reflect] enumerates them: json tag and value. *)
Definition fields (p : t) : list (string * value) :=
  [ ("Action", VString (p.(Action)));
    ("PublicKey", VString (p.(PublicKey)));
    ("PrivateKey", VString (p.(PrivateKey)));
    ("Signature", VString (p.(Signature)));
    ("ProjectId", VString (p.(ProjectID)));
    ("Region", VString (p.(Region)));
    ("ULBId", VString (p.(ULBID)));
    ("VServerName", VString (p.(VServerName)));
    ("ListenType", VString (p.(ListenType)));
    ("Protocol", VString (p.(Protocol)));
    ("FrontendPort", VInt (p.(FrontendPort)));
    ("Method", VString (p.(Method)));
    ("PersistenceType", VString (p.(PersistenceType)));
    ("PersistenceInfo", VString (p.(PersistenceInfo)));
    ("ClientTimeout", VInt (p.(ClientTimeout))) ].
Definition setKey (pubKey privKey : string) (p : t) : t :=
  mk "CreateVServer" pubKey privKey (p.(Signature)) (p.(ProjectID))
    (p.(Region)) (p.(ULBID)) (p.(VServerName)) (p.(ListenType))
    (p.(Protocol)) (p.(FrontendPort)) (p.(Method)) (p.(PersistenceType))
    (p.(PersistenceInfo)) (p.(ClientTimeout)).
Definition QueryString (p : t) : string :=
  let params := toParams (fields p) in
  toQueryString params.
End CreateVServerParam.

Module CreateVServerResponse.
Record t : Type := mk {
  ReturnStatus : ReturnStatus.t;
  VServerID : string
}.
(** The Go zero value. *)
Definition zero : t :=
  mk ReturnStatus.zero "".
(** Fields promoted from the embedded [ReturnStatus]. *)
Definition RetCode (r : t) : Z := ReturnStatus.RetCode (ReturnStatus r).
Definition Message (r : t) : string := ReturnStatus.Message (ReturnStatus r).
End CreateVServerResponse.

Module DeleteVServerParam.
Record t : Type := mk {
  Action : string;
  PublicKey : string;
  PrivateKey : string;
  Signature : string;
  ProjectID : string;
  Region : string;
  ULBID : string;
  VServerID : string
}.
(** The Go zero value. *)
Definition zero : t :=
  mk "" "" "" "" "" "" "" "".
(** The fields as [reflect] enumerates them: json tag and value. *)
Definition fields (p : t) : list (string * value) :=
  [ ("Action", VString (p.(Action)));
    ("PublicKey", VString (p.(PublicKey)));
    ("PrivateKey", VString (p.(PrivateKey)));
    ("Signature", VString (p.(Signature)));
    ("ProjectId", VString (p.(ProjectID)));
    ("Region", VString (p.(Region)));
    ("ULBId", VString (p.(ULBID)));
    ("VServerId", VString (p.(VServerID))) ].
Definition setKey (pubKey privKey : string) (p : t) : t :=
  mk "DeleteVServer" pubKey privKey (p.(Signature)) (p.(ProjectID))
    (p.(Region)) (p.(ULBID)) (p.(VServerID)).
Definition QueryString (p : t) : string :=
  let params := toParams (fields p) in
  toQueryString params.
End DeleteVServerParam.

Module UpdateVServerAttributeParam.
Record t : Type := mk {
  Action : string;
  PublicKey : string;
  PrivateKey : string;
  Signature : string;
  ProjectID : string;
  Region : string;
  ULBID : string;
  VServerID : string;
  VServerName : string;
  Protocol : string;
  Method : string;
  PersistenceType : string;
  PersistenceInfo : string;
  ClientTimeout : Z
}.
(** The Go zero value. *)
Definition zero : t :=
  mk "" "" "" "" "" "" "" "" "" "" "" "" "" 0%Z.
(** The fields as [reflect] enumerates them: json tag and value. *)
Definition fields (p : t) : list (string * value) :=
  [ ("Action", VString (p.(Action)));
    ("PublicKey", VString (p.(PublicKey)));
    ("PrivateKey", VString (p.(PrivateKey)));
    ("Signature", VString (p.(Signature)));
    ("ProjectId", VString (p.(ProjectID)));
    ("Region", VString (p.(Region)));
    ("ULBId", VString (p.(ULBID)));
    ("VServerId", VString (p.(VServerID)));
    ("VServerName", VString (p.(VServerName)));
    ("Protocol", VString (p.(Protocol)));
    ("Method", VString (p.(Method)));
    ("PersistenceType", VString (p.(PersistenceType)));
    ("PersistenceInfo", VString (p.(PersistenceInfo)));
    ("ClientTimeout", VInt (p.(ClientTimeout))) ].
Definition setKey (pubKey privKey : string) (p : t) : t :=
  mk "UpdateVServerAttribute" pubKey privKey (p.(Signature)) (p.(ProjectID))
    (p.(Region)) (p.(ULBID)) (p.(VServerID)) (p.(VServerName))
    (p.(Protocol)) (p.(Method)) (p.(PersistenceType)) (p.(PersistenceInfo))
    (p.(ClientTimeout)).
Definition QueryString (p : t) : string :=
  let params := toParams (fields p) in
  toQueryString params.
End UpdateVServerAttributeParam.

Module AllocateBackendParam.
Record t : Type := mk {
  Action : string;
  PublicKey : string;
  PrivateKey : string;
  Signature : string;
  ProjectID : string;
  Region : string;
  ULBID : string;
  VServerID : string;
  ResourceType : string;
  ResourceID : string;
  Port : Z;
  Enabled : Z
}.
(** The Go zero value. *)
Definition zero : t :=
  mk "" "" "" "" "" "" "" "" "" "" 0%Z 0%Z.
(** The fields as [reflect] enumerates them: json tag and value. *)
Definition fields (p : t) : list (string * value) :=
  [ ("Action", VString (p.(Action)));
    ("PublicKey", VString (p.(PublicKey)));
    ("PrivateKey", VString (p.(PrivateKey)));
    ("Signature", VString (p.(Signature)));
    ("ProjectId", VString (p.(ProjectID)));
    ("Region", VString (p.(Region)));
    ("ULBId", VString (p.(ULBID)));
    ("VServerId", VString (p.(VServerID)));
    ("ResourceType", VString (p.(ResourceType)));
    ("ResourceId", VString (p.(ResourceID)));
    ("Port", VInt (p.(Port)));
    ("Enabled", VInt (p.(Enabled))) ].
Definition setKey (pubKey privKey : string) (p : t) : t :=
  mk "AllocateBackend" pubKey privKey (p.(Signature)) (p.(ProjectID))
    (p.(Region)) (p.(ULBID)) (p.(VServerID)) (p.(ResourceType))
    (p.(ResourceID)) (p.(Port)) (p.(Enabled)).
Definition QueryString (p : t) : string :=
  let params := toParams (fields p) in
  toQueryString params.
End AllocateBackendParam.

Module AllocateBackendResponse.
Record t : Type := mk {
  ReturnStatus : ReturnStatus.t;
  BackendID : string
}.
(** The Go zero value. *)
Definition zero : t :=
  mk ReturnStatus.zero "".
(** Fields promoted from the embedded [ReturnStatus]. *)
Definition RetCode (r : t) : Z := ReturnStatus.RetCode (ReturnStatus r).
Definition Message (r : t) : string := ReturnStatus.Message (ReturnStatus r).
End AllocateBackendResponse.

Module UpdateBackendAttributeParam.
Record t : Type := mk {
  Action : string;
  PublicKey : string;
  PrivateKey : string;
  Signature : string;
  ProjectID : string;
  Region : string;
  ULBID : string;
  BackendID : string;
  Port : Z;
  Enabled : Z
}.
(** The Go zero value. *)
Definition zero : t :=
  mk "" "" "" "" "" "" "" "" 0%Z 0%Z.
(** The fields as [reflect] enumerates them: json tag and value. *)
Definition fields (p : t) : list (string * value) :=
  [ ("Action", VString (p.(Action)));
    ("PublicKey", VString (p.(PublicKey)));
    ("PrivateKey", VString (p.(PrivateKey)));
    ("Signature", VString (p.(Signature)));
    ("ProjectId", VString (p.(ProjectID)));
    ("Region", VString (p.(Region)));
    ("ULBId", VString (p.(ULBID)));
    ("BackendId", VString (p.(BackendID)));
    ("Port", VInt (p.(Port)));
    ("Enabled", VInt (p.(Enabled))) ].
Definition setKey (pubKey privKey : string) (p : t) : t :=
  mk "UpdateBackendAttribute" pubKey privKey (p.(Signature)) (p.(ProjectID))
    (p.(Region)) (p.(ULBID)) (p.(BackendID)) (p.(Port)) (p.(Enabled)).
Definition QueryString (p : t) : string :=
  let params := toParams (fields p) in
  toQueryString params.
End UpdateBackendAttributeParam.

Module ReleaseBackendParam.
Record t : Type := mk {
  Action : string;
  PublicKey : string;
  PrivateKey : string;
  Signature : string;
  ProjectID : string;
  Region : string;
  ULBID : string;
  BackendID : string
}.
(** The Go zero value. *)
Definition zero : t :=
  mk "" "" "" "" "" "" "" "".
(** The fields as [reflect] enumerates them: json tag and value. *)
Definition fields (p : t) : list (string * value) :=
  [ ("Action", VString (p.(Action)));
    ("PublicKey", VString (p.(PublicKey)));
    ("PrivateKey", VString (p.(PrivateKey)));
    ("Signature", VString (p.(Signature)));
    ("ProjectId", VString (p.(ProjectID)));
    ("Region", VString (p.(Region)));
    ("ULBId", VString (p.(ULBID)));
    ("BackendId", VString (p.(BackendID))) ].
Definition setKey (pubKey privKey : string) (p : t) : t :=
  mk "ReleaseBackend" pubKey privKey (p.(Signature)) (p.(ProjectID))
    (p.(Region)) (p.(ULBID)) (p.(BackendID)).
Definition QueryString (p : t) : string :=
  let params := toParams (fields p) in
  toQueryString params.
End ReleaseBackendParam.

Module AllocateEIPParam.
Record t : Type := mk {
  Action : string;
  PublicKey : string;
  PrivateKey : string;
  Signature : string;
  Region : string;
  OperatorName : string;
  Bandwidth : Z;
  Tag : string;
  ChargeType : string;
  Quantity : Z;
  PayMode : string;
  ShareBandwidthID : string;
  CouponID : string;
  Name : string;
  Remark : string
}.
(** The Go zero value. *)
Definition zero : t :=
  mk "" "" "" "" "" "" 0%Z "" "" 0%Z "" "" "" "" "".
(** The fields as [reflect] enumerates them: json tag and value. *)
Definition fields (p : t) : list (string * value) :=
  [ ("Action", VString (p.(Action)));
    ("PublicKey", VString (p.(PublicKey)));
    ("PrivateKey", VString (p.(PrivateKey)));
    ("Signature", VString (p.(Signature)));
    ("Region", VString (p.(Region)));
    ("OperatorName", VString (p.(OperatorName)));
    ("Bandwidth", VInt (p.(Bandwidth)));
    ("tag", VString (p.(Tag)));
    ("ChargeType", VString (p.(ChargeType)));
    ("Quantity", VInt (p.(Quantity)));
    ("PayMode", VString (p.(PayMode)));
    ("ShareBandwidth", VString (p.(ShareBandwidthID)));
    ("CouponId", VString (p.(CouponID)));
    ("Name", VString (p.(Name)));
    ("Remark", VString (p.(Remark))) ].
Definition setKey (pubKey privKey : string) (p : t) : t :=
  mk "AllocateEIP" pubKey privKey (p.(Signature)) (p.(Region))
    (p.(OperatorName)) (p.(Bandwidth)) (p.(Tag)) (p.(ChargeType))
    (p.(Quantity)) (p.(PayMode)) (p.(ShareBandwidthID)) (p.(CouponID))
    (p.(Name)) (p.(Remark)).
Definition QueryString (p : t) : string :=
  let params := toParams (fields p) in
  toQueryString params.
End AllocateEIPParam.

Module UnetEIPAddrSet.
Record t : Type := mk {
  OperatorName : string;
  IP : string
}.
(** The Go zero value. *)
Definition zero : t :=
  mk "" "".
End UnetEIPAddrSet.

Module UnetAllocateEIPSet.
Record t : Type := mk {
  EIPID : string;
  EIPAddr : list UnetEIPAddrSet.t
}.
(** The Go zero value. *)
Definition zero : t :=
  mk "" [].
End UnetAllocateEIPSet.

Module AllocateEIPResponse.
Record t : Type := mk {
  ReturnStatus : ReturnStatus.t;
  EIPSet : list UnetAllocateEIPSet.t
}.
(** The Go zero value. *)
Definition zero : t :=
  mk ReturnStatus.zero [].
(** Fields promoted from the embedded [ReturnStatus]. *)
Definition RetCode (r : t) : Z := ReturnStatus.RetCode (ReturnStatus r).
Definition Message (r : t) : string := ReturnStatus.Message (ReturnStatus r).
End AllocateEIPResponse.

Module ReleaseEIPParam.
Record t : Type := mk {
  Action : string;
  PublicKey : string;
  PrivateKey : string;
  Signature : string;
  Region : string;
  EIPID : string
}.
(** The Go zero value. *)
Definition zero : t :=
  mk "" "" "" "" "" "".
(** The fields as [reflect] enumerates them: json tag and value. *)
Definition fields (p : t) : list (string * value) :=
  [ ("Action", VString (p.(Action)));
    ("PublicKey", VString (p.(PublicKey)));
    ("PrivateKey", VString (p.(PrivateKey)));
    ("Signature", VString (p.(Signature)));
    ("Region", VString (p.(Region)));
    ("EIPId", VString (p.(EIPID))) ].
Definition setKey (pubKey privKey : string) (p : t) : t :=
  mk "ReleaseEIP" pubKey privKey (p.(Signature)) (p.(Region)) (p.(EIPID)).
Definition QueryString (p : t) : string :=
  let params := toParams (fields p) in
  toQueryString params.
End ReleaseEIPParam.

Module BindEIPParam.
Record t : Type := mk {
  Action : string;
  PublicKey : string;
  PrivateKey : string;
  Signature : string;
  Region : string;
  EIPID : string;
  ResourceType : string;
  ResourceID : string
}.
(** The Go zero value. *)
Definition zero : t :=
  mk "" "" "" "" "" "" "" "".
(** The fields as [reflect] enumerates them: json tag and value. *)
Definition fields (p : t) : list (string * value) :=
  [ ("Action", VString (p.(Action)));
    ("PublicKey", VString (p.(PublicKey)));
    ("PrivateKey", VString (p.(PrivateKey)));
    ("Signature", VString (p.(Signature)));
    ("Region", VString (p.(Region)));
    ("EIPId", VString (p.(EIPID)));
    ("ResourceType", VString (p.(ResourceType)));
    ("ResourceId", VString (p.(ResourceID))) ].
Definition setKey (pubKey privKey : string) (p : t) : t :=
  mk "BindEIP" pubKey privKey (p.(Signature)) (p.(Region)) (p.(EIPID))
    (p.(ResourceType)) (p.(ResourceID)).
Definition QueryString (p : t) : string :=
  let params := toParams (fields p) in
  toQueryString params.
End BindEIPParam.

Module UnBindEIPParam.
Record t : Type := mk {
  Action : string;
  PublicKey : string;
  PrivateKey : string;
  Signature : string;
  Region : string;
  EIPID : string;
  ResourceType : string;
  ResourceID : string
}.
(** The Go zero value. *)
Definition zero : t :=
  mk "" "" "" "" "" "" "" "".
(** The fields as [reflect] enumerates them: json tag and value. *)
Definition fields (p : t) : list (string * value) :=
  [ ("Action", VString (p.(Action)));
    ("PublicKey", VString (p.(PublicKey)));
    ("PrivateKey", VString (p.(PrivateKey)));
    ("Signature", VString (p.(Signature)));
    ("Region", VString (p.(Region)));
    ("EIPId", VString (p.(EIPID)));
    ("ResourceType", VString (p.(ResourceType)));
    ("ResourceId", VString (p.(ResourceID))) ].
Definition setKey (pubKey privKey : string) (p : t) : t :=
  mk "UnBindEIP" pubKey privKey (p.(Signature)) (p.(Region)) (p.(EIPID))
    (p.(ResourceType)) (p.(ResourceID)).
Definition QueryString (p : t) : string :=
  let params := toParams (fields p) in
  toQueryString params.
End UnBindEIPParam.

Module DeleteULBResponse.
(** [type DeleteULBResponse ReturnStatus] *)
Definition t : Type := ReturnStatus.t.
Definition RetCode (r : t) : Z := ReturnStatus.RetCode r.
Definition Message (r : t) : string := ReturnStatus.Message r.
End DeleteULBResponse.

Module UpdateULBAttributeResponse.
(** [type UpdateULBAttributeResponse ReturnStatus] *)
Definition t : Type := ReturnStatus.t.
Definition RetCode (r : t) : Z := ReturnStatus.RetCode r.
Definition Message (r : t) : string := ReturnStatus.Message r.
End UpdateULBAttributeResponse.

Module DeleteVServerResponse.
(** [type DeleteVServerResponse ReturnStatus] *)
Definition t : Type := ReturnStatus.t.
Definition RetCode (r : t) : Z := ReturnStatus.RetCode r.
Definition Message (r : t) : string := ReturnStatus.Message r.
End DeleteVServerResponse.

Module UpdateVServerAttributeResponse.
(** [type UpdateVServerAttributeResponse ReturnStatus] *)
Definition t : Type := ReturnStatus.t.
Definition RetCode (r : t) : Z := ReturnStatus.RetCode r.
Definition Message (r : t) : string := ReturnStatus.Message r.
End UpdateVServerAttributeResponse.

Module UpdateBackendAttributeResponse.
(** [type UpdateBackendAttributeResponse ReturnStatus] *)
Definition t : Type := ReturnStatus.t.
Definition RetCode (r : t) : Z := ReturnStatus.RetCode r.
Definition Message (r : t) : string := ReturnStatus.Message r.
End UpdateBackendAttributeResponse.

Module ReleaseBackendResponse.
(** [type ReleaseBackendResponse ReturnStatus] *)
Definition t : Type := ReturnStatus.t.
Definition RetCode (r : t) : Z := ReturnStatus.RetCode r.
Definition Message (r : t) : string := ReturnStatus.Message r.
End ReleaseBackendResponse.

Module ReleaseEIPResponse.
(** [type ReleaseEIPResponse ReturnStatus] *)
Definition t : Type := ReturnStatus.t.
Definition RetCode (r : t) : Z := ReturnStatus.RetCode r.
Definition Message (r : t) : string := ReturnStatus.Message r.
End ReleaseEIPResponse.

Module BindEIPResponse.
(** [type BindEIPResponse ReturnStatus] *)
Definition t : Type := ReturnStatus.t.
Definition RetCode (r : t) : Z := ReturnStatus.RetCode r.
Definition Message (r : t) : string := ReturnStatus.Message r.
End BindEIPResponse.

Module UnBindEIPResponse.
(** [type UnBindEIPResponse ReturnStatus] *)
Definition t : Type := ReturnStatus.t.
Definition RetCode (r : t) : Z := ReturnStatus.RetCode r.
Definition Message (r : t) : string := ReturnStatus.Message r.
End UnBindEIPResponse.

(** ** Errors, panics and the interaction with the remote API *)

(** Go [error] values. The two sentinels of ucloud.go and
    [cloudprovider.InstanceNotFound] are package variables, compared by
    identity: [errors_New] with the same text is a different error. What
    [http.Get] and [json.Decode] return is kept as they gave it. *)
Inductive error : Type :=
| ULBNotFound
| EIPNotFound
| InstanceNotFound
| errors_New (text : string)
| http_error (text : string)
| json_error (text : string).

#[global] Instance error_eq_dec : EqDecision error.
Proof. solve_decision. Defined.

(** [err.Error()] *)
Definition Error (e : error) : string :=
  match e with
  | ULBNotFound => "ulb not found"
  | EIPNotFound => "eip not found"
  | InstanceNotFound => "instance not found"
  | errors_New text | http_error text | json_error text => text
  end.

(** Run-time panics of the Go code. *)
Inductive panic : Type :=
| nil_dereference
| index_out_of_range.

(** ** The remote API as seen by the client

    One constructor per remote operation; [Param] and [Response] give the Go
    types of its parameter record and of the record its body is decoded
    into. *)

Inductive Operation : Type :=
| OpDescribeULB
| OpCreateULB
| OpUpdateULBAttribute
| OpDeleteULB
| OpCreateVServer
| OpUpdateVServerAttribute
| OpDeleteVServer
| OpAllocateBackend
| OpUpdateBackendAttribute
| OpReleaseBackend
| OpAllocateEIP
| OpBindEIP
| OpUnbindEIP
| OpReleaseEIP
| OpDescribeUHostInstance.

#[global] Instance Operation_eq_dec : EqDecision Operation.
Proof. solve_decision. Defined.

Definition Param (op : Operation) : Type :=
  match op with
  | OpDescribeULB => DescribeULBParam.t
  | OpCreateULB => CreateULBParam.t
  | OpUpdateULBAttribute => UpdateULBAttributeParam.t
  | OpDeleteULB => DeleteULBParam.t
  | OpCreateVServer => CreateVServerParam.t
  | OpUpdateVServerAttribute => UpdateVServerAttributeParam.t
  | OpDeleteVServer => DeleteVServerParam.t
  | OpAllocateBackend => AllocateBackendParam.t
  | OpUpdateBackendAttribute => UpdateBackendAttributeParam.t
  | OpReleaseBackend => ReleaseBackendParam.t
  | OpAllocateEIP => AllocateEIPParam.t
  | OpBindEIP => BindEIPParam.t
  | OpUnbindEIP => UnBindEIPParam.t
  | OpReleaseEIP => ReleaseEIPParam.t
  | OpDescribeUHostInstance => DescribeUHostInstanceParam.t
  end.

Definition Response (op : Operation) : Type :=
  match op with
  | OpDescribeULB => DescribeULBResponse.t
  | OpCreateULB => CreateULBResponse.t
  | OpUpdateULBAttribute => UpdateULBAttributeResponse.t
  | OpDeleteULB => DeleteULBResponse.t
  | OpCreateVServer => CreateVServerResponse.t
  | OpUpdateVServerAttribute => UpdateVServerAttributeResponse.t
  | OpDeleteVServer => DeleteVServerResponse.t
  | OpAllocateBackend => AllocateBackendResponse.t
  | OpUpdateBackendAttribute => UpdateBackendAttributeResponse.t
  | OpReleaseBackend => ReleaseBackendResponse.t
  | OpAllocateEIP => AllocateEIPResponse.t
  | OpBindEIP => BindEIPResponse.t
  | OpUnbindEIP => UnBindEIPResponse.t
  | OpReleaseEIP => ReleaseEIPResponse.t
  | OpDescribeUHostInstance => DescribeUHostInstanceResponse.t
  end.

(** What [http.Get(url)] and the [json.Decode] of its body into an [R] give:
    either the GET itself failed, or the body was decoded into [r], with
    the decoder's error if it reported one. *)
Inductive http_result (R : Type) : Type :=
| GetFailed (err : string)
| Decoded (r : R) (err : option string).

(** Programs of the provider: they return, panic, issue a GET for an
    operation and continue with its result, or write an error to the log.
    (The [glog.V(3).Infof] trace lines are not modelled.) *)
Inductive prog (A : Type) : Type :=
| Ret (a : A)
| Panic (p : panic)
| HttpGet (op : Operation) (url : string) (k : http_result (Response op) → prog A)
| GlogError (msg : string) (k : prog A).

Arguments Ret {A} a.
Arguments Panic {A} p.
Arguments HttpGet {A} op url k.
Arguments GlogError {A} msg k.

Fixpoint bind {A B} (m : prog A) (f : A → prog B) : prog B :=
  match m with
  | Ret a => f a
  | Panic p => Panic p
  | HttpGet op url k => HttpGet op url (fun r => bind (k r) f)
  | GlogError msg k => GlogError msg (bind k f)
  end.

#[global] Instance prog_ret : MRet prog := @Ret.
#[global] Instance prog_bind : MBind prog := fun A B f m => bind m f.

Definition http_Get (op : Operation) (url : string)
  : prog (http_result (Response op)) :=
  HttpGet op url Ret.

Definition glog_Error (msg : string) : prog unit := GlogError msg (Ret tt).

(** Reading through a pointer: [nil] panics. *)
Definition deref {A} (p : option A) : prog A :=
  match p with
  | Some a => Ret a
  | None => Panic nil_dereference
  end.

(** [l[0]] *)
Definition first {A} (l : list A) : prog A :=
  match l with
  | a :: _ => Ret a
  | [] => Panic index_out_of_range
  end.

(** A [for ... range l] loop whose body either falls through to the next
    element ([None]) or returns [v] from the enclosing function ([Some v]). *)
Fixpoint for_range {X R} (l : list X) (body : X → prog (option R))
  : prog (option R) :=
  match l with
  | [] => Ret None
  | x :: l' =>
      r ← body x;
      match r with
      | Some v => Ret (Some v)
      | None => for_range l' body
      end
  end.

(** *** Running a program against the remote API *)

Inductive event : Type :=
| EvGet (op : Operation) (url : string)
| EvLog (msg : string).

(** The remote side: what a GET for [op] on [url] gives, possibly depending
    on everything that happened before. *)
Definition handler : Type :=
  ∀ op : Operation, list event → string → http_result (Response op).

Inductive outcome (A : Type) : Type :=
| Returned (a : A)
| Panicked (p : panic).

Arguments Returned {A} a.
Arguments Panicked {A} p.

(** [run h m tr]: the outcome of [m] and the trace, [tr] extended with the
    events of [m] in order. *)
Fixpoint run {A} (h : handler) (m : prog A) (tr : list event)
  : outcome A * list event :=
  match m with
  | Ret a => (Returned a, tr)
  | Panic p => (Panicked p, tr)
  | HttpGet op url k => run h (k (h op tr url)) (tr ++ [EvGet op url])
  | GlogError msg k => run h k (tr ++ [EvLog msg])
  end.

(** ** ulb.go: the typed API client *)

(** [type Parameter interface { QueryString() string }] ([Parameter] is a
    reserved word here, hence the underscore). *)
Class Parameter_ (P : Type) : Type := { QueryString : P → string }.

#[global] Instance DescribeULBParam_Parameter : Parameter_ DescribeULBParam.t :=
  {| QueryString := DescribeULBParam.QueryString |}.
#[global] Instance CreateULBParam_Parameter : Parameter_ CreateULBParam.t :=
  {| QueryString := CreateULBParam.QueryString |}.
#[global] Instance UpdateULBAttributeParam_Parameter : Parameter_ UpdateULBAttributeParam.t :=
  {| QueryString := UpdateULBAttributeParam.QueryString |}.
#[global] Instance DeleteULBParam_Parameter : Parameter_ DeleteULBParam.t :=
  {| QueryString := DeleteULBParam.QueryString |}.
#[global] Instance CreateVServerParam_Parameter : Parameter_ CreateVServerParam.t :=
  {| QueryString := CreateVServerParam.QueryString |}.
#[global] Instance UpdateVServerAttributeParam_Parameter : Parameter_ UpdateVServerAttributeParam.t :=
  {| QueryString := UpdateVServerAttributeParam.QueryString |}.
#[global] Instance DeleteVServerParam_Parameter : Parameter_ DeleteVServerParam.t :=
  {| QueryString := DeleteVServerParam.QueryString |}.
#[global] Instance AllocateBackendParam_Parameter : Parameter_ AllocateBackendParam.t :=
  {| QueryString := AllocateBackendParam.QueryString |}.
#[global] Instance UpdateBackendAttributeParam_Parameter : Parameter_ UpdateBackendAttributeParam.t :=
  {| QueryString := UpdateBackendAttributeParam.QueryString |}.
#[global] Instance ReleaseBackendParam_Parameter : Parameter_ ReleaseBackendParam.t :=
  {| QueryString := ReleaseBackendParam.QueryString |}.
#[global] Instance AllocateEIPParam_Parameter : Parameter_ AllocateEIPParam.t :=
  {| QueryString := AllocateEIPParam.QueryString |}.
#[global] Instance BindEIPParam_Parameter : Parameter_ BindEIPParam.t :=
  {| QueryString := BindEIPParam.QueryString |}.
#[global] Instance UnBindEIPParam_Parameter : Parameter_ UnBindEIPParam.t :=
  {| QueryString := UnBindEIPParam.QueryString |}.
#[global] Instance ReleaseEIPParam_Parameter : Parameter_ ReleaseEIPParam.t :=
  {| QueryString := ReleaseEIPParam.QueryString |}.
#[global] Instance DescribeUHostInstanceParam_Parameter : Parameter_ DescribeUHostInstanceParam.t :=
  {| QueryString := DescribeUHostInstanceParam.QueryString |}.

Module UClient.
Record t : Type := mk {
  BaseURL : string;
  PublicKey : string;
  PrivateKey : string
}.

Definition New (baseURL pubKey privKey : string) : t :=
  mk baseURL pubKey privKey.

Definition GetQueryURL {P} `{Parameter_ P} (c : t) (p : P) : string :=
  c.(BaseURL) +:+ "/?" +:+ QueryString p.

(** Every method: [p.setKey] on its own copy of the record, one [http.Get],
    a failed GET returned as [(nil, err)], otherwise the decoded record with
    the decoder's error. *)
Definition DescribeULB (c : t) (p : DescribeULBParam.t)
  : prog (option DescribeULBResponse.t * option error) :=
  let p := DescribeULBParam.setKey c.(PublicKey) c.(PrivateKey) p in
  resp ← http_Get OpDescribeULB (GetQueryURL c p);
  match resp with
  | GetFailed _ err => mret (None, Some (http_error err))
  | Decoded _ r err => mret (Some r, json_error <$> err)
  end.

Definition CreateULB (c : t) (p : CreateULBParam.t)
  : prog (option CreateULBResponse.t * option error) :=
  let p := CreateULBParam.setKey c.(PublicKey) c.(PrivateKey) p in
  resp ← http_Get OpCreateULB (GetQueryURL c p);
  match resp with
  | GetFailed _ err => mret (None, Some (http_error err))
  | Decoded _ r err => mret (Some r, json_error <$> err)
  end.

Definition UpdateULBAttribute (c : t) (p : UpdateULBAttributeParam.t)
  : prog (option UpdateULBAttributeResponse.t * option error) :=
  let p := UpdateULBAttributeParam.setKey c.(PublicKey) c.(PrivateKey) p in
  resp ← http_Get OpUpdateULBAttribute (GetQueryURL c p);
  match resp with
  | GetFailed _ err => mret (None, Some (http_error err))
  | Decoded _ r err => mret (Some r, json_error <$> err)
  end.

Definition DeleteULB (c : t) (p : DeleteULBParam.t)
  : prog (option DeleteULBResponse.t * option error) :=
  let p := DeleteULBParam.setKey c.(PublicKey) c.(PrivateKey) p in
  resp ← http_Get OpDeleteULB (GetQueryURL c p);
  match resp with
  | GetFailed _ err => mret (None, Some (http_error err))
  | Decoded _ r err => mret (Some r, json_error <$> err)
  end.

Definition CreateVServer (c : t) (p : CreateVServerParam.t)
  : prog (option CreateVServerResponse.t * option error) :=
  let p := CreateVServerParam.setKey c.(PublicKey) c.(PrivateKey) p in
  resp ← http_Get OpCreateVServer (GetQueryURL c p);
  match resp with
  | GetFailed _ err => mret (None, Some (http_error err))
  | Decoded _ r err => mret (Some r, json_error <$> err)
  end.

Definition UpdateVServerAttribute (c : t) (p : UpdateVServerAttributeParam.t)
  : prog (option UpdateVServerAttributeResponse.t * option error) :=
  let p := UpdateVServerAttributeParam.setKey c.(PublicKey) c.(PrivateKey) p in
  resp ← http_Get OpUpdateVServerAttribute (GetQueryURL c p);
  match resp with
  | GetFailed _ err => mret (None, Some (http_error err))
  | Decoded _ r err => mret (Some r, json_error <$> err)
  end.

Definition DeleteVServer (c : t) (p : DeleteVServerParam.t)
  : prog (option DeleteVServerResponse.t * option error) :=
  let p := DeleteVServerParam.setKey c.(PublicKey) c.(PrivateKey) p in
  resp ← http_Get OpDeleteVServer (GetQueryURL c p);
  match resp with
  | GetFailed _ err => mret (None, Some (http_error err))
  | Decoded _ r err => mret (Some r, json_error <$> err)
  end.

Definition AllocateBackend (c : t) (p : AllocateBackendParam.t)
  : prog (option AllocateBackendResponse.t * option error) :=
  let p := AllocateBackendParam.setKey c.(PublicKey) c.(PrivateKey) p in
  resp ← http_Get OpAllocateBackend (GetQueryURL c p);
  match resp with
  | GetFailed _ err => mret (None, Some (http_error err))
  | Decoded _ r err => mret (Some r, json_error <$> err)
  end.

Definition UpdateBackendAttribute (c : t) (p : UpdateBackendAttributeParam.t)
  : prog (option UpdateBackendAttributeResponse.t * option error) :=
  let p := UpdateBackendAttributeParam.setKey c.(PublicKey) c.(PrivateKey) p in
  resp ← http_Get OpUpdateBackendAttribute (GetQueryURL c p);
  match resp with
  | GetFailed _ err => mret (None, Some (http_error err))
  | Decoded _ r err => mret (Some r, json_error <$> err)
  end.

Definition ReleaseBackend (c : t) (p : ReleaseBackendParam.t)
  : prog (option ReleaseBackendResponse.t * option error) :=
  let p := ReleaseBackendParam.setKey c.(PublicKey) c.(PrivateKey) p in
  resp ← http_Get OpReleaseBackend (GetQueryURL c p);
  match resp with
  | GetFailed _ err => mret (None, Some (http_error err))
  | Decoded _ r err => mret (Some r, json_error <$> err)
  end.

Definition AllocateEIP (c : t) (p : AllocateEIPParam.t)
  : prog (option AllocateEIPResponse.t * option error) :=
  let p := AllocateEIPParam.setKey c.(PublicKey) c.(PrivateKey) p in
  resp ← http_Get OpAllocateEIP (GetQueryURL c p);
  match resp with
  | GetFailed _ err => mret (None, Some (http_error err))
  | Decoded _ r err => mret (Some r, json_error <$> err)
  end.

Definition BindEIP (c : t) (p : BindEIPParam.t)
  : prog (option BindEIPResponse.t * option error) :=
  let p := BindEIPParam.setKey c.(PublicKey) c.(PrivateKey) p in
  resp ← http_Get OpBindEIP (GetQueryURL c p);
  match resp with
  | GetFailed _ err => mret (None, Some (http_error err))
  | Decoded _ r err => mret (Some r, json_error <$> err)
  end.

Definition UnbindEIP (c : t) (p : UnBindEIPParam.t)
  : prog (option UnBindEIPResponse.t * option error) :=
  let p := UnBindEIPParam.setKey c.(PublicKey) c.(PrivateKey) p in
  resp ← http_Get OpUnbindEIP (GetQueryURL c p);
  match resp with
  | GetFailed _ err => mret (None, Some (http_error err))
  | Decoded _ r err => mret (Some r, json_error <$> err)
  end.

Definition ReleaseEIP (c : t) (p : ReleaseEIPParam.t)
  : prog (option ReleaseEIPResponse.t * option error) :=
  let p := ReleaseEIPParam.setKey c.(PublicKey) c.(PrivateKey) p in
  resp ← http_Get OpReleaseEIP (GetQueryURL c p);
  match resp with
  | GetFailed _ err => mret (None, Some (http_error err))
  | Decoded _ r err => mret (Some r, json_error <$> err)
  end.

Definition DescribeUHostInstance (c : t) (p : DescribeUHostInstanceParam.t)
  : prog (option DescribeUHostInstanceResponse.t * option error) :=
  let p := DescribeUHostInstanceParam.setKey c.(PublicKey) c.(PrivateKey) p in
  resp ← http_Get OpDescribeUHostInstance (GetQueryURL c p);
  match resp with
  | GetFailed _ err => mret (None, Some (http_error err))
  | Decoded _ r err => mret (Some r, json_error <$> err)
  end.
End UClient.

(** The client, indexed by operation: [call op] is the Go method for [op]. *)
Definition call (op : Operation) : UClient.t → Param op → prog (option (Response op) * option error) :=
  match op with
  | OpDescribeULB => UClient.DescribeULB
  | OpCreateULB => UClient.CreateULB
  | OpUpdateULBAttribute => UClient.UpdateULBAttribute
  | OpDeleteULB => UClient.DeleteULB
  | OpCreateVServer => UClient.CreateVServer
  | OpUpdateVServerAttribute => UClient.UpdateVServerAttribute
  | OpDeleteVServer => UClient.DeleteVServer
  | OpAllocateBackend => UClient.AllocateBackend
  | OpUpdateBackendAttribute => UClient.UpdateBackendAttribute
  | OpReleaseBackend => UClient.ReleaseBackend
  | OpAllocateEIP => UClient.AllocateEIP
  | OpBindEIP => UClient.BindEIP
  | OpUnbindEIP => UClient.UnbindEIP
  | OpReleaseEIP => UClient.ReleaseEIP
  | OpDescribeUHostInstance => UClient.DescribeUHostInstance
  end.

Definition setKey (op : Operation) : string → string → Param op → Param op :=
  match op with
  | OpDescribeULB => DescribeULBParam.setKey
  | OpCreateULB => CreateULBParam.setKey
  | OpUpdateULBAttribute => UpdateULBAttributeParam.setKey
  | OpDeleteULB => DeleteULBParam.setKey
  | OpCreateVServer => CreateVServerParam.setKey
  | OpUpdateVServerAttribute => UpdateVServerAttributeParam.setKey
  | OpDeleteVServer => DeleteVServerParam.setKey
  | OpAllocateBackend => AllocateBackendParam.setKey
  | OpUpdateBackendAttribute => UpdateBackendAttributeParam.setKey
  | OpReleaseBackend => ReleaseBackendParam.setKey
  | OpAllocateEIP => AllocateEIPParam.setKey
  | OpBindEIP => BindEIPParam.setKey
  | OpUnbindEIP => UnBindEIPParam.setKey
  | OpReleaseEIP => ReleaseEIPParam.setKey
  | OpDescribeUHostInstance => DescribeUHostInstanceParam.setKey
  end.

Definition fields (op : Operation) : Param op → list (string * value) :=
  match op with
  | OpDescribeULB => DescribeULBParam.fields
  | OpCreateULB => CreateULBParam.fields
  | OpUpdateULBAttribute => UpdateULBAttributeParam.fields
  | OpDeleteULB => DeleteULBParam.fields
  | OpCreateVServer => CreateVServerParam.fields
  | OpUpdateVServerAttribute => UpdateVServerAttributeParam.fields
  | OpDeleteVServer => DeleteVServerParam.fields
  | OpAllocateBackend => AllocateBackendParam.fields
  | OpUpdateBackendAttribute => UpdateBackendAttributeParam.fields
  | OpReleaseBackend => ReleaseBackendParam.fields
  | OpAllocateEIP => AllocateEIPParam.fields
  | OpBindEIP => BindEIPParam.fields
  | OpUnbindEIP => UnBindEIPParam.fields
  | OpReleaseEIP => ReleaseEIPParam.fields
  | OpDescribeUHostInstance => DescribeUHostInstanceParam.fields
  end.

Definition RetCode (op : Operation) : Response op → Z :=
  match op with
  | OpDescribeULB => DescribeULBResponse.RetCode
  | OpCreateULB => CreateULBResponse.RetCode
  | OpUpdateULBAttribute => UpdateULBAttributeResponse.RetCode
  | OpDeleteULB => DeleteULBResponse.RetCode
  | OpCreateVServer => CreateVServerResponse.RetCode
  | OpUpdateVServerAttribute => UpdateVServerAttributeResponse.RetCode
  | OpDeleteVServer => DeleteVServerResponse.RetCode
  | OpAllocateBackend => AllocateBackendResponse.RetCode
  | OpUpdateBackendAttribute => UpdateBackendAttributeResponse.RetCode
  | OpReleaseBackend => ReleaseBackendResponse.RetCode
  | OpAllocateEIP => AllocateEIPResponse.RetCode
  | OpBindEIP => BindEIPResponse.RetCode
  | OpUnbindEIP => UnBindEIPResponse.RetCode
  | OpReleaseEIP => ReleaseEIPResponse.RetCode
  | OpDescribeUHostInstance => DescribeUHostInstanceResponse.RetCode
  end.

Definition action_name (op : Operation) : string :=
  match op with
  | OpDescribeULB => "DescribeULB"
  | OpCreateULB => "CreateULB"
  | OpUpdateULBAttribute => "UpdateULBAttribute"
  | OpDeleteULB => "DeleteULB"
  | OpCreateVServer => "CreateVServer"
  | OpUpdateVServerAttribute => "UpdateVServerAttribute"
  | OpDeleteVServer => "DeleteVServer"
  | OpAllocateBackend => "AllocateBackend"
  | OpUpdateBackendAttribute => "UpdateBackendAttribute"
  | OpReleaseBackend => "ReleaseBackend"
  | OpAllocateEIP => "AllocateEIP"
  | OpBindEIP => "BindEIP"
  | OpUnbindEIP => "UnBindEIP"
  | OpReleaseEIP => "ReleaseEIP"
  | OpDescribeUHostInstance => "DescribeUHostInstance"
  end.

Definition queryString (op : Operation) : Param op → string :=
  match op with
  | OpDescribeULB => DescribeULBParam.QueryString
  | OpCreateULB => CreateULBParam.QueryString
  | OpUpdateULBAttribute => UpdateULBAttributeParam.QueryString
  | OpDeleteULB => DeleteULBParam.QueryString
  | OpCreateVServer => CreateVServerParam.QueryString
  | OpUpdateVServerAttribute => UpdateVServerAttributeParam.QueryString
  | OpDeleteVServer => DeleteVServerParam.QueryString
  | OpAllocateBackend => AllocateBackendParam.QueryString
  | OpUpdateBackendAttribute => UpdateBackendAttributeParam.QueryString
  | OpReleaseBackend => ReleaseBackendParam.QueryString
  | OpAllocateEIP => AllocateEIPParam.QueryString
  | OpBindEIP => BindEIPParam.QueryString
  | OpUnbindEIP => UnBindEIPParam.QueryString
  | OpReleaseEIP => ReleaseEIPParam.QueryString
  | OpDescribeUHostInstance => DescribeUHostInstanceParam.QueryString
  end.

(** The zero value of each response record. *)
Definition zero_response (op : Operation) : Response op :=
  match op with
  | OpDescribeULB => DescribeULBResponse.zero
  | OpCreateULB => CreateULBResponse.zero
  | OpUpdateULBAttribute => ReturnStatus.zero
  | OpDeleteULB => ReturnStatus.zero
  | OpCreateVServer => CreateVServerResponse.zero
  | OpUpdateVServerAttribute => ReturnStatus.zero
  | OpDeleteVServer => ReturnStatus.zero
  | OpAllocateBackend => AllocateBackendResponse.zero
  | OpUpdateBackendAttribute => ReturnStatus.zero
  | OpReleaseBackend => ReturnStatus.zero
  | OpAllocateEIP => AllocateEIPResponse.zero
  | OpBindEIP => ReturnStatus.zero
  | OpUnbindEIP => ReturnStatus.zero
  | OpReleaseEIP => ReturnStatus.zero
  | OpDescribeUHostInstance => DescribeUHostInstanceResponse.zero
  end.

(** ** ucloud.go: the provider adapter *)

(** The part of the orchestrator's [api.Service] that the adapter reads:
    [Spec.Ports], and the load-balancer name.
    [cloudprovider.GetLoadBalancerName] is outside these two files, so the
    name it derives from a service is taken as given with the service. *)
Module api.
Record ServicePort : Type := mkServicePort {
  Port : Z;
  NodePort : Z
}.
Record Service : Type := mkService {
  LoadBalancerName : string;
  Spec_Ports : list ServicePort
}.
(** What the adapter fills of [api.LoadBalancerStatus]: one ingress point
    with its IP. *)
Record LoadBalancerIngress : Type := mkLoadBalancerIngress {
  IP : string
}.
Record LoadBalancerStatus : Type := mkLoadBalancerStatus {
  Ingress : list LoadBalancerIngress
}.
End api.

Module cloudprovider.
Definition GetLoadBalancerName (service : api.Service) : string :=
  api.LoadBalancerName service.
End cloudprovider.

(** The order in which [for k, v := range m] visits a map's entries is not
    specified: any rearrangement of the entries can occur. *)
Record RangeOrder : Type := mkRangeOrder {
  visit : ∀ A : Type, list A → list A;
  visit_perm : ∀ (A : Type) (l : list A), visit A l ≡ₚ l
}.

Definition range {V} (ord : RangeOrder) (m : gmap string V) : list (string * V) :=
  visit ord _ (map_to_list m).

(** One possible order: that of [map_to_list]. *)
Definition map_to_list_order : RangeOrder :=
  mkRangeOrder (fun _ l => l) (fun _ l => reflexivity l).

(** Another: the reverse. *)
Definition reverse_order : RangeOrder :=
  mkRangeOrder (fun _ l => reverse l) (fun _ l => reverse_Permutation l).

(** The part of [intstr.IntOrString] that the adapter reads. *)
Module intstr.
Inductive Type_ : Type := Int | String.
Record IntOrString : Type := mk {
  type : Type_;
  IntVal : Z
}.
#[global] Instance Type_eq_dec : EqDecision Type_.
Proof. solve_decision. Defined.
End intstr.

Definition providerName : string := "ucloud".
Definition operatorName : string := "Bgp".


Module Cloud.
Record t : Type := mk {
  UClient : UClient.t;
  Region : string;
  Zone : string;
  ProjectID : string;
  selfInstance : option UHostInstanceSet.t
}.

Definition describeLoadBalancer (c : t) (name : string)
  : prog (option ULBSet.t * option error) :=
  let p := DescribeULBParam.mk "" "" "" "" c.(ProjectID) c.(Region) 0 100 "" in
  '(resp, err) ← UClient.DescribeULB c.(UClient) p;
  match err with
  | Some e => mret (None, Some e)
  | None =>
      resp ← deref resp;
      if bool_decide (DescribeULBResponse.RetCode resp ≠ 0%Z)
      then mret (None, Some ULBNotFound)
      else
        found ← for_range (DescribeULBResponse.DataSet resp) (fun lb =>
          if bool_decide (ULBSet.Name lb = name)
          then mret (Some (Some lb, None))
          else mret None);
        match found with
        | Some ret => mret ret
        | None => mret (None, Some ULBNotFound)
        end
  end.

Definition deleteLoadBalancer (c : t) (name : string) : prog (option error) :=
  '(ulbSet, err) ← describeLoadBalancer c name;
  if bool_decide (err ≠ None ∧ err = Some ULBNotFound) then mret None
  else
    ulb ← deref ulbSet;
    let p := DeleteULBParam.mk "" "" "" "" c.(ProjectID) c.(Region)
               (ULBSet.ULBID ulb) in
    '(r, err) ← UClient.DeleteULB c.(UClient) p;
    _ ← match err with
        | Some e => glog_Error (Error e)
        | None => mret tt
        end;
    r ← deref r;
    _ ← (if bool_decide (DeleteULBResponse.RetCode r ≠ 0%Z)
         then glog_Error (DeleteULBResponse.Message r)
         else mret tt);
    _ ← for_range (R := error) (ULBSet.IPSet ulb) (fun ipSet =>
          let p2 := ReleaseEIPParam.mk "" "" "" "" c.(Region)
                      (ULBIPSet.EIPID ipSet) in
          '(r2, err) ← UClient.ReleaseEIP c.(UClient) p2;
          match err with
          | Some e => _ ← glog_Error (Error e); mret None
          | None =>
              r2 ← deref r2;
              _ ← (if bool_decide (ReleaseEIPResponse.RetCode r2 ≠ 0%Z)
                   then glog_Error (ReleaseEIPResponse.Message r2)
                   else mret tt);
              mret None
          end);
    mret None.

Definition getUHostIDs (c : t) (nodeNames : list string)
  : prog (list string * option error) :=
  let instanceIDs : list string := [] in
  let p := DescribeUHostInstanceParam.mk "" "" "" "" c.(ProjectID) c.(Region)
             "" "" "" 0 100 in
  '(r, err) ← UClient.DescribeUHostInstance c.(UClient) p;
  match err with
  | Some e => mret (instanceIDs, Some e)
  | None =>
      r ← deref r;
      if bool_decide (DescribeUHostInstanceResponse.RetCode r ≠ 0%Z)
      then mret (instanceIDs,
                 Some (errors_New (DescribeUHostInstanceResponse.Message r)))
      else
        let nn : gmap string bool :=
          foldl (fun nn name => <[name := true]> nn) ∅ nodeNames in
        let instanceIDs :=
          foldl (fun ids host =>
                   foldl (fun ids ip =>
                            match nn !! UHostIPSet.IP ip with
                            | Some _ => ids ++ [UHostInstanceSet.UHostID host]
                            | None => ids
                            end)
                         ids (UHostInstanceSet.IPSet host))
                instanceIDs (DescribeUHostInstanceResponse.UHostSet r) in
        mret (instanceIDs, None)
  end.

Definition UpdateLoadBalancer (ord : RangeOrder) (c : t) (clusterName : string)
    (service : api.Service) (nodeNames : list string) : prog (option error) :=
  let loadBalancerName := cloudprovider.GetLoadBalancerName service in
  '(ulbSet, err) ← describeLoadBalancer c loadBalancerName;
  match err with
  | Some e => mret (Some e)
  | None =>
  match api.Spec_Ports service with
  | [] => mret (Some (errors_New "no port found for serivce"))
  | port0 :: _ =>
  let port := api.Port port0 in
  '(uHostIDs, err) ← getUHostIDs c nodeNames;
  match err with
  | Some e => mret (Some e)
  | None =>
  ulb ← deref ulbSet;
  let ulbID := ULBSet.ULBID ulb in
  vserver ← first (ULBSet.VServerSet ulb);
  let vserverID := ULBVServerSet.VserverID vserver in
  let m1 : gmap string bool :=
    foldl (fun m1 host => <[host := true]> m1) ∅ uHostIDs in
  let m2 : gmap string string :=
    foldl (fun m2 backend =>
             <[ULBBackendSet.ResourceID backend := ULBBackendSet.BackendID backend]> m2)
          ∅ (ULBVServerSet.VServerSet vserver) in
  released ← for_range (range ord m2) (fun '(host, backendID) =>
    match m1 !! host with
    | Some _ => mret None
    | None =>
        let p := ReleaseBackendParam.mk "" "" "" "" c.(ProjectID) c.(Region)
                   ulbID backendID in
        '(r, err) ← UClient.ReleaseBackend c.(UClient) p;
        match err with
        | Some e => mret (Some (Some e))
        | None =>
            r ← deref r;
            if bool_decide (ReleaseBackendResponse.RetCode r ≠ 0%Z)
            then mret (Some (Some (errors_New (ReleaseBackendResponse.Message r))))
            else mret None
        end
    end);
  match released with
  | Some ret => mret ret
  | None =>
  allocated ← for_range (range ord m1) (fun '(host, _) =>
    match m2 !! host with
    | Some _ => mret None
    | None =>
        let p := AllocateBackendParam.mk "" "" "" "" c.(ProjectID) c.(Region)
                   ulbID vserverID "UHost" host port 1 in
        '(r, err) ← UClient.AllocateBackend c.(UClient) p;
        match err with
        | Some e => mret (Some (Some e))
        | None =>
            r ← deref r;
            if bool_decide (AllocateBackendResponse.RetCode r ≠ 0%Z)
            then mret (Some (Some (errors_New (AllocateBackendResponse.Message r))))
            else mret None
        end
    end);
  match allocated with
  | Some ret => mret ret
  | None => mret None
  end end end end end.

Definition EnsureLoadBalancerDeleted (c : t) (clusterName : string)
    (service : api.Service) : prog (option error) :=
  let loadBalancerName := cloudprovider.GetLoadBalancerName service in
  deleteLoadBalancer c loadBalancerName.
(** [ExternalID] and [InstanceID] have the same body. [types.NodeName] is a
    string. *)
Definition ExternalID (c : t) (nodeName : string) : prog (string * option error) :=
  '(ids, err) ← getUHostIDs c [nodeName];
  match err with
  | Some e => mret ("", Some e)
  | None =>
      match ids with
      | [] => mret ("", Some InstanceNotFound)
      | id0 :: _ => mret (id0, None)
      end
  end.

Definition InstanceID (c : t) (nodeName : string) : prog (string * option error) :=
  '(ids, err) ← getUHostIDs c [nodeName];
  match err with
  | Some e => mret ("", Some e)
  | None =>
      match ids with
      | [] => mret ("", Some InstanceNotFound)
      | id0 :: _ => mret (id0, None)
      end
  end.

Definition InstanceType (c : t) (nodeName : string) : prog (string * option error) :=
  let p := DescribeUHostInstanceParam.mk "" "" "" "" c.(ProjectID) c.(Region)
             "" "" "" 0 100 in
  '(r, err) ← UClient.DescribeUHostInstance c.(UClient) p;
  match err with
  | Some e => mret ("", Some e)
  | None =>
      r ← deref r;
      if bool_decide (DescribeUHostInstanceResponse.RetCode r ≠ 0%Z)
      then mret ("", Some (errors_New (DescribeUHostInstanceResponse.Message r)))
      else
        found ← for_range (DescribeUHostInstanceResponse.UHostSet r) (fun host =>
          for_range (UHostInstanceSet.IPSet host) (fun ip =>
            if bool_decide (UHostIPSet.IP ip = nodeName)
            then mret (Some (UHostInstanceSet.UHostType host, @None error))
            else mret None));
        match found with
        | Some ret => mret ret
        | None => mret ("", Some InstanceNotFound)
        end
  end.

Definition createLoadBalancer (c : t) (name : string) (hostIDs : list string)
    (backendPort frontendPort : Z) : prog (string * option error) :=
  let eip := "" in
  let p1 := CreateULBParam.mk "" "" "" "" c.(ProjectID) c.(Region) name
              "tidb-k8s-poc" "" "Yes" "" "" in
  '(r1, err) ← UClient.CreateULB c.(UClient) p1;
  match err with
  | Some e => mret (eip, Some e)
  | None =>
  r1 ← deref r1;
  if bool_decide (CreateULBResponse.RetCode r1 ≠ 0%Z)
  then mret (eip, Some (errors_New (CreateULBResponse.Message r1)))
  else
  let p2 := AllocateEIPParam.mk "" "" "" "" c.(Region) operatorName 2 "" "" 1
              "" "" "" "" "" in
  '(r2, err) ← UClient.AllocateEIP c.(UClient) p2;
  match err with
  | Some e => mret (eip, Some e)
  | None =>
  r2 ← deref r2;
  if bool_decide (AllocateEIPResponse.RetCode r2 ≠ 0%Z)
  then mret (eip, Some (errors_New (AllocateEIPResponse.Message r2)))
  else
  eip0 ← first (AllocateEIPResponse.EIPSet r2);
  let p3 := BindEIPParam.mk "" "" "" "" c.(Region) (UnetAllocateEIPSet.EIPID eip0)
              "ulb" (CreateULBResponse.ULBID r1) in
  '(r3, err) ← UClient.BindEIP c.(UClient) p3;
  match err with
  | Some e => mret (eip, Some e)
  | None =>
  r3 ← deref r3;
  if bool_decide (BindEIPResponse.RetCode r3 ≠ 0%Z)
  then mret (eip, Some (errors_New (BindEIPResponse.Message r3)))
  else
  let p4 := CreateVServerParam.mk "" "" "" "" c.(ProjectID) c.(Region)
              (CreateULBResponse.ULBID r1) "tidb-server" "RequestProxy" "TCP"
              frontendPort "" "" "" 60 in
  '(r4, err) ← UClient.CreateVServer c.(UClient) p4;
  match err with
  | Some e => mret (eip, Some e)
  | None =>
  r4 ← deref r4;
  if bool_decide (CreateVServerResponse.RetCode r4 ≠ 0%Z)
  then mret (eip, Some (errors_New (CreateVServerResponse.Message r4)))
  else
  allocated ← for_range hostIDs (fun host =>
    let p5 := AllocateBackendParam.mk "" "" "" "" c.(ProjectID) c.(Region)
                (CreateULBResponse.ULBID r1) (CreateVServerResponse.VServerID r4)
                "UHost" host backendPort 1 in
    '(r5, err) ← UClient.AllocateBackend c.(UClient) p5;
    match err with
    | Some e => mret (Some (eip, Some e))
    | None =>
        r5 ← deref r5;
        if bool_decide (AllocateBackendResponse.RetCode r5 ≠ 0%Z)
        then mret (Some (eip, Some (errors_New (AllocateBackendResponse.Message r5))))
        else mret None
    end);
  match allocated with
  | Some ret => mret ret
  | None =>
  eip0 ← first (AllocateEIPResponse.EIPSet r2);
  addr0 ← first (UnetAllocateEIPSet.EIPAddr eip0);
  let eip := UnetEIPAddrSet.IP addr0 in
  mret (eip, None)
  end end end end end.


(** [api.ServicePort] above carries [Port] and [NodePort]; the [TargetPort]
    of [service.Spec.Ports[0]], which only this function reads, is passed
    next to the service as [targetPort]. *)
Definition EnsureLoadBalancer (c : t) (clusterName : string)
    (service : api.Service) (targetPort : intstr.IntOrString)
    (nodeNames : list string)
  : prog (option api.LoadBalancerStatus * option error) :=
  let loadBalancerName := cloudprovider.GetLoadBalancerName service in
  '(_, err) ← describeLoadBalancer c loadBalancerName;
  if bool_decide (err ≠ None ∧ err ≠ Some ULBNotFound) then mret (@None api.LoadBalancerStatus, err)
  else
  match api.Spec_Ports service with
  | [] => mret (@None api.LoadBalancerStatus, Some (errors_New "no port found for service"))
  | port0 :: _ =>
  let backendPort := api.NodePort port0 in
  let frontendPort := api.Port port0 in
  let frontendPort :=
    if bool_decide (intstr.type targetPort = intstr.Int)
    then intstr.IntVal targetPort
    else frontendPort in
  '(uHostIDs, err) ← getUHostIDs c nodeNames;
  match err with
  | Some e => mret (@None api.LoadBalancerStatus, Some e)
  | None =>
  '(eip, err) ← createLoadBalancer c loadBalancerName uHostIDs backendPort
                  frontendPort;
  match err with
  | Some e => mret (@None api.LoadBalancerStatus, Some e)
  | None =>
  let status := api.mkLoadBalancerStatus [api.mkLoadBalancerIngress eip] in
  mret (Some status, None)
  end end end.
End Cloud.

(** ** Definitions used to state the properties *)

(** Concatenation of a list of strings. *)
Definition join (l : list string) : string := foldr String.app "" l.

(** The signed part [name ++ value] of a key, and its [&name=value] pair. *)
Definition signed_pair (p : Params) (k : string) : string := k +:+ index p k.

Definition query_pair (p : Params) (k : string) : string :=
  "&" +:+ Values_Encode k (index p k).

(** The map [toParams] builds from a parameter record. *)
Definition record_params (op : Operation) (r : Param op) : Params :=
  toParams (fields op r).

(** The record of the signing scenario: a [DescribeULBParam] with [Action],
    [Region] and [Limit] set, signed with the secret ["secret"]; every other
    field has its zero value. *)
Definition scenario_record : DescribeULBParam.t :=
  DescribeULBParam.mk "DescribeULB" "" "secret" "" "" "cn-bj2" 0 100 "".

(** The URL a client method requests: the record after [setKey], signed. *)
Definition request_url (op : Operation) (c : UClient.t) (p : Param op) : string :=
  UClient.BaseURL c +:+ "/?"
  +:+ queryString op (setKey op (UClient.PublicKey c) (UClient.PrivateKey c) p).

(** What a client method returns for a given result of the GET. *)
Definition client_result {R} (resp : http_result R) : option R * option error :=
  match resp with
  | GetFailed _ err => (None, Some (http_error err))
  | Decoded _ r err => (Some r, json_error <$> err)
  end.

(** Some remote sides, used to run the programs on concrete inputs. *)

(** Every GET fails in transport. *)
Definition unreachable_remote : handler :=
  fun op _ _ => GetFailed _ "connection refused".

(** Every GET succeeds and decodes to the record [answer op]. *)
Definition answering (answer : ∀ op, Response op) : handler :=
  fun op _ _ => Decoded _ (answer op) None.

(** A status header reporting failure. *)
Definition failed_status : ReturnStatus.t := ReturnStatus.mk 1 "" "denied".

(** Every operation is answered with a failure status (non-zero [RetCode])
    in an otherwise well-formed response. *)
Definition refusing_answer (op : Operation) : Response op :=
  match op with
  | OpDescribeULB => DescribeULBResponse.mk failed_status 0 []
  | OpCreateULB => CreateULBResponse.mk failed_status ""
  | OpCreateVServer => CreateVServerResponse.mk failed_status ""
  | OpAllocateBackend => AllocateBackendResponse.mk failed_status ""
  | OpAllocateEIP => AllocateEIPResponse.mk failed_status []
  | OpDescribeUHostInstance => DescribeUHostInstanceResponse.mk failed_status 0 []
  | OpUpdateULBAttribute | OpDeleteULB | OpUpdateVServerAttribute
  | OpDeleteVServer | OpUpdateBackendAttribute | OpReleaseBackend
  | OpBindEIP | OpUnbindEIP | OpReleaseEIP => failed_status
  end.

Definition example_client : UClient.t :=
  UClient.mk "https://api.ucloud.cn" "pub" "secret".

(** A field is included when its stringified value is not empty. *)
Definition included (p : Params) (k : string) : Prop :=
  ∃ v, p !! k = Some v ∧ v ≠ "".

(** The characters of [%x]. *)
Definition is_lower_hex (c : ascii) : bool :=
  let n := N_of_ascii c in
  ((48 <=? n) && (n <=? 57) || (97 <=? n) && (n <=? 102))%N.

Fixpoint string_forall (f : ascii → bool) (s : string) : bool :=
  match s with
  | EmptyString => true
  | String c s' => f c && string_forall f s'
  end.

(** The requests of the adapter. *)
Definition describe_url (c : Cloud.t) : string :=
  request_url OpDescribeULB (Cloud.UClient c)
    (DescribeULBParam.mk "" "" "" "" (Cloud.ProjectID c) (Cloud.Region c) 0 100 "").

Definition delete_url (c : Cloud.t) (ulb : ULBSet.t) : string :=
  request_url OpDeleteULB (Cloud.UClient c)
    (DeleteULBParam.mk "" "" "" "" (Cloud.ProjectID c) (Cloud.Region c)
       (ULBSet.ULBID ulb)).

Definition release_eip_url (c : Cloud.t) (ipSet : ULBIPSet.t) : string :=
  request_url OpReleaseEIP (Cloud.UClient c)
    (ReleaseEIPParam.mk "" "" "" "" (Cloud.Region c) (ULBIPSet.EIPID ipSet)).

(** The first entry of a [DataSet] with the requested name. *)
Definition named (name : string) (l : list ULBSet.t) : option ULBSet.t :=
  head (filter (fun lb => ULBSet.Name lb = name) l).

(** What [describeLoadBalancer] returns for a given result of its GET. *)
Definition lookup_result (name : string) (resp : http_result DescribeULBResponse.t)
  : option ULBSet.t * option error :=
  match resp with
  | GetFailed _ err => (None, Some (http_error err))
  | Decoded _ _ (Some err) => (None, Some (json_error err))
  | Decoded _ r None =>
      if bool_decide (DescribeULBResponse.RetCode r ≠ 0%Z)
      then (None, Some ULBNotFound)
      else match named name (DescribeULBResponse.DataSet r) with
           | Some lb => (Some lb, None)
           | None => (None, Some ULBNotFound)
           end
  end.

(** A load balancer named [lb-1] with two elastic IPs and one virtual
    server, and remotes that know it. *)
Definition example_cloud : Cloud.t :=
  Cloud.mk example_client "cn-bj2" "cn-bj2-04" "org-1" None.

Definition example_ulb : ULBSet.t :=
  ULBSet.mk "ulb-1" "" "lb-1" "" "" 0 0 0 0
    [ULBIPSet.mk "Bgp" "10.0.0.1" "eip-1"; ULBIPSet.mk "Bgp" "10.0.0.2" "eip-2"]
    [] "".

Definition example_listing : DescribeULBResponse.t :=
  DescribeULBResponse.mk ReturnStatus.zero 1 [example_ulb].

(** Knows [lb-1]; every other operation is refused with a non-zero
    [RetCode]. *)
Definition refusing_remote : handler :=
  answering (fun op =>
    match op as o return Response o with
    | OpDescribeULB => example_listing
    | o => refusing_answer o
    end).

(** Knows [lb-1]; every other GET fails in transport. *)
Definition listing_only_remote : handler :=
  fun op _ _ =>
    match op as o return http_result (Response o) with
    | OpDescribeULB => Decoded _ example_listing None
    | _ => GetFailed _ "connection reset"
    end.

(** Knows [lb-1], accepts its deletion, and fails every other GET in
    transport. *)
Definition no_release_remote : handler :=
  fun op _ _ =>
    match op as o return http_result (Response o) with
    | OpDescribeULB => Decoded _ example_listing None
    | OpDeleteULB => Decoded _ ReturnStatus.zero None
    | _ => GetFailed _ "connection reset"
    end.

(** What the log and the trace must hold once the release of one elastic
    IP has been attempted: its GET was issued; when that GET can only fail
    in transport, the error was logged; when it can only be answered with a
    well-formed response of non-zero [RetCode], the message was logged. *)
Definition release_attempted (h : handler) (c : Cloud.t) (tr : list event)
    (ipSet : ULBIPSet.t) : Prop :=
  EvGet OpReleaseEIP (release_eip_url c ipSet) ∈ tr
  ∧ (∀ err, (∀ t, h OpReleaseEIP t (release_eip_url c ipSet) = GetFailed _ err) →
       EvLog err ∈ tr)
  ∧ (∀ r, (∀ t, h OpReleaseEIP t (release_eip_url c ipSet) = Decoded _ r None) →
       ReleaseEIPResponse.RetCode r ≠ 0%Z →
       EvLog (ReleaseEIPResponse.Message r) ∈ tr).

(** The operations requested and the messages logged in a trace, in order. *)
Definition requested (tr : list event) : list Operation :=
  omap (fun e => match e with EvGet op _ => Some op | EvLog _ => None end) tr.

Definition logged (tr : list event) : list string :=
  omap (fun e => match e with EvLog msg => Some msg | EvGet _ _ => None end) tr.

Definition example_service : api.Service :=
  api.mkService "lb-1" [api.mkServicePort 4000 30080].

(** The pieces of [UpdateLoadBalancer], named to state what it requests. *)

(** [getUHostIDs]: the IDs of the hosts one of whose IPs is a node name, in
    the order of the listing, one entry per matching IP. *)
Definition matching_host_ids (nodeNames : list string)
    (hosts : list UHostInstanceSet.t) : list string :=
  let nn : gmap string bool :=
    foldl (fun nn name => <[name := true]> nn) ∅ nodeNames in
  foldl (fun ids host =>
           foldl (fun ids ip =>
                    match nn !! UHostIPSet.IP ip with
                    | Some _ => ids ++ [UHostInstanceSet.UHostID host]
                    | None => ids
                    end)
                 ids (UHostInstanceSet.IPSet host))
        [] hosts.

(** [m1]: the desired hosts. *)
Definition desired_hosts (uHostIDs : list string) : gmap string bool :=
  foldl (fun m1 host => <[host := true]> m1) ∅ uHostIDs.

(** [m2]: the bound hosts, each with the ID of its backend binding (the last
    listed one when a host is bound more than once). *)
Definition bound_backends (backends : list ULBBackendSet.t) : gmap string string :=
  foldl (fun m2 backend =>
           <[ULBBackendSet.ResourceID backend := ULBBackendSet.BackendID backend]> m2)
        ∅ backends.

Definition hosts_url (c : Cloud.t) : string :=
  request_url OpDescribeUHostInstance (Cloud.UClient c)
    (DescribeUHostInstanceParam.mk "" "" "" "" (Cloud.ProjectID c) (Cloud.Region c)
       "" "" "" 0 100).

Definition release_backend_url (c : Cloud.t) (ulbID backendID : string) : string :=
  request_url OpReleaseBackend (Cloud.UClient c)
    (ReleaseBackendParam.mk "" "" "" "" (Cloud.ProjectID c) (Cloud.Region c)
       ulbID backendID).

Definition allocate_backend_url (c : Cloud.t) (ulbID vserverID host : string)
    (port : Z) : string :=
  request_url OpAllocateBackend (Cloud.UClient c)
    (AllocateBackendParam.mk "" "" "" "" (Cloud.ProjectID c) (Cloud.Region c)
       ulbID vserverID "UHost" host port 1).

(** The remote accepts every change of membership: each ReleaseBackend and
    AllocateBackend GET succeeds, decodes, and carries [RetCode] 0. *)
Definition accepts_membership_changes (h : handler) : Prop :=
  (∀ t url, ∃ r, h OpReleaseBackend t url = Decoded _ r None
                 ∧ ReleaseBackendResponse.RetCode r = 0%Z)
  ∧ (∀ t url, ∃ r, h OpAllocateBackend t url = Decoded _ r None
                   ∧ AllocateBackendResponse.RetCode r = 0%Z).

(** A membership update: [lb-1] has one virtual server to which the hosts
    [uhost-a] and [uhost-b] are bound; the account has the three hosts
    [uhost-a], [uhost-b] and [uhost-c]; the nodes wanted are those of
    [uhost-b] and [uhost-c]. *)
Definition example_backend (host backendID : string) : ULBBackendSet.t :=
  ULBBackendSet.mk backendID "UHost" host "" "" 4000 1 0.

Definition example_vserver (backends : list ULBBackendSet.t) : ULBVServerSet.t :=
  ULBVServerSet.mk "vs-1" "tidb-server" "TCP" 4000 "" "" "" 60 0 [] backends.

Definition membership_ulb (backends : list ULBBackendSet.t) : ULBSet.t :=
  ULBSet.mk "ulb-1" "" "lb-1" "" "" 0 0 0 0 [] [example_vserver backends] "".

Definition membership_listing (backends : list ULBBackendSet.t)
  : DescribeULBResponse.t :=
  DescribeULBResponse.mk ReturnStatus.zero 1 [membership_ulb backends].

Definition example_host (id ip : string) : UHostInstanceSet.t :=
  UHostInstanceSet.mk id "" "" "" "" "" "" "" "" "" "" 0 "" 0 0 0 "" []
    [UHostIPSet.mk "Private" "" ip 0] "" "" "" false.

Definition example_hosts : DescribeUHostInstanceResponse.t :=
  DescribeUHostInstanceResponse.mk ReturnStatus.zero 3
    [example_host "uhost-a" "10.0.0.1"; example_host "uhost-b" "10.0.0.2";
     example_host "uhost-c" "10.0.0.3"].

Definition example_nodes : list string := ["10.0.0.2"; "10.0.0.3"].

Definition bound_a_b : list ULBBackendSet.t :=
  [example_backend "uhost-a" "backend-a"; example_backend "uhost-b" "backend-b"].

(** [uhost-a] bound twice, [uhost-b] once. *)
Definition bound_a_a_b : list ULBBackendSet.t :=
  [example_backend "uhost-a" "backend-a1"; example_backend "uhost-a" "backend-a2";
   example_backend "uhost-b" "backend-b"].

(** Knows the load balancer and the hosts, and answers every other
    operation with [answer]. *)
Definition membership_remote (backends : list ULBBackendSet.t)
    (answer : ∀ op, Response op) : handler :=
  answering (fun op =>
    match op as o return Response o with
    | OpDescribeULB => membership_listing backends
    | OpDescribeUHostInstance => example_hosts
    | o => answer o
    end).

(** The URLs of the GETs for [op] in a trace, in order. *)
Definition requests_of (op : Operation) (tr : list event) : list string :=
  omap (fun e => match e with
                 | EvGet op' url => if decide (op' = op) then Some url else None
                 | EvLog _ => None
                 end) tr.

(** Further definitions used to state properties of the rest of the adapter. *)

(** Two maps with the same keys and values, up to an empty value and a
    [Signature] entry that only the first has. *)
Definition params_with_blanks : Params :=
  <["Signature" := "abc"]> (<["zone" := ""]> (<["Region" := "cn-bj2"]>
    (<["PrivateKey" := "secret"]> ∅))).

Definition params_without_blanks : Params :=
  <["Region" := "cn-bj2"]> (<["PrivateKey" := "secret"]> ∅).

(** A listing in which two load balancers are named [lb-1]. *)
Definition second_ulb : ULBSet.t :=
  ULBSet.mk "ulb-2" "" "lb-1" "" "" 0 0 0 0 [] [] "".

Definition other_ulb : ULBSet.t :=
  ULBSet.mk "ulb-0" "" "lb-0" "" "" 0 0 0 0 [] [] "".

Definition duplicate_listing : DescribeULBResponse.t :=
  DescribeULBResponse.mk ReturnStatus.zero 3 [other_ulb; example_ulb; second_ulb].

(** Knows [lb-1] (or the listing given) and accepts every other operation
    with the zero response. *)
Definition accepting_remote (listing : DescribeULBResponse.t) : handler :=
  answering (fun op =>
    match op as o return Response o with
    | OpDescribeULB => listing
    | o => zero_response o
    end).

(** The remote accepts every release of an elastic IP. *)
Definition accepts_releases (h : handler) : Prop :=
  ∀ t url, ∃ r, h OpReleaseEIP t url = Decoded _ r None
                ∧ ReleaseEIPResponse.RetCode r = 0%Z.

(** A host has the IP [nodeName] when one entry of its [IPSet] does. *)
Definition has_ip (nodeName : string) (host : UHostInstanceSet.t) : Prop :=
  Exists (fun ip => UHostIPSet.IP ip = nodeName) (UHostInstanceSet.IPSet host).

#[global] Instance has_ip_dec nodeName host : Decision (has_ip nodeName host).
Proof. unfold has_ip. apply _. Defined.

(** The first host of a listing that has the IP [nodeName]. *)
Definition first_host_with_ip (nodeName : string)
    (hosts : list UHostInstanceSet.t) : option UHostInstanceSet.t :=
  head (filter (has_ip nodeName) hosts).

(** A host with two addresses. *)
Definition two_ip_host (id ip1 ip2 : string) : UHostInstanceSet.t :=
  UHostInstanceSet.mk id "Normal" "" "" "" "" "" "" "" "" "" 0 "" 0 0 0 "" []
    [UHostIPSet.mk "Private" "" ip1 0; UHostIPSet.mk "Bgp" "" ip2 0] "" "" "" false.

Definition two_ip_hosts : DescribeUHostInstanceResponse.t :=
  DescribeUHostInstanceResponse.mk ReturnStatus.zero 2
    [two_ip_host "uhost-a" "10.0.0.1" "120.0.0.1";
     two_ip_host "uhost-b" "10.0.0.2" "120.0.0.2"].

(** Answers every operation with the zero response, and the host listing
    with [hosts]. *)
Definition hosts_remote (hosts : DescribeUHostInstanceResponse.t) : handler :=
  answering (fun op =>
    match op as o return Response o with
    | OpDescribeUHostInstance => hosts
    | o => zero_response o
    end).

(** The requests of [createLoadBalancer]. *)
Definition create_ulb_url (c : Cloud.t) (name : string) : string :=
  request_url OpCreateULB (Cloud.UClient c)
    (CreateULBParam.mk "" "" "" "" (Cloud.ProjectID c) (Cloud.Region c) name
       "tidb-k8s-poc" "" "Yes" "" "").

Definition allocate_eip_url (c : Cloud.t) : string :=
  request_url OpAllocateEIP (Cloud.UClient c)
    (AllocateEIPParam.mk "" "" "" "" (Cloud.Region c) operatorName 2 "" "" 1
       "" "" "" "" "").

Definition bind_eip_url (c : Cloud.t) (eipID ulbID : string) : string :=
  request_url OpBindEIP (Cloud.UClient c)
    (BindEIPParam.mk "" "" "" "" (Cloud.Region c) eipID "ulb" ulbID).

Definition create_vserver_url (c : Cloud.t) (ulbID : string) (frontendPort : Z)
  : string :=
  request_url OpCreateVServer (Cloud.UClient c)
    (CreateVServerParam.mk "" "" "" "" (Cloud.ProjectID c) (Cloud.Region c)
       ulbID "tidb-server" "RequestProxy" "TCP" frontendPort "" "" "" 60).

(** The operations of a complete creation for [n] hosts, in order. *)
Definition create_sequence (n : nat) : list Operation :=
  [OpCreateULB; OpAllocateEIP; OpBindEIP; OpCreateVServer]
  ++ replicate n OpAllocateBackend.

(** The remote accepts every AllocateBackend call. *)
Definition accepts_backends (h : handler) : Prop :=
  ∀ t url, ∃ r, h OpAllocateBackend t url = Decoded _ r None
                ∧ AllocateBackendResponse.RetCode r = 0%Z.

(** A remote that creates [ulb-9], allocates the elastic IP [eip-9] with the
    addresses given, creates the virtual server [vs-9] and accepts the rest. *)
Definition creating_answer (addrs : list UnetEIPAddrSet.t) (op : Operation)
  : Response op :=
  match op as o return Response o with
  | OpCreateULB => CreateULBResponse.mk ReturnStatus.zero "ulb-9"
  | OpAllocateEIP =>
      AllocateEIPResponse.mk ReturnStatus.zero [UnetAllocateEIPSet.mk "eip-9" addrs]
  | OpCreateVServer => CreateVServerResponse.mk ReturnStatus.zero "vs-9"
  | o => zero_response o
  end.

(** A remote that knows [lb-1], lists the three example hosts and answers a
    creation as [creating_answer] does, with one address. *)
Definition ensure_remote : handler :=
  answering (fun op =>
    match op as o return Response o with
    | OpDescribeULB => example_listing
    | OpDescribeUHostInstance => example_hosts
    | o => creating_answer [UnetEIPAddrSet.mk "Bgp" "120.0.0.9"] o
    end).

(** A target port given as a number, and one given as a name. *)
Definition numeric_target : intstr.IntOrString := intstr.mk intstr.Int 8080.
Definition named_target : intstr.IntOrString := intstr.mk intstr.String 0.

(** * Properties *)

(** ** SHA-1 test vectors (FIPS 180) *)

Example sha1_empty : sha1_hex "" = "da39a3ee5e6b4b0d3255bfef95601890afd80709".
Proof. vm_compute. reflexivity. Qed.

Example sha1_abc : sha1_hex "abc" = "a9993e364706816aba3e25717850c26c9cd0d89d".
Proof. vm_compute. reflexivity. Qed.

Example sha1_fox :
  sha1_hex "The quick brown fox jumps over the lazy dog"
  = "2fd4e1c67a2d28fced849ee1bb76e7391b93eb12".
Proof. vm_compute. reflexivity. Qed.

Example sha1_two_blocks :
  sha1_hex "abcdbcdecdefdefgefghfghighijhijkijkljklmklmnlmnomnopnopq"
  = "84983e441c3bd26ebaae4aa1f95129e5e54670f1".
Proof. vm_compute. reflexivity. Qed.

(** ** Strings *)

Lemma string_app_assoc (a b c : string) : (a +:+ b) +:+ c = a +:+ (b +:+ c).
Proof.
  induction a as [|x a IH]; [done|].
  change (String x ((a +:+ b) +:+ c) = String x (a +:+ (b +:+ c))).
  by rewrite IH.
Qed.

Lemma string_app_nil_r (a : string) : a +:+ "" = a.
Proof.
  induction a as [|x a IH]; [done|].
  change (String x (a +:+ "") = String x a). by rewrite IH.
Qed.

Lemma string_length_app (a b : string) :
  String.length (a +:+ b) = String.length a + String.length b.
Proof.
  induction a as [|x a IH]; [done|].
  change (S (String.length (a +:+ b)) = S (String.length a) + String.length b).
  by rewrite IH.
Qed.

Lemma join_app (l1 l2 : list string) : join (l1 ++ l2) = join l1 +:+ join l2.
Proof.
  unfold join. induction l1 as [|x l1 IH]; simpl; [done|].
  by rewrite IH, string_app_assoc.
Qed.

(** Byte-wise order: upper case sorts before lower case. *)
Example String_le_bytewise :
  String.le "Region" "limit" ∧ ¬ String.le "limit" "Region"
  ∧ String.le "Limit" "Offset" ∧ String.le "UHostIds.n" "tag".
Proof. vm_compute. tauto. Qed.

(** ** The signed request builder *)

Lemma collect_keys_filter (entries : list (string * string)) :
  collect_keys entries = (filter (fun kv => kv.2 ≠ "") entries).*1.
Proof.
  unfold collect_keys.
  enough (∀ acc,
    foldl (fun keys kv => if bool_decide (kv.2 = "") then keys else keys ++ [kv.1])
      acc entries = acc ++ (filter (fun kv => kv.2 ≠ "") entries).*1) as H
    by apply (H []).
  induction entries as [|kv entries IH]; intros acc; simpl.
  - by rewrite app_nil_r.
  - rewrite IH, filter_cons. case_bool_decide; case_decide; try done.
    simpl. by rewrite <- app_assoc.
Qed.

Lemma collect_keys_perm (e1 e2 : list (string * string)) :
  e1 ≡ₚ e2 → collect_keys e1 ≡ₚ collect_keys e2.
Proof. intros H. rewrite !collect_keys_filter. by rewrite H. Qed.

Lemma sort_Strings_sorted (keys : list string) : Sorted String.le (sort_Strings keys).
Proof. apply Sorted_merge_sort; apply _. Qed.

Lemma sort_Strings_perm (keys : list string) : sort_Strings keys ≡ₚ keys.
Proof. apply merge_sort_Permutation. Qed.

Lemma sort_Strings_unique (k1 k2 : list string) :
  k1 ≡ₚ k2 → sort_Strings k1 = sort_Strings k2.
Proof.
  intros H. apply (Sorted_unique String.le); try apply sort_Strings_sorted.
  by rewrite !sort_Strings_perm.
Qed.

(** X1. The visiting order of [range p] does not matter: whatever order
    the map's entries are visited in, [toQueryString] produces the same
    string, since the collected keys are sorted before use. *)
Lemma toQueryString_range_irrelevant (p : Params) (entries : list (string * string)) :
  entries ≡ₚ map_to_list p → toQueryString_ranged entries p = toQueryString p.
Proof.
  intros H. unfold toQueryString, toQueryString_ranged.
  by rewrite (sort_Strings_unique _ _ (collect_keys_perm _ _ H)).
Qed.

Lemma elem_of_sorted_keys (p : Params) (k : string) :
  k ∈ sorted_keys p ↔ included p k.
Proof.
  unfold sorted_keys, included.
  rewrite sort_Strings_perm, collect_keys_filter, list_elem_of_fmap.
  split.
  - intros [[k' v] [-> [Hv Hin]%list_elem_of_filter]]. simpl in *.
    exists v. by rewrite <- elem_of_map_to_list.
  - intros (v & Hk & Hv). exists (k, v). split; [done|].
    apply list_elem_of_filter. by rewrite elem_of_map_to_list.
Qed.

Lemma NoDup_sorted_keys (p : Params) : NoDup (sorted_keys p).
Proof.
  unfold sorted_keys. rewrite sort_Strings_perm, collect_keys_filter.
  apply (NoDup_fmap_fst _).
  - intros k v1 v2 [_ H1]%list_elem_of_filter [_ H2]%list_elem_of_filter.
    rewrite elem_of_map_to_list in H1, H2. congruence.
  - apply NoDup_filter, NoDup_map_to_list.
Qed.

Lemma unsigned_key_false (k : string) :
  unsigned_key k = false ↔ k ≠ "PrivateKey" ∧ k ≠ "Signature".
Proof.
  unfold unsigned_key. rewrite orb_false_iff, !bool_decide_eq_false. tauto.
Qed.

Lemma elem_of_signed_keys (p : Params) (k : string) :
  k ∈ signed_keys p ↔ included p k ∧ k ≠ "PrivateKey" ∧ k ≠ "Signature".
Proof.
  unfold signed_keys.
  rewrite list_elem_of_filter, elem_of_sorted_keys, unsigned_key_false. tauto.
Qed.

Lemma StronglySorted_filter {A} (R : relation A) (P : A → Prop)
    `{∀ x, Decision (P x)} (l : list A) :
  StronglySorted R l → StronglySorted R (filter P l).
Proof.
  induction 1 as [|x l Hl IH Hx]; [constructor|].
  rewrite filter_cons. case_decide; [|done].
  constructor; [done|].
  rewrite Forall_forall in Hx |- *.
  intros y [_ Hy]%list_elem_of_filter. by apply Hx.
Qed.

Lemma Sorted_signed_keys (p : Params) : Sorted String.le (signed_keys p).
Proof.
  apply StronglySorted_Sorted, StronglySorted_filter, Sorted_StronglySorted;
    [apply _|apply sort_Strings_sorted].
Qed.

Lemma NoDup_signed_keys (p : Params) : NoDup (signed_keys p).
Proof. apply NoDup_filter, NoDup_sorted_keys. Qed.

(** The two loops over [keys], read as maps over the signed keys. *)
Lemma foldl_signed (g : string → string) (acc : string) (keys : list string) :
  foldl (fun s k => if unsigned_key k then s else s +:+ g k) acc keys
  = acc +:+ join (g <$> filter (fun k => unsigned_key k = false) keys).
Proof.
  revert acc. induction keys as [|k keys IH]; intros acc; simpl.
  - by rewrite string_app_nil_r.
  - rewrite IH, filter_cons. destruct (unsigned_key k); case_decide; try done.
    simpl. by rewrite string_app_assoc.
Qed.

Lemma signing_input_signed_keys (p : Params) :
  signing_input p (sorted_keys p)
  = join (signed_pair p <$> signed_keys p) +:+ index p "PrivateKey".
Proof.
  unfold signing_input.
  by rewrite (foldl_signed (fun k => k +:+ index p k)).
Qed.

Lemma query_pairs_signed_keys (p : Params) :
  query_pairs p (sorted_keys p) = join (query_pair p <$> signed_keys p).
Proof.
  unfold query_pairs.
  by rewrite (foldl_signed (fun k => "&" +:+ Values_Encode k (index p k))).
Qed.

(** [%x] prints lowercase hexadecimal digits only, which [QueryEscape]
    leaves alone. *)
Lemma lower_hex_digit_hex (n : N) : is_lower_hex (lower_hex_digit n) = true.
Proof.
  destruct n as [|q]; [done|].
  do 4 (destruct q as [q|q|]; try done).
Qed.

Lemma Sprintf_x_hex (bs : list N) : string_forall is_lower_hex (Sprintf_x bs) = true.
Proof.
  induction bs as [|b bs IH]; [done|]. simpl.
  by rewrite !lower_hex_digit_hex, IH.
Qed.


Lemma is_lower_hex_unescaped (c : ascii) :
  is_lower_hex c = true → Ascii.eqb c " " = false ∧ shouldEscape c = false.
Proof.
  unfold is_lower_hex, shouldEscape. intros H. split.
  - apply Ascii.eqb_neq. intros ->. done.
  - destruct (N_of_ascii c) as [|q]; [done|].
    repeat (try done; destruct q as [q|q|]).
Qed.

Lemma QueryEscape_hex (s : string) :
  string_forall is_lower_hex s = true → QueryEscape s = s.
Proof.
  induction s as [|c s IH]; [done|]. simpl.
  intros [Hc Hs]%andb_true_iff.
  destruct (is_lower_hex_unescaped c Hc) as [-> ->]. by rewrite IH.
Qed.



Lemma sha1_hex_hex (s : string) : string_forall is_lower_hex (sha1_hex s) = true.
Proof. apply Sprintf_x_hex. Qed.


(** The shape of the query string: the pairs of the signed keys in order,
    then the signature pair. *)
Lemma toQueryString_shape (p : Params) :
  toQueryString p
  = join (query_pair p <$> signed_keys p) +:+ "&Signature="
    +:+ sha1_hex (signing_input p (sorted_keys p)).
Proof.
  unfold toQueryString, toQueryString_ranged. fold (sorted_keys p).
  rewrite query_pairs_signed_keys. unfold Values_Encode.
  by rewrite (QueryEscape_hex (sha1_hex _)) by apply sha1_hex_hex.
Qed.

(** ** [toParams] and the parameter records *)

Lemma toParams_snoc (fs : list (string * value)) (f : string * value) :
  toParams (fs ++ [f]) = <[f.1 := Sprintf_v f.2]> (toParams fs).
Proof. unfold toParams. by rewrite foldl_snoc. Qed.

(** The last field with a given tag wins; with distinct tags every field
    is found under its tag. *)
Lemma toParams_lookup (fs : list (string * value)) (tag : string) (v : value) :
  NoDup fs.*1 → (tag, v) ∈ fs → toParams fs !! tag = Some (Sprintf_v v).
Proof.
  induction fs as [|f fs IH] using rev_ind; [by intros _ ?%elem_of_nil|].
  rewrite fmap_app, toParams_snoc. simpl.
  intros [Hfs [Hdisj _]]%NoDup_app [Hin| <-%list_elem_of_singleton]%elem_of_app.
  - rewrite lookup_insert_ne; [by apply IH|].
    intros <-. apply (Hdisj f.1); [|left].
    apply list_elem_of_fmap. by exists (f.1, v).
  - simpl. by rewrite lookup_insert_eq.
Qed.

Lemma toParams_lookup_None (fs : list (string * value)) (tag : string) :
  tag ∉ fs.*1 → toParams fs !! tag = None.
Proof.
  induction fs as [|f fs IH] using rev_ind; [done|].
  rewrite fmap_app, toParams_snoc, not_elem_of_app. simpl.
  intros [Hfs Hf]. rewrite lookup_insert_ne; [by apply IH|].
  intros <-. apply Hf. left.
Qed.

Lemma fields_NoDup (op : Operation) (r : Param op) : NoDup (fields op r).*1.
Proof. destruct op; simpl; apply (bool_decide_unpack _); vm_compute; exact I. Qed.

Lemma queryString_toParams (op : Operation) (r : Param op) :
  queryString op r = toQueryString (toParams (fields op r)).
Proof. by destruct op. Qed.

(** Every struct has string fields only under [PrivateKey] and [Signature]. *)
Lemma int_field_signed (op : Operation) (r : Param op) (tag : string) (n : Z) :
  (tag, VInt n) ∈ fields op r → tag ≠ "PrivateKey" ∧ tag ≠ "Signature".
Proof.
  destruct op; simpl; intros Hin;
    repeat (apply elem_of_cons in Hin as [Heq|Hin]; [by simplify_eq|]);
    by apply elem_of_nil in Hin.
Qed.

(** [%v] of an int is never empty. *)
Lemma pretty_N_go_length (x : N) (s : string) :
  String.length s ≤ String.length (pretty_N_go x s).
Proof.
  revert s. induction (N.lt_wf_0 x) as [x _ IH]; intros s.
  destruct (decide (x = 0)%N) as [->|Hx]; [by rewrite pretty_N_go_0|].
  rewrite pretty_N_go_step by lia.
  etrans; [|apply IH; apply N.div_lt; lia]. simpl. lia.
Qed.

Lemma pretty_Z_nonempty (n : Z) : pretty n ≠ "".
Proof.
  assert (∀ q : positive, pretty q ≠ "") as Hpos.
  { intros q. unfold pretty, pretty_positive, pretty, pretty_N.
    case_decide; [done|]. rewrite pretty_N_go_step by lia.
    intros Heq. pose proof (pretty_N_go_length (N.pos q `div` 10)
      (String (pretty_N_char (N.pos q `mod` 10)) "")) as Hlen.
    rewrite Heq in Hlen. simpl in Hlen. lia. }
  destruct n as [|q|q]; [done|apply Hpos|].
  unfold pretty, pretty_Z. by destruct (pretty q) eqn:E.
Qed.

Lemma Sprintf_v_zero : Sprintf_v (VInt 0) = "0".
Proof. done. Qed.

(** ** Claims about the signed request builder *)

(** C1, as amended. For every parameter record, the signing input and the
    query string are built from the same sorted list [signed_keys]; a field
    whose value is the empty string is not in that list, hence in neither
    string; an integer field is always in it, printed in decimal, and integer
    zero is no exception: it is signed as [name0] and emitted as [name=0]. *)
Theorem empty_string_dropped_zero_int_kept (op : Operation) (r : Param op) :
  signing_input (record_params op r) (sorted_keys (record_params op r))
  = join (signed_pair (record_params op r) <$> signed_keys (record_params op r))
    +:+ index (record_params op r) "PrivateKey"
  ∧ queryString op r
    = join (query_pair (record_params op r) <$> signed_keys (record_params op r))
      +:+ "&Signature="
      +:+ sha1_hex (signing_input (record_params op r)
                      (sorted_keys (record_params op r)))
  ∧ (∀ tag, (tag, VString "") ∈ fields op r →
       (tag ∉ sorted_keys (record_params op r))
       ∧ (tag ∉ signed_keys (record_params op r)))
  ∧ (∀ tag n, (tag, VInt n) ∈ fields op r →
       tag ∈ signed_keys (record_params op r)
       ∧ signed_pair (record_params op r) tag = tag +:+ pretty n
       ∧ query_pair (record_params op r) tag
         = "&" +:+ Values_Encode tag (pretty n))
  ∧ (∀ tag, (tag, VInt 0) ∈ fields op r →
       tag ∈ signed_keys (record_params op r)
       ∧ signed_pair (record_params op r) tag = tag +:+ "0"
       ∧ query_pair (record_params op r) tag = "&" +:+ Values_Encode tag "0").
Proof.
  assert (∀ tag n, (tag, VInt n) ∈ fields op r →
       tag ∈ signed_keys (record_params op r)
       ∧ signed_pair (record_params op r) tag = tag +:+ pretty n
       ∧ query_pair (record_params op r) tag
         = "&" +:+ Values_Encode tag (pretty n)) as Hint.
  { intros tag n Hin.
    pose proof (toParams_lookup _ _ _ (fields_NoDup op r) Hin) as Hl.
    simpl in Hl. fold (record_params op r) in Hl.
    split; [|unfold signed_pair, query_pair, index; by rewrite Hl].
    apply elem_of_signed_keys. split; [|by eapply int_field_signed].
    exists (pretty n). split; [done|apply pretty_Z_nonempty]. }
  split; [apply signing_input_signed_keys|].
  split; [rewrite queryString_toParams; apply toQueryString_shape|].
  split; [|split; [done|intros tag Hin; by apply (Hint tag 0%Z)]].
  intros tag Hin.
  pose proof (toParams_lookup _ _ _ (fields_NoDup op r) Hin) as Hl.
  simpl in Hl. fold (record_params op r) in Hl.
  assert (¬ included (record_params op r) tag) as Hex.
  { intros (v & Hv & Hne). congruence. }
  split; [by rewrite elem_of_sorted_keys|].
  rewrite elem_of_signed_keys. tauto.
Qed.

(** C1 as written fails: the zero-valued [Offset] of the scenario record is
    not excluded. It is among the signed keys, it is in the string that is
    hashed, and it is in the emitted query string. *)
Lemma zero_int_field_not_excluded :
  ("Offset", VInt 0) ∈ fields OpDescribeULB scenario_record
  ∧ ¬ (∀ tag, (tag, VInt 0) ∈ fields OpDescribeULB scenario_record →
         tag ∉ signed_keys (record_params OpDescribeULB scenario_record))
  ∧ signing_input (record_params OpDescribeULB scenario_record)
      (sorted_keys (record_params OpDescribeULB scenario_record))
    = "ActionDescribeULBLimit100Offset0Regioncn-bj2secret"
  ∧ DescribeULBParam.QueryString scenario_record
    = "&Action=DescribeULB&Limit=100&Offset=0&Region=cn-bj2&Signature=23411bc625aff0b6bb95b1adbcba65eb1302a69f".
Proof.
  assert (("Offset", VInt 0) ∈ fields OpDescribeULB scenario_record) as Hin.
  { simpl. do 6 apply list_elem_of_further. apply list_elem_of_here. }
  split; [done|]. split; [|split; vm_compute; reflexivity].
  intros H. apply (H "Offset" Hin).
  assert (signed_keys (record_params OpDescribeULB scenario_record)
          = ["Action"; "Limit"; "Offset"; "Region"]) as ->
    by (vm_compute; reflexivity).
  do 2 apply list_elem_of_further. apply list_elem_of_here.
Qed.

(** C2, as amended. Signing the scenario record gives the fields in the
    order [Action], [Limit], [Offset], [Region], the zero [Offset] printed as
    [0], then the [Signature] pair whose value is the SHA-1 hex digest of
    [ActionDescribeULBLimit100Offset0Regioncn-bj2secret]. *)
Theorem signing_scenario :
  signed_keys (record_params OpDescribeULB scenario_record)
  = ["Action"; "Limit"; "Offset"; "Region"]
  ∧ DescribeULBParam.QueryString scenario_record
    = "&Action=DescribeULB&Limit=100&Offset=0&Region=cn-bj2&Signature="
      +:+ sha1_hex "ActionDescribeULBLimit100Offset0Regioncn-bj2secret".
Proof. split; vm_compute; reflexivity. Qed.

(** C2 as written fails: the query string of the scenario record is not
    [Action], [Limit], [Region] followed by the digest of
    [ActionDescribeULBLimit100Regioncn-bj2secret]; neither the field list nor
    the signature is the claimed one. *)
Lemma signing_scenario_not_as_claimed :
  DescribeULBParam.QueryString scenario_record
  ≠ "&Action=DescribeULB&Limit=100&Region=cn-bj2&Signature="
    +:+ sha1_hex "ActionDescribeULBLimit100Regioncn-bj2secret"
  ∧ signed_keys (record_params OpDescribeULB scenario_record)
    ≠ ["Action"; "Limit"; "Region"]
  ∧ sha1_hex (signing_input (record_params OpDescribeULB scenario_record)
                (sorted_keys (record_params OpDescribeULB scenario_record)))
    ≠ sha1_hex "ActionDescribeULBLimit100Regioncn-bj2secret".
Proof. repeat split; vm_compute; discriminate. Qed.


(** ** Running programs *)

Lemma run_bind {A B} (h : handler) (m : prog A) (f : A → prog B) (tr : list event) :
  run h (m ≫= f) tr
  = match run h m tr with
    | (Returned a, tr') => run h (f a) tr'
    | (Panicked p, tr') => (Panicked p, tr')
    end.
Proof.
  unfold mbind, prog_bind. revert tr.
  induction m as [a|q|op url k IH|msg k IH]; intros tr; simpl; auto.
Qed.

Lemma run_ret {A} (h : handler) (a : A) (tr : list event) :
  run h (mret a) tr = (Returned a, tr).
Proof. done. Qed.

(** The trace only grows. *)
Lemma run_trace_prefix {A} (h : handler) (m : prog A) (tr : list event) :
  tr `prefix_of` (run h m tr).2.
Proof.
  revert tr. induction m as [a|q|op url k IH|msg k IH]; intros tr; simpl; try done.
  - etrans; [|apply IH]. by apply prefix_app_r.
  - etrans; [|apply IH]. by apply prefix_app_r.
Qed.

(** ** The typed API client *)

(** Every client method is one GET on [request_url], whose result is
    handed back by [client_result]. *)
Lemma run_call (op : Operation) (c : UClient.t) (p : Param op) (h : handler)
    (tr : list event) :
  run h (call op c p) tr
  = (Returned (client_result (h op tr (request_url op c p))),
     tr ++ [EvGet op (request_url op c p)]).
Proof.
  destruct op; simpl;
    set (u := UClient.GetQueryURL _ _); change (request_url _ c p) with u;
    by destruct (h _ tr u).
Qed.

(** The three leading fields of every parameter record are [Action],
    [PublicKey] and [PrivateKey]; [setKey] replaces their values and nothing
    else. *)
Lemma fields_setKey (op : Operation) (a b : string) (p : Param op) :
  fields op (setKey op a b p)
  = ("Action", VString (action_name op)) :: ("PublicKey", VString a)
    :: ("PrivateKey", VString b) :: drop 3 (fields op p).
Proof. by destruct op. Qed.

Lemma fields_leading (op : Operation) (p : Param op) :
  ∃ x y z, fields op p
  = ("Action", VString x) :: ("PublicKey", VString y)
    :: ("PrivateKey", VString z) :: drop 3 (fields op p).
Proof. destruct op; simpl; eauto. Qed.

Lemma toParams_cons (f : string * value) (fs : list (string * value)) :
  f.1 ∉ fs.*1 → toParams (f :: fs) = <[f.1 := Sprintf_v f.2]> (toParams fs).
Proof.
  induction fs as [|g fs IH] using rev_ind; [done|].
  rewrite fmap_app, not_elem_of_app. simpl. intros [Hfs Hg].
  rewrite app_comm_cons, !toParams_snoc, IH by done.
  apply insert_insert_ne. intros Heq. apply Hg. rewrite Heq. left.
Qed.

Lemma toParams_leading (x y z : value) (fs : list (string * value)) :
  NoDup ("Action" :: "PublicKey" :: "PrivateKey" :: fs.*1) →
  toParams (("Action", x) :: ("PublicKey", y) :: ("PrivateKey", z) :: fs)
  = <["Action" := Sprintf_v x]> (<["PublicKey" := Sprintf_v y]>
      (<["PrivateKey" := Sprintf_v z]> (toParams fs))).
Proof.
  intros (H1 & (H2 & (H3 & _)%NoDup_cons)%NoDup_cons)%NoDup_cons.
  by rewrite !toParams_cons.
Qed.

Lemma record_params_setKey (op : Operation) (a b : string) (p : Param op) :
  record_params op (setKey op a b p)
  = <["Action" := action_name op]> (<["PublicKey" := a]>
      (<["PrivateKey" := b]> (record_params op p))).
Proof.
  unfold record_params. rewrite fields_setKey.
  pose proof (fields_NoDup op p) as Hnd.
  destruct (fields_leading op p) as (x & y & z & Hf).
  remember (drop 3 (fields op p)) as rest eqn:Hrest. clear Hrest.
  rewrite Hf in Hnd |- *.
  rewrite !toParams_leading by exact Hnd. simpl.
  apply map_eq. intros k.
  rewrite !lookup_insert. by repeat case_decide.
Qed.

(** ** Claims about the typed API client *)

(** C7. For every client method: when the GET fails in transport, the method
    returns [(nil, err)] with that very error, after exactly one GET (no
    retry); when the body decodes without error into [r], the method returns
    [(r, nil)] whatever [r]'s [RetCode] is, zero or not. *)
Theorem client_returns_transport_error_and_ignores_RetCode
    (op : Operation) (c : UClient.t) (p : Param op) (h : handler)
    (tr : list event) :
  (∀ err, h op tr (request_url op c p) = GetFailed _ err →
     run h (call op c p) tr
     = (Returned (None, Some (http_error err)),
        tr ++ [EvGet op (request_url op c p)]))
  ∧ (∀ r, h op tr (request_url op c p) = Decoded _ r None →
     run h (call op c p) tr
     = (Returned (Some r, None), tr ++ [EvGet op (request_url op c p)])).
Proof. split; intros x Hx; by rewrite run_call, Hx. Qed.

(** Both cases of C7 occur: an unreachable remote, and a remote that
    answers every operation with a non-zero [RetCode]. *)
Example client_unreachable (op : Operation) (p : Param op) :
  (run unreachable_remote (call op example_client p) []).1
  = Returned (None, Some (http_error "connection refused")).
Proof. by rewrite run_call. Qed.

Example client_refused (op : Operation) (p : Param op) :
  (run (answering refusing_answer) (call op example_client p) []).1
  = Returned (Some (refusing_answer op), None)
  ∧ RetCode op (refusing_answer op) = 1%Z.
Proof. rewrite run_call. by destruct op. Qed.

(** C8. For every client method, the one request it sends is for the query
    string of the caller's record with [Action], [PublicKey] and
    [PrivateKey] overwritten by the operation's name and the client's stored
    keys: what the caller had put in those three fields plays no part. *)
Theorem client_populates_keys
    (op : Operation) (c : UClient.t) (p : Param op) (h : handler)
    (tr : list event) :
  ∃ params : Params,
    params = <["Action" := action_name op]>
               (<["PublicKey" := UClient.PublicKey c]>
                  (<["PrivateKey" := UClient.PrivateKey c]> (record_params op p)))
    ∧ params !! "Action" = Some (action_name op)
    ∧ params !! "PublicKey" = Some (UClient.PublicKey c)
    ∧ params !! "PrivateKey" = Some (UClient.PrivateKey c)
    ∧ (∀ k, k ≠ "Action" → k ≠ "PublicKey" → k ≠ "PrivateKey" →
         params !! k = record_params op p !! k)
    ∧ (run h (call op c p) tr).2
      = tr ++ [EvGet op (UClient.BaseURL c +:+ "/?" +:+ toQueryString params)].
Proof.
  eexists. split; [reflexivity|].
  split; [|split; [|split; [|split]]].
  - by rewrite lookup_insert_eq.
  - rewrite lookup_insert_ne by done. by rewrite lookup_insert_eq.
  - rewrite !lookup_insert_ne by done. by rewrite lookup_insert_eq.
  - intros k ???. by rewrite !lookup_insert_ne.
  - rewrite run_call. simpl. unfold request_url.
    by rewrite queryString_toParams, <- record_params_setKey.
Qed.

(** Two records that differ only in what the caller put in the three key
    fields lead to the same request. *)
Corollary client_ignores_caller_keys
    (op : Operation) (c : UClient.t) (p : Param op) (a b : string) :
  request_url op c (setKey op a b p) = request_url op c p.
Proof.
  unfold request_url. rewrite !queryString_toParams.
  fold (record_params op (setKey op (UClient.PublicKey c) (UClient.PrivateKey c)
                            (setKey op a b p))).
  fold (record_params op (setKey op (UClient.PublicKey c) (UClient.PrivateKey c) p)).
  rewrite !record_params_setKey. do 3 f_equal.
  apply map_eq. intros k. rewrite !lookup_insert. by repeat case_decide.
Qed.

(** ** The provider adapter: lookup *)

Lemma run_named_loop (h : handler) (name : string) (l : list ULBSet.t)
    (tr : list event) :
  run h (for_range l (fun lb =>
           if bool_decide (ULBSet.Name lb = name)
           then mret (Some (Some lb, @None error))
           else mret None)) tr
  = (Returned (match named name l with
               | Some lb => Some (Some lb, None)
               | None => None
               end), tr).
Proof.
  unfold named. induction l as [|lb l IH]; [done|].
  simpl for_range. rewrite run_bind, filter_cons.
  case_bool_decide; case_decide; try done.
Qed.

(** [describeLoadBalancer] is one GET; it never panics. *)
Lemma run_describeLoadBalancer (h : handler) (c : Cloud.t) (name : string)
    (tr : list event) :
  run h (Cloud.describeLoadBalancer c name) tr
  = (Returned (lookup_result name (h OpDescribeULB tr (describe_url c))),
     tr ++ [EvGet OpDescribeULB (describe_url c)]).
Proof.
  unfold Cloud.describeLoadBalancer. rewrite run_bind.
  rewrite (run_call OpDescribeULB). fold (describe_url c).
  destruct (h OpDescribeULB tr (describe_url c)) as [err|r [err|]]; simpl; try done.
  case_bool_decide; [done|].
  rewrite run_bind, run_named_loop.
  by destruct (named name _).
Qed.

Lemma lookup_result_cases (name : string) (resp : http_result DescribeULBResponse.t) :
  (∃ lb, lookup_result name resp = (Some lb, None))
  ∨ (∃ e, lookup_result name resp = (None, Some e)).
Proof.
  destruct resp as [err|r [err|]]; simpl; eauto.
  case_bool_decide; eauto. destruct (named name _); eauto.
Qed.

(** ** The provider adapter: deletion *)

(** A loop whose body always falls through runs to its end. [Q] is what
    each iteration leaves in the trace. *)
Lemma run_for_range_fall_through {X R} (h : handler) (body : X → prog (option R))
    (Q : list event → X → Prop) (l : list X) (tr : list event) :
  (∀ x t, ∃ t', run h (body x) t = (Returned None, t') ∧ Q t' x) →
  (∀ x t t', Q t x → t `prefix_of` t' → Q t' x) →
  ∃ tr', run h (for_range l body) tr = (Returned None, tr')
         ∧ tr `prefix_of` tr' ∧ Forall (Q tr') l.
Proof.
  intros Hbody Hmono. revert tr.
  induction l as [|x l IH]; intros tr.
  { exists tr. by repeat split. }
  simpl for_range. rewrite run_bind.
  destruct (Hbody x tr) as (t1 & Hrun & HQ). rewrite Hrun.
  destruct (IH t1) as (t2 & Hloop & Hpre & Hall). rewrite Hloop.
  exists t2. split; [done|]. split.
  - etrans; [|exact Hpre].
    pose proof (run_trace_prefix h (body x) tr) as Hp. by rewrite Hrun in Hp.
  - constructor; [by eapply Hmono|done].
Qed.

Lemma release_attempted_mono (h : handler) (c : Cloud.t) (ipSet : ULBIPSet.t)
    (t t' : list event) :
  release_attempted h c t ipSet → t `prefix_of` t' → release_attempted h c t' ipSet.
Proof.
  intros (H1 & H2 & H3) [k ->]. repeat split.
  - apply elem_of_app. by left.
  - intros err Herr. apply elem_of_app. left. by apply H2.
  - intros r Hr Hcode. apply elem_of_app. left. by apply H3.
Qed.

Lemma lookup_error_is_nil (name : string) (resp : http_result DescribeULBResponse.t)
    (x : option ULBSet.t) (e : error) :
  lookup_result name resp = (x, Some e) → x = None.
Proof.
  destruct (lookup_result_cases name resp) as [[lb ->]|[e' ->]]; congruence.
Qed.

Lemma run_deleteLoadBalancer_not_found (h : handler) (c : Cloud.t) (name : string)
    (tr : list event) (x : option ULBSet.t) :
  lookup_result name (h OpDescribeULB tr (describe_url c)) = (x, Some ULBNotFound) →
  run h (Cloud.deleteLoadBalancer c name) tr
  = (Returned None, tr ++ [EvGet OpDescribeULB (describe_url c)]).
Proof.
  intros Hl. unfold Cloud.deleteLoadBalancer.
  rewrite run_bind, run_describeLoadBalancer, Hl.
  rewrite bool_decide_true; done.
Qed.

Lemma run_deleteLoadBalancer_lookup_error (h : handler) (c : Cloud.t)
    (name : string) (tr : list event) (x : option ULBSet.t) (e : error) :
  lookup_result name (h OpDescribeULB tr (describe_url c)) = (x, Some e) →
  e ≠ ULBNotFound →
  run h (Cloud.deleteLoadBalancer c name) tr
  = (Panicked nil_dereference, tr ++ [EvGet OpDescribeULB (describe_url c)]).
Proof.
  intros Hl He. pose proof (lookup_error_is_nil _ _ _ _ Hl) as ->.
  unfold Cloud.deleteLoadBalancer.
  rewrite run_bind, run_describeLoadBalancer, Hl.
  rewrite bool_decide_false; [done|]. intros [_ [= ->]]. done.
Qed.

Lemma run_deleteLoadBalancer_delete_unreachable (h : handler) (c : Cloud.t)
    (name : string) (tr : list event) (lb : ULBSet.t) (err : string) :
  lookup_result name (h OpDescribeULB tr (describe_url c)) = (Some lb, None) →
  h OpDeleteULB (tr ++ [EvGet OpDescribeULB (describe_url c)]) (delete_url c lb)
  = GetFailed _ err →
  run h (Cloud.deleteLoadBalancer c name) tr
  = (Panicked nil_dereference,
     tr ++ [EvGet OpDescribeULB (describe_url c)]
        ++ [EvGet OpDeleteULB (delete_url c lb); EvLog err]).
Proof.
  intros Hl Hd. unfold Cloud.deleteLoadBalancer.
  rewrite run_bind, run_describeLoadBalancer, Hl.
  rewrite bool_decide_false by (by intros [? ?]).
  simpl deref. rewrite run_bind, run_ret, run_bind.
  rewrite (run_call OpDeleteULB). fold (delete_url c lb). rewrite Hd. simpl.
  by rewrite <- !app_assoc.
Qed.

Lemma run_deleteLoadBalancer_deleted (h : handler) (c : Cloud.t)
    (name : string) (tr : list event) (lb : ULBSet.t)
    (r : DeleteULBResponse.t) (derr : option string) :
  lookup_result name (h OpDescribeULB tr (describe_url c)) = (Some lb, None) →
  h OpDeleteULB (tr ++ [EvGet OpDescribeULB (describe_url c)]) (delete_url c lb)
  = Decoded _ r derr →
  ∃ tr', run h (Cloud.deleteLoadBalancer c name) tr = (Returned None, tr')
    ∧ (tr ++ [EvGet OpDescribeULB (describe_url c); EvGet OpDeleteULB (delete_url c lb)])
        `prefix_of` tr'
    ∧ (DeleteULBResponse.RetCode r ≠ 0%Z → EvLog (DeleteULBResponse.Message r) ∈ tr')
    ∧ (∀ e, derr = Some e → EvLog e ∈ tr')
    ∧ Forall (release_attempted h c tr') (ULBSet.IPSet lb).
Proof.
  intros Hl Hd. unfold Cloud.deleteLoadBalancer.
  rewrite run_bind, run_describeLoadBalancer, Hl.
  rewrite bool_decide_false by (by intros [? ?]).
  simpl deref. rewrite run_bind, run_ret, run_bind.
  rewrite (run_call OpDeleteULB). fold (delete_url c lb). rewrite Hd.
  simpl client_result. cbv iota beta.
  set (t1 := (tr ++ [EvGet OpDescribeULB (describe_url c)])
               ++ [EvGet OpDeleteULB (delete_url c lb)]).
  rewrite run_bind.
  set (t2 := t1 ++ match derr with Some e => [EvLog e] | None => [] end).
  assert (run h match json_error <$> derr with
                | Some e => glog_Error (Error e)
                | None => mret ()
                end t1 = (Returned (), t2)) as ->.
  { unfold t2. destruct derr; simpl; [done|by rewrite app_nil_r]. }
  simpl deref. rewrite run_bind, run_ret, run_bind.
  set (t3 := t2 ++ if bool_decide (DeleteULBResponse.RetCode r ≠ 0%Z)
                   then [EvLog (DeleteULBResponse.Message r)] else []).
  assert (run h (if bool_decide (DeleteULBResponse.RetCode r ≠ 0%Z)
                 then glog_Error (DeleteULBResponse.Message r)
                 else mret ()) t2 = (Returned (), t3)) as ->.
  { unfold t3. case_bool_decide; simpl; [done|by rewrite app_nil_r]. }
  rewrite run_bind.
  match goal with |- context [for_range _ ?b] =>
    destruct (run_for_range_fall_through h b (release_attempted h c)
                (ULBSet.IPSet lb) t3) as (t4 & -> & Hpre & Hall)
  end.
  - intros ipSet t. rewrite run_bind, (run_call OpReleaseEIP).
    fold (release_eip_url c ipSet).
    destruct (h OpReleaseEIP t (release_eip_url c ipSet)) as [err|r2 [err|]] eqn:Hh;
      simpl.
    + eexists. split; [done|]. repeat split.
      * set_solver.
      * intros err' H'. rewrite H' in Hh. injection Hh as ->. set_solver.
      * intros r' H'. by rewrite H' in Hh.
    + eexists. split; [done|]. repeat split.
      * set_solver.
      * intros err' H'. by rewrite H' in Hh.
      * intros r' H'. by rewrite H' in Hh.
    + case_bool_decide as Hcode; simpl.
      * eexists. split; [done|]. repeat split.
        -- set_solver.
        -- intros err' H'. by rewrite H' in Hh.
        -- intros r' H' _. rewrite H' in Hh. injection Hh as ->. set_solver.
      * eexists. split; [done|]. repeat split.
        -- set_solver.
        -- intros err' H'. by rewrite H' in Hh.
        -- intros r' H' Hr'. rewrite H' in Hh. injection Hh as ->. done.
  - intros ipSet t t'. apply release_attempted_mono.
  - exists t4. split; [done|].
    assert (t1 `prefix_of` t4) as Ht1.
    { etrans; [|exact Hpre]. unfold t3, t2. rewrite <- app_assoc.
      by apply prefix_app_r. }
    split; [unfold t1 in Ht1; by rewrite <- app_assoc in Ht1|].
    split; [|split; [|done]].
    + intros Hcode. destruct Hpre as [k ->]. unfold t3.
      rewrite bool_decide_true by done. set_solver.
    + intros e ->. destruct Hpre as [k ->]. unfold t3, t2. set_solver.
Qed.

(** ** Claims about lookup and deletion *)

(** C6. When the DescribeULB call succeeds (the GET and the decoding both
    succeed) with [RetCode] 0 and no returned entry has the requested name,
    the lookup returns the sentinel [ULBNotFound]. *)
Theorem lookup_without_match_is_ULBNotFound
    (h : handler) (c : Cloud.t) (name : string) (tr : list event)
    (r : DescribeULBResponse.t) :
  h OpDescribeULB tr (describe_url c) = Decoded _ r None →
  DescribeULBResponse.RetCode r = 0%Z →
  (∀ lb, lb ∈ DescribeULBResponse.DataSet r → ULBSet.Name lb ≠ name) →
  run h (Cloud.describeLoadBalancer c name) tr
  = (Returned (None, Some ULBNotFound),
     tr ++ [EvGet OpDescribeULB (describe_url c)]).
Proof.
  intros Hh Hcode Hnames. rewrite run_describeLoadBalancer, Hh. simpl.
  rewrite bool_decide_false by (by intros ?).
  assert (named name (DescribeULBResponse.DataSet r) = None) as ->; [|done].
  unfold named. apply head_None.
  induction (DescribeULBResponse.DataSet r) as [|lb l IH]; [done|].
  rewrite filter_cons. case_decide as Hlb.
  - destruct (Hnames lb); [left|done].
  - apply IH. intros lb' Hin. apply Hnames. by right.
Qed.

Lemma lookup_without_match_is_ULBNotFound_witness :
  (refusing_remote OpDescribeULB [] (describe_url example_cloud)
   = Decoded _ example_listing None
   ∧ DescribeULBResponse.RetCode example_listing = 0%Z
   ∧ (∀ lb, lb ∈ DescribeULBResponse.DataSet example_listing →
        ULBSet.Name lb ≠ "lb-2"))
  ∧ run refusing_remote (Cloud.describeLoadBalancer example_cloud "lb-2") []
    = (Returned (None, Some ULBNotFound),
       [] ++ [EvGet OpDescribeULB (describe_url example_cloud)]).
Proof.
  assert (∀ lb, lb ∈ DescribeULBResponse.DataSet example_listing →
            ULBSet.Name lb ≠ "lb-2") as Hnames.
  { intros lb Hin. apply list_elem_of_singleton in Hin. subst lb. discriminate. }
  split; [split; [reflexivity|split; [reflexivity|exact Hnames]]|].
  exact (lookup_without_match_is_ULBNotFound refusing_remote example_cloud "lb-2"
           [] example_listing eq_refl eq_refl Hnames).
Defined.

(** C5. When the lookup of a name yields [ULBNotFound], deleting that load
    balancer returns nil and the only request made is the lookup's: no
    DeleteULB GET is issued. *)
Theorem delete_of_absent_load_balancer_succeeds
    (h : handler) (c : Cloud.t) (name : string) (tr tr1 : list event)
    (x : option ULBSet.t) :
  run h (Cloud.describeLoadBalancer c name) tr
  = (Returned (x, Some ULBNotFound), tr1) →
  run h (Cloud.deleteLoadBalancer c name) tr = (Returned None, tr1)
  ∧ tr1 = tr ++ [EvGet OpDescribeULB (describe_url c)]
  ∧ ∀ url, EvGet OpDeleteULB url ∉ drop (length tr) tr1.
Proof.
  rewrite run_describeLoadBalancer. intros [= Hl <-].
  split; [by eapply run_deleteLoadBalancer_not_found|].
  split; [done|]. intros url. rewrite drop_app_length.
  intros [=]%list_elem_of_singleton.
Qed.

Lemma delete_of_absent_load_balancer_succeeds_witness :
  run refusing_remote (Cloud.describeLoadBalancer example_cloud "lb-2") []
  = (Returned (None, Some ULBNotFound),
     [EvGet OpDescribeULB (describe_url example_cloud)])
  ∧ run refusing_remote (Cloud.deleteLoadBalancer example_cloud "lb-2") []
    = (Returned None, [EvGet OpDescribeULB (describe_url example_cloud)])
  ∧ [EvGet OpDescribeULB (describe_url example_cloud)]
    = [] ++ [EvGet OpDescribeULB (describe_url example_cloud)]
  ∧ ∀ url, EvGet OpDeleteULB url
           ∉ drop (length (@nil event))
               [EvGet OpDescribeULB (describe_url example_cloud)].
Proof.
  assert (run refusing_remote (Cloud.describeLoadBalancer example_cloud "lb-2") []
          = (Returned (None, Some ULBNotFound),
             [EvGet OpDescribeULB (describe_url example_cloud)])) as Hrun
    by (rewrite run_describeLoadBalancer; reflexivity).
  split; [exact Hrun|].
  exact (delete_of_absent_load_balancer_succeeds refusing_remote example_cloud
           "lb-2" [] _ None Hrun).
Defined.

(** When [deleteLoadBalancer] panics, and only then. *)
Lemma deleteLoadBalancer_panics_iff
    (h : handler) (c : Cloud.t) (name : string) (tr : list event) :
  (∃ p, (run h (Cloud.deleteLoadBalancer c name) tr).1 = Panicked p)
  ↔ (∃ x e, (run h (Cloud.describeLoadBalancer c name) tr).1 = Returned (x, Some e)
            ∧ e ≠ ULBNotFound)
    ∨ (∃ lb tr1 err,
         run h (Cloud.describeLoadBalancer c name) tr = (Returned (Some lb, None), tr1)
         ∧ h OpDeleteULB tr1 (delete_url c lb) = GetFailed _ err).
Proof.
  rewrite run_describeLoadBalancer. cbn [fst].
  destruct (lookup_result_cases name (h OpDescribeULB tr (describe_url c)))
    as [[lb Hl]|[e Hl]].
  - destruct (h OpDeleteULB (tr ++ [EvGet OpDescribeULB (describe_url c)])
                (delete_url c lb)) as [err|r derr] eqn:Hd.
    + rewrite (run_deleteLoadBalancer_delete_unreachable _ _ _ _ _ _ Hl Hd).
      split; [|by eauto]. intros _. right. eexists lb, _, err. by rewrite Hl.
    + destruct (run_deleteLoadBalancer_deleted _ _ _ _ _ _ _ Hl Hd)
        as (tr' & -> & _).
      split; [by intros [p ?]|].
      rewrite Hl. intros [(x & e & [=] & _)|(lb' & tr1 & err & [= <- <-] & Hd')].
      by rewrite Hd in Hd'.
  - destruct (decide (e = ULBNotFound)) as [->|He].
    + rewrite (run_deleteLoadBalancer_not_found _ _ _ _ _ Hl).
      split; [by intros [p ?]|].
      rewrite Hl. intros [(x & e & [= _ <-] & He)|(lb' & tr1 & err & [=] & _)].
      done.
    + rewrite (run_deleteLoadBalancer_lookup_error _ _ _ _ _ _ Hl He).
      split; [|by eauto]. intros _. left. exists None, e. by rewrite Hl.
Qed.

Lemma deleteLoadBalancer_outcomes
    (h : handler) (c : Cloud.t) (name : string) (tr : list event) :
  (run h (Cloud.deleteLoadBalancer c name) tr).1 = Returned None
  ∨ (run h (Cloud.deleteLoadBalancer c name) tr).1 = Panicked nil_dereference.
Proof.
  destruct (lookup_result_cases name (h OpDescribeULB tr (describe_url c)))
    as [[lb Hl]|[e Hl]].
  - destruct (h OpDeleteULB (tr ++ [EvGet OpDescribeULB (describe_url c)])
                (delete_url c lb)) as [err|r derr] eqn:Hd.
    + right. by rewrite (run_deleteLoadBalancer_delete_unreachable _ _ _ _ _ _ Hl Hd).
    + left. by destruct (run_deleteLoadBalancer_deleted _ _ _ _ _ _ _ Hl Hd)
        as (tr' & -> & _).
  - destruct (decide (e = ULBNotFound)) as [->|He].
    + left. by rewrite (run_deleteLoadBalancer_not_found _ _ _ _ _ Hl).
    + right. by rewrite (run_deleteLoadBalancer_lookup_error _ _ _ _ _ _ Hl He).
Qed.

(** C9. [deleteLoadBalancer] can dereference a nil pointer instead of
    returning an error: it does when the lookup fails in transport (nil
    [ulbSet]), and when the lookup finds the load balancer but the DeleteULB
    GET fails in transport (nil [r]). In general it panics exactly when the
    lookup fails with an error other than [ULBNotFound], or the lookup
    succeeds and the DeleteULB GET fails in transport; the panic is always
    the nil dereference. *)
Theorem deleteLoadBalancer_nil_dereference :
  ((run unreachable_remote (Cloud.describeLoadBalancer example_cloud "lb-1") []).1
   = Returned (None, Some (http_error "connection refused"))
   ∧ (run unreachable_remote (Cloud.deleteLoadBalancer example_cloud "lb-1") []).1
     = Panicked nil_dereference)
  ∧ ((run listing_only_remote (Cloud.describeLoadBalancer example_cloud "lb-1") []).1
     = Returned (Some example_ulb, None)
     ∧ (run listing_only_remote (Cloud.deleteLoadBalancer example_cloud "lb-1") []).1
       = Panicked nil_dereference
     ∧ requested
         (run listing_only_remote (Cloud.deleteLoadBalancer example_cloud "lb-1") []).2
       = [OpDescribeULB; OpDeleteULB])
  ∧ (∀ (h : handler) (c : Cloud.t) (name : string) (tr : list event),
       (run h (Cloud.deleteLoadBalancer c name) tr).1 = Panicked nil_dereference
       ↔ (∃ x e, (run h (Cloud.describeLoadBalancer c name) tr).1
                 = Returned (x, Some e) ∧ e ≠ ULBNotFound)
         ∨ (∃ lb tr1 err,
              run h (Cloud.describeLoadBalancer c name) tr
              = (Returned (Some lb, None), tr1)
              ∧ h OpDeleteULB tr1 (delete_url c lb) = GetFailed _ err))
  ∧ (∀ (h : handler) (c : Cloud.t) (name : string) (tr : list event) (p : panic),
       (run h (Cloud.deleteLoadBalancer c name) tr).1 = Panicked p →
       p = nil_dereference).
Proof.
  split; [split|split; [split; [|split]|split]].
  - by rewrite run_describeLoadBalancer.
  - by erewrite run_deleteLoadBalancer_lookup_error.
  - by rewrite run_describeLoadBalancer.
  - by erewrite run_deleteLoadBalancer_delete_unreachable.
  - by erewrite run_deleteLoadBalancer_delete_unreachable.
  - intros h c name tr. rewrite <- deleteLoadBalancer_panics_iff.
    split; [by eauto|]. intros [p Hp].
    destruct (deleteLoadBalancer_outcomes h c name tr) as [H|H]; congruence.
  - intros h c name tr p Hp.
    destruct (deleteLoadBalancer_outcomes h c name tr) as [H|H]; congruence.
Qed.

(** C10, as amended. [EnsureLoadBalancerDeleted] never returns a non-nil
    error. When the lookup yields [ULBNotFound] it returns nil. When the
    lookup finds the load balancer and the DeleteULB GET does not fail in
    transport it returns nil as well, whatever the remote answers: a
    decoding error and a non-zero [RetCode] of DeleteULB are logged, the
    release of every elastic IP is attempted, and a release that fails (in
    transport, or with a non-zero [RetCode]) is logged. *)
Theorem EnsureLoadBalancerDeleted_logs_failures
    (h : handler) (c : Cloud.t) (clusterName : string) (service : api.Service)
    (tr : list event) :
  (∀ e, (run h (Cloud.EnsureLoadBalancerDeleted c clusterName service) tr).1
        ≠ Returned (Some e))
  ∧ (∀ x tr1,
       run h (Cloud.describeLoadBalancer c (cloudprovider.GetLoadBalancerName service)) tr
       = (Returned (x, Some ULBNotFound), tr1) →
       run h (Cloud.EnsureLoadBalancerDeleted c clusterName service) tr
       = (Returned None, tr1))
  ∧ (∀ lb tr1 r derr,
       run h (Cloud.describeLoadBalancer c (cloudprovider.GetLoadBalancerName service)) tr
       = (Returned (Some lb, None), tr1) →
       h OpDeleteULB tr1 (delete_url c lb) = Decoded _ r derr →
       ∃ tr',
         run h (Cloud.EnsureLoadBalancerDeleted c clusterName service) tr
         = (Returned None, tr')
         ∧ (tr1 ++ [EvGet OpDeleteULB (delete_url c lb)]) `prefix_of` tr'
         ∧ (DeleteULBResponse.RetCode r ≠ 0%Z →
            EvLog (DeleteULBResponse.Message r) ∈ tr')
         ∧ (∀ e, derr = Some e → EvLog e ∈ tr')
         ∧ Forall (release_attempted h c tr') (ULBSet.IPSet lb)).
Proof.
  unfold Cloud.EnsureLoadBalancerDeleted.
  set (name := cloudprovider.GetLoadBalancerName service).
  split; [|split].
  - intros e. destruct (deleteLoadBalancer_outcomes h c name tr) as [H|H];
      rewrite H; discriminate.
  - intros x tr1. rewrite run_describeLoadBalancer. intros [= Hl <-].
    by eapply run_deleteLoadBalancer_not_found.
  - intros lb tr1 r derr. rewrite run_describeLoadBalancer. intros [= Hl <-] Hd.
    destruct (run_deleteLoadBalancer_deleted _ _ _ _ _ _ _ Hl Hd)
      as (tr' & Hrun & Hpre & Hrest).
    exists tr'. split; [done|]. split; [|done].
    by rewrite <- app_assoc.
Qed.

(** C10 as written fails: with an unreachable remote
    [EnsureLoadBalancerDeleted] does not return nil, it panics. *)
Lemma EnsureLoadBalancerDeleted_may_not_return :
  (run unreachable_remote
     (Cloud.EnsureLoadBalancerDeleted example_cloud "cluster" example_service) []).1
  = Panicked nil_dereference
  ∧ (run unreachable_remote
       (Cloud.EnsureLoadBalancerDeleted example_cloud "cluster" example_service) []).1
    ≠ Returned None.
Proof.
  unfold Cloud.EnsureLoadBalancerDeleted.
  by erewrite run_deleteLoadBalancer_lookup_error.
Qed.

(** The amended C10 on two remotes. One refuses the deletion and both
    releases with a non-zero [RetCode]; the other accepts the deletion and
    fails both releases in transport. In both runs every request is made,
    every failure is logged, and nil is returned. *)
Example EnsureLoadBalancerDeleted_refused :
  (run refusing_remote
     (Cloud.EnsureLoadBalancerDeleted example_cloud "cluster" example_service) []).1
  = Returned None
  ∧ requested (run refusing_remote
       (Cloud.EnsureLoadBalancerDeleted example_cloud "cluster" example_service) []).2
    = [OpDescribeULB; OpDeleteULB; OpReleaseEIP; OpReleaseEIP]
  ∧ logged (run refusing_remote
       (Cloud.EnsureLoadBalancerDeleted example_cloud "cluster" example_service) []).2
    = ["denied"; "denied"; "denied"].
Proof. vm_compute. done. Qed.

Example EnsureLoadBalancerDeleted_release_unreachable :
  (run no_release_remote
     (Cloud.EnsureLoadBalancerDeleted example_cloud "cluster" example_service) []).1
  = Returned None
  ∧ requested (run no_release_remote
       (Cloud.EnsureLoadBalancerDeleted example_cloud "cluster" example_service) []).2
    = [OpDescribeULB; OpDeleteULB; OpReleaseEIP; OpReleaseEIP]
  ∧ logged (run no_release_remote
       (Cloud.EnsureLoadBalancerDeleted example_cloud "cluster" example_service) []).2
    = ["connection reset"; "connection reset"].
Proof. vm_compute. done. Qed.

(** ** The provider adapter: membership update *)

Lemma run_getUHostIDs (h : handler) (c : Cloud.t) (nodeNames : list string)
    (tr : list event) (r : DescribeUHostInstanceResponse.t) :
  h OpDescribeUHostInstance tr (hosts_url c) = Decoded _ r None →
  DescribeUHostInstanceResponse.RetCode r = 0%Z →
  run h (Cloud.getUHostIDs c nodeNames) tr
  = (Returned (matching_host_ids nodeNames (DescribeUHostInstanceResponse.UHostSet r),
               None),
     tr ++ [EvGet OpDescribeUHostInstance (hosts_url c)]).
Proof.
  intros Hh Hcode. unfold Cloud.getUHostIDs.
  rewrite run_bind, (run_call OpDescribeUHostInstance). fold (hosts_url c).
  rewrite Hh. simpl. by rewrite bool_decide_false by (by intros ?).
Qed.

(** A loop each of whose iterations falls through, adding [ev x] to the
    trace. *)
Lemma run_for_range_events {X R} (h : handler) (body : X → prog (option R))
    (ev : X → list event) (l : list X) (tr : list event) :
  (∀ x t, run h (body x) t = (Returned None, t ++ ev x)) →
  run h (for_range l body) tr = (Returned None, tr ++ concat (ev <$> l)).
Proof.
  intros Hbody. revert tr. induction l as [|x l IH]; intros tr; simpl.
  - by rewrite app_nil_r.
  - rewrite run_bind, Hbody, IH. by rewrite <- app_assoc.
Qed.

Lemma concat_optional_events {X} (P : X → Prop) `{∀ x, Decision (P x)}
    (ev : X → event) (l : list X) :
  concat ((fun x => if decide (P x) then [ev x] else []) <$> l)
  = ev <$> filter P l.
Proof.
  induction l as [|x l IH]; [done|].
  rewrite fmap_cons, filter_cons. cbn [concat]. rewrite IH.
  by case_decide.
Qed.

Lemma desired_hosts_lookup (ids : list string) (host : string) :
  desired_hosts ids !! host = if decide (host ∈ ids) then Some true else None.
Proof.
  unfold desired_hosts. induction ids as [|x ids IH] using rev_ind.
  { cbn [foldl]. rewrite lookup_empty.
    by rewrite decide_False by apply not_elem_of_nil. }
  rewrite foldl_snoc, lookup_insert, IH.
  destruct (decide (x = host)) as [->|Hx].
  { rewrite decide_True; [done|]. apply elem_of_app. right. left. }
  destruct (decide (host ∈ ids)) as [Hin|Hin].
  - rewrite decide_True; [done|]. apply elem_of_app. by left.
  - rewrite decide_False; [done|].
    intros [?|?%list_elem_of_singleton]%elem_of_app; congruence.
Qed.

Lemma bound_backends_lookup_is_Some (bs : list ULBBackendSet.t) (host : string) :
  is_Some (bound_backends bs !! host) ↔ host ∈ ULBBackendSet.ResourceID <$> bs.
Proof.
  unfold bound_backends. induction bs as [|b bs IH] using rev_ind.
  { cbn [foldl fmap list_fmap]. rewrite lookup_empty. split.
    - by intros [? ?].
    - by intros ?%elem_of_nil. }
  rewrite foldl_snoc, fmap_app, elem_of_app, <- IH, lookup_insert.
  simpl. rewrite list_elem_of_singleton.
  case_decide; subst; [|naive_solver]. split; eauto.
Qed.

Lemma bound_backends_lookup_Some (bs : list ULBBackendSet.t) (host bid : string) :
  bound_backends bs !! host = Some bid →
  ∃ b, b ∈ bs ∧ ULBBackendSet.ResourceID b = host ∧ ULBBackendSet.BackendID b = bid.
Proof.
  unfold bound_backends. induction bs as [|b bs IH] using rev_ind; [done|].
  rewrite foldl_snoc, lookup_insert. case_decide as Hb.
  - intros [= <-]. exists b. set_solver.
  - intros (b' & ? & ?)%IH. exists b'. set_solver.
Qed.

(** When no host is bound twice, every listed binding is the one recorded
    for its host. *)
Lemma bound_backends_lookup_NoDup (bs : list ULBBackendSet.t) (b : ULBBackendSet.t) :
  NoDup (ULBBackendSet.ResourceID <$> bs) → b ∈ bs →
  bound_backends bs !! ULBBackendSet.ResourceID b = Some (ULBBackendSet.BackendID b).
Proof.
  unfold bound_backends. induction bs as [|b' bs IH] using rev_ind;
    [by intros _ ?%elem_of_nil|].
  rewrite fmap_app, foldl_snoc, lookup_insert.
  intros [Hnd [Hdisj _]]%NoDup_app [Hin| ->%list_elem_of_singleton]%elem_of_app.
  - rewrite decide_False; [by apply IH|].
    intros Heq. apply (Hdisj (ULBBackendSet.ResourceID b)).
    + apply list_elem_of_fmap. by exists b.
    + simpl. rewrite <- Heq. left.
  - by rewrite decide_True.
Qed.

(** [UpdateLoadBalancer] when the lookups succeed and the remote accepts
    every change: the two lookups, then one ReleaseBackend GET per visited
    entry of [m2] whose host is not in [m1], then one AllocateBackend GET
    per visited entry of [m1] whose host is not in [m2]. *)
Lemma run_UpdateLoadBalancer_accepted
    (h : handler) (ord : RangeOrder) (c : Cloud.t) (clusterName : string)
    (service : api.Service) (nodeNames : list string) (tr : list event)
    (rU : DescribeULBResponse.t) (lb : ULBSet.t)
    (vs : ULBVServerSet.t) (vss : list ULBVServerSet.t)
    (rH : DescribeUHostInstanceResponse.t)
    (port0 : api.ServicePort) (ports : list api.ServicePort) :
  h OpDescribeULB tr (describe_url c) = Decoded _ rU None →
  DescribeULBResponse.RetCode rU = 0%Z →
  named (cloudprovider.GetLoadBalancerName service) (DescribeULBResponse.DataSet rU)
  = Some lb →
  api.Spec_Ports service = port0 :: ports →
  h OpDescribeUHostInstance (tr ++ [EvGet OpDescribeULB (describe_url c)]) (hosts_url c)
  = Decoded _ rH None →
  DescribeUHostInstanceResponse.RetCode rH = 0%Z →
  ULBSet.VServerSet lb = vs :: vss →
  accepts_membership_changes h →
  run h (Cloud.UpdateLoadBalancer ord c clusterName service nodeNames) tr
  = (Returned None,
     tr ++ [EvGet OpDescribeULB (describe_url c);
            EvGet OpDescribeUHostInstance (hosts_url c)]
        ++ ((fun kv : string * string =>
               EvGet OpReleaseBackend (release_backend_url c (ULBSet.ULBID lb) kv.2))
            <$> filter (fun kv : string * string =>
                   desired_hosts
                     (matching_host_ids nodeNames
                        (DescribeUHostInstanceResponse.UHostSet rH)) !! kv.1 = None)
                 (range ord (bound_backends (ULBVServerSet.VServerSet vs))))
        ++ ((fun kv : string * bool =>
               EvGet OpAllocateBackend
                 (allocate_backend_url c (ULBSet.ULBID lb)
                    (ULBVServerSet.VserverID vs) kv.1 (api.Port port0)))
            <$> filter (fun kv : string * bool =>
                   bound_backends (ULBVServerSet.VServerSet vs) !! kv.1 = None)
                 (range ord
                    (desired_hosts
                       (matching_host_ids nodeNames
                          (DescribeUHostInstanceResponse.UHostSet rH)))))).
Proof.
  intros HU HcodeU Hnamed Hports HH HcodeH Hvs [Hrel Hal].
  unfold Cloud.UpdateLoadBalancer.
  rewrite run_bind, run_describeLoadBalancer, HU. simpl lookup_result.
  rewrite bool_decide_false by (by intros ?). rewrite Hnamed, Hports.
  rewrite run_bind, (run_getUHostIDs _ _ _ _ rH HH HcodeH). cbv beta iota.
  simpl deref. rewrite run_bind, run_ret, Hvs. simpl first.
  rewrite run_bind, run_ret.
  fold (desired_hosts (matching_host_ids nodeNames
          (DescribeUHostInstanceResponse.UHostSet rH))).
  fold (bound_backends (ULBVServerSet.VServerSet vs)).
  set (m1 := desired_hosts _). set (m2 := bound_backends _).
  rewrite run_bind.
  erewrite (run_for_range_events h _
    (fun kv : string * string => if decide (m1 !! kv.1 = None)
       then [EvGet OpReleaseBackend (release_backend_url c (ULBSet.ULBID lb) kv.2)]
       else [])).
  2:{ intros [host bid] t. cbv beta iota. cbn [fst snd].
      destruct (m1 !! host) as [b|] eqn:Hm1.
      - rewrite decide_False by done. by rewrite app_nil_r.
      - rewrite decide_True by done.
        rewrite run_bind, (run_call OpReleaseBackend).
        fold (release_backend_url c (ULBSet.ULBID lb) bid).
        destruct (Hrel t (release_backend_url c (ULBSet.ULBID lb) bid))
          as (r & -> & Hr).
        simpl. by rewrite bool_decide_false by (by intros ?). }
  rewrite run_bind.
  erewrite (run_for_range_events h _
    (fun kv : string * bool => if decide (m2 !! kv.1 = None)
       then [EvGet OpAllocateBackend
               (allocate_backend_url c (ULBSet.ULBID lb)
                  (ULBVServerSet.VserverID vs) kv.1 (api.Port port0))]
       else [])).
  2:{ intros [host b] t. cbv beta iota. cbn [fst snd].
      destruct (m2 !! host) as [bid|] eqn:Hm2.
      - rewrite decide_False by done. by rewrite app_nil_r.
      - rewrite decide_True by done.
        rewrite run_bind, (run_call OpAllocateBackend).
        fold (allocate_backend_url c (ULBSet.ULBID lb)
                (ULBVServerSet.VserverID vs) host (api.Port port0)).
        destruct (Hal t (allocate_backend_url c (ULBSet.ULBID lb)
                           (ULBVServerSet.VserverID vs) host (api.Port port0)))
          as (r & -> & Hr).
        simpl. by rewrite bool_decide_false by (by intros ?). }
  rewrite !concat_optional_events. simpl.
  by rewrite <- !app_assoc.
Qed.

Lemma range_perm {V} (ord : RangeOrder) (m : gmap string V) :
  range ord m ≡ₚ map_to_list m.
Proof. apply visit_perm. Qed.

Lemma elem_of_range {V} (ord : RangeOrder) (m : gmap string V) (k : string) (v : V) :
  (k, v) ∈ range ord m ↔ m !! k = Some v.
Proof. by rewrite range_perm, elem_of_map_to_list. Qed.

Lemma NoDup_fst_filter_range {V} (ord : RangeOrder) (m : gmap string V)
    (P : string * V → Prop) `{∀ kv, Decision (P kv)} :
  NoDup (filter P (range ord m)).*1.
Proof.
  apply (sublist_NoDup _ (range ord m).*1).
  - rewrite range_perm. apply NoDup_fst_map_to_list.
  - apply fmap_sublist, sublist_filter.
Qed.

(** A list without duplicates whose only possible element is [x], and
    which holds [x], is [[x]]. *)
Lemma NoDup_only_element {A} (l : list A) (x : A) :
  NoDup l → (∀ y, y ∈ l ↔ y = x) → l = [x].
Proof.
  intros Hnd Hl. apply Permutation_singleton_r, NoDup_Permutation; [done|..].
  - apply NoDup_singleton.
  - intros y. by rewrite Hl, list_elem_of_singleton.
Qed.

(** X15. Let both lookups succeed, the service have a port, the
    load balancer have a virtual server, and the remote accept every
    ReleaseBackend and AllocateBackend call. Then, in whatever order the two
    maps are visited, [UpdateLoadBalancer] returns nil after the two lookups
    followed by one ReleaseBackend GET for each entry of [released] and one
    AllocateBackend GET for each entry of [allocated], where [released] holds
    exactly the bound hosts that are not desired, each once, with the binding
    recorded for it (every undesired binding, when no host is bound twice),
    and [allocated] holds exactly the desired hosts that are not bound, each
    once. With bound hosts {A, B} and desired hosts {B, C}: one release, for
    A, one allocation, for C, and nothing for B. *)
Theorem UpdateLoadBalancer_releases_and_allocates
    (h : handler) (ord : RangeOrder) (c : Cloud.t) (clusterName : string)
    (service : api.Service) (nodeNames : list string) (tr : list event)
    (rU : DescribeULBResponse.t) (lb : ULBSet.t)
    (vs : ULBVServerSet.t) (vss : list ULBVServerSet.t)
    (rH : DescribeUHostInstanceResponse.t)
    (port0 : api.ServicePort) (ports : list api.ServicePort) :
  h OpDescribeULB tr (describe_url c) = Decoded _ rU None →
  DescribeULBResponse.RetCode rU = 0%Z →
  named (cloudprovider.GetLoadBalancerName service) (DescribeULBResponse.DataSet rU)
  = Some lb →
  api.Spec_Ports service = port0 :: ports →
  h OpDescribeUHostInstance (tr ++ [EvGet OpDescribeULB (describe_url c)]) (hosts_url c)
  = Decoded _ rH None →
  DescribeUHostInstanceResponse.RetCode rH = 0%Z →
  ULBSet.VServerSet lb = vs :: vss →
  accepts_membership_changes h →
  ∃ (released : list (string * string)) (allocated : list string),
    run h (Cloud.UpdateLoadBalancer ord c clusterName service nodeNames) tr
    = (Returned None,
       tr ++ [EvGet OpDescribeULB (describe_url c);
              EvGet OpDescribeUHostInstance (hosts_url c)]
          ++ ((fun kv : string * string =>
                 EvGet OpReleaseBackend
                   (release_backend_url c (ULBSet.ULBID lb) kv.2)) <$> released)
          ++ ((fun host : string =>
                 EvGet OpAllocateBackend
                   (allocate_backend_url c (ULBSet.ULBID lb)
                      (ULBVServerSet.VserverID vs) host (api.Port port0)))
              <$> allocated))
    ∧ NoDup released.*1
    ∧ (∀ host bid, (host, bid) ∈ released ↔
         bound_backends (ULBVServerSet.VServerSet vs) !! host = Some bid
         ∧ host ∉ matching_host_ids nodeNames
                    (DescribeUHostInstanceResponse.UHostSet rH))
    ∧ (∀ host bid, (host, bid) ∈ released →
         ∃ b, b ∈ ULBVServerSet.VServerSet vs
              ∧ ULBBackendSet.ResourceID b = host
              ∧ ULBBackendSet.BackendID b = bid)
    ∧ (NoDup (ULBBackendSet.ResourceID <$> ULBVServerSet.VServerSet vs) →
       ∀ b, b ∈ ULBVServerSet.VServerSet vs →
         ULBBackendSet.ResourceID b
           ∉ matching_host_ids nodeNames (DescribeUHostInstanceResponse.UHostSet rH) →
         (ULBBackendSet.ResourceID b, ULBBackendSet.BackendID b) ∈ released)
    ∧ NoDup allocated
    ∧ (∀ host, host ∈ allocated ↔
         host ∈ matching_host_ids nodeNames
                  (DescribeUHostInstanceResponse.UHostSet rH)
         ∧ host ∉ ULBBackendSet.ResourceID <$> ULBVServerSet.VServerSet vs)
    ∧ (∀ A B C : string, A ≠ B → A ≠ C → B ≠ C →
         (∀ host, host ∈ ULBBackendSet.ResourceID <$> ULBVServerSet.VServerSet vs
                  ↔ host = A ∨ host = B) →
         (∀ host, host ∈ matching_host_ids nodeNames
                           (DescribeUHostInstanceResponse.UHostSet rH)
                  ↔ host = B ∨ host = C) →
         ∃ bid, bound_backends (ULBVServerSet.VServerSet vs) !! A = Some bid
                ∧ released = [(A, bid)] ∧ allocated = [C]).
Proof.
  intros HU HcodeU Hnamed Hports HH HcodeH Hvs Hacc.
  set (desired := matching_host_ids nodeNames
                    (DescribeUHostInstanceResponse.UHostSet rH)).
  set (backends := ULBVServerSet.VServerSet vs).
  set (released := filter (fun kv : string * string =>
                     desired_hosts desired !! kv.1 = None)
                     (range ord (bound_backends backends))).
  set (allocated := (filter (fun kv : string * bool =>
                       bound_backends backends !! kv.1 = None)
                       (range ord (desired_hosts desired))).*1).
  assert (∀ host bid, (host, bid) ∈ released ↔
            bound_backends backends !! host = Some bid ∧ host ∉ desired) as Hrel.
  { intros host bid. unfold released.
    rewrite list_elem_of_filter, elem_of_range, desired_hosts_lookup. simpl.
    case_decide; naive_solver. }
  assert (∀ host, host ∈ allocated ↔
            host ∈ desired ∧ host ∉ ULBBackendSet.ResourceID <$> backends) as Hal.
  { intros host. unfold allocated. rewrite list_elem_of_fmap.
    rewrite <- bound_backends_lookup_is_Some, <- eq_None_not_Some. split.
    - intros ([host' b] & -> & [Hb Hin]%list_elem_of_filter). simpl in *.
      apply elem_of_range in Hin. rewrite desired_hosts_lookup in Hin.
      by case_decide.
    - intros [Hin Hb]. exists (host, true). split; [done|].
      apply list_elem_of_filter. split; [done|].
      apply elem_of_range. rewrite desired_hosts_lookup. by rewrite decide_True. }
  assert (NoDup released.*1) as Hnd1 by apply NoDup_fst_filter_range.
  assert (NoDup allocated) as Hnd2 by apply NoDup_fst_filter_range.
  exists released, allocated.
  split.
  { rewrite (run_UpdateLoadBalancer_accepted h ord c clusterName service nodeNames
               tr rU lb vs vss rH port0 ports) by done.
    unfold allocated. by rewrite <- list_fmap_compose. }
  split; [done|]. split; [done|].
  split. { intros host bid [Hb _]%Hrel. by apply bound_backends_lookup_Some. }
  split. { intros Hnd b Hb Hdes. apply Hrel. split; [|done].
           by apply bound_backends_lookup_NoDup. }
  split; [done|]. split; [done|].
  intros A B C HAB HAC HBC Hbound Hdes.
  destruct (proj2 (bound_backends_lookup_is_Some backends A)) as [bid Hbid].
  { apply Hbound. by left. }
  exists bid. split; [done|]. split.
  - apply NoDup_only_element; [by eapply NoDup_fmap_1|].
    intros [host bid']. rewrite Hrel. split.
    + intros [Hb Hn].
      assert (host = A) as ->.
      { destruct (proj1 (Hbound host)) as [->| ->]; [|done|].
        - apply bound_backends_lookup_is_Some. by eexists.
        - destruct Hn. apply Hdes. by left. }
      congruence.
    + intros [= -> ->]. split; [done|].
      rewrite Hdes. intros [->| ->]; done.
  - apply NoDup_only_element; [done|].
    intros host. rewrite Hal, Hdes, Hbound. split.
    + intros [[->| ->] Hn]; [|done]. destruct Hn. by right.
    + intros ->. split; [by right|]. intros [->| ->]; done.
Qed.

Lemma UpdateLoadBalancer_releases_and_allocates_witness :
  (membership_remote bound_a_b zero_response OpDescribeULB []
     (describe_url example_cloud)
   = Decoded _ (membership_listing bound_a_b) None
   ∧ DescribeULBResponse.RetCode (membership_listing bound_a_b) = 0%Z
   ∧ named (cloudprovider.GetLoadBalancerName example_service)
       (DescribeULBResponse.DataSet (membership_listing bound_a_b))
     = Some (membership_ulb bound_a_b)
   ∧ api.Spec_Ports example_service = [api.mkServicePort 4000 30080]
   ∧ membership_remote bound_a_b zero_response OpDescribeUHostInstance
       ([] ++ [EvGet OpDescribeULB (describe_url example_cloud)])
       (hosts_url example_cloud)
     = Decoded _ example_hosts None
   ∧ DescribeUHostInstanceResponse.RetCode example_hosts = 0%Z
   ∧ ULBSet.VServerSet (membership_ulb bound_a_b) = [example_vserver bound_a_b]
   ∧ accepts_membership_changes (membership_remote bound_a_b zero_response))
  ∧ ∃ (released : list (string * string)) (allocated : list string),
      released = [("uhost-a", "backend-a")] ∧ allocated = ["uhost-c"]
      ∧ run (membership_remote bound_a_b zero_response)
          (Cloud.UpdateLoadBalancer reverse_order example_cloud "cluster"
             example_service example_nodes) []
        = (Returned None,
           [] ++ [EvGet OpDescribeULB (describe_url example_cloud);
                  EvGet OpDescribeUHostInstance (hosts_url example_cloud)]
              ++ ((fun kv : string * string =>
                     EvGet OpReleaseBackend
                       (release_backend_url example_cloud
                          (ULBSet.ULBID (membership_ulb bound_a_b)) kv.2))
                  <$> released)
              ++ ((fun host : string =>
                     EvGet OpAllocateBackend
                       (allocate_backend_url example_cloud
                          (ULBSet.ULBID (membership_ulb bound_a_b))
                          (ULBVServerSet.VserverID (example_vserver bound_a_b))
                          host (api.Port (api.mkServicePort 4000 30080))))
                  <$> allocated)).
Proof.
  assert (membership_remote bound_a_b zero_response OpDescribeULB []
            (describe_url example_cloud)
          = Decoded _ (membership_listing bound_a_b) None) as H1
    by (vm_compute; reflexivity).
  assert (DescribeULBResponse.RetCode (membership_listing bound_a_b) = 0%Z) as H2
    by reflexivity.
  assert (named (cloudprovider.GetLoadBalancerName example_service)
            (DescribeULBResponse.DataSet (membership_listing bound_a_b))
          = Some (membership_ulb bound_a_b)) as H3
    by (vm_compute; reflexivity).
  assert (api.Spec_Ports example_service = [api.mkServicePort 4000 30080]) as H4
    by reflexivity.
  assert (membership_remote bound_a_b zero_response OpDescribeUHostInstance
            ([] ++ [EvGet OpDescribeULB (describe_url example_cloud)])
            (hosts_url example_cloud)
          = Decoded _ example_hosts None) as H5
    by (vm_compute; reflexivity).
  assert (DescribeUHostInstanceResponse.RetCode example_hosts = 0%Z) as H6
    by reflexivity.
  assert (ULBSet.VServerSet (membership_ulb bound_a_b)
          = [example_vserver bound_a_b]) as H7
    by reflexivity.
  assert (accepts_membership_changes (membership_remote bound_a_b zero_response))
    as H8.
  { split; intros t url; eexists; split; vm_compute; reflexivity. }
  split; [exact (conj H1 (conj H2 (conj H3 (conj H4 (conj H5 (conj H6 (conj H7 H8)))))))|].
  destruct (UpdateLoadBalancer_releases_and_allocates
              (membership_remote bound_a_b zero_response) reverse_order
              example_cloud "cluster" example_service example_nodes []
              (membership_listing bound_a_b) (membership_ulb bound_a_b)
              (example_vserver bound_a_b) [] example_hosts
              (api.mkServicePort 4000 30080) [] H1 H2 H3 H4 H5 H6 H7 H8)
    as (released & allocated & Hrun & _ & _ & _ & _ & _ & _ & Hscenario).
  exists released, allocated.
  destruct (Hscenario "uhost-a" "uhost-b" "uhost-c") as (bid & Hbid & Hr & Ha).
  - discriminate.
  - discriminate.
  - discriminate.
  - intros host.
    change (ULBBackendSet.ResourceID <$> ULBVServerSet.VServerSet
              (example_vserver bound_a_b)) with ["uhost-a"; "uhost-b"].
    rewrite elem_of_cons, list_elem_of_singleton. tauto.
  - intros host.
    replace (matching_host_ids example_nodes
               (DescribeUHostInstanceResponse.UHostSet example_hosts))
      with ["uhost-b"; "uhost-c"] by (vm_compute; reflexivity).
    rewrite elem_of_cons, list_elem_of_singleton. tauto.
  - vm_compute in Hbid. injection Hbid as <-.
    split; [exact Hr|]. split; [exact Ha|exact Hrun].
Defined.
(** Two runs outside the hypotheses above. With bound hosts {uhost-a,
    uhost-b} and desired hosts {uhost-b, uhost-c}, a remote that refuses the
    release of [uhost-a] ends the update there: the error is returned and
    no AllocateBackend call is made for [uhost-c], in either visiting order.
    And when [uhost-a] is bound twice, an accepting remote sees one
    ReleaseBackend call, for the binding listed last. *)
Example UpdateLoadBalancer_stops_at_refusal :
  (ULBBackendSet.ResourceID <$> bound_a_b = ["uhost-a"; "uhost-b"]
   ∧ matching_host_ids example_nodes
       (DescribeUHostInstanceResponse.UHostSet example_hosts)
     = ["uhost-b"; "uhost-c"])
  ∧ ((run (membership_remote bound_a_b refusing_answer)
        (Cloud.UpdateLoadBalancer map_to_list_order example_cloud "cluster"
           example_service example_nodes) []).1
     = Returned (Some (errors_New "denied"))
     ∧ requested (run (membership_remote bound_a_b refusing_answer)
         (Cloud.UpdateLoadBalancer map_to_list_order example_cloud "cluster"
            example_service example_nodes) []).2
       = [OpDescribeULB; OpDescribeUHostInstance; OpReleaseBackend])
  ∧ ((run (membership_remote bound_a_b refusing_answer)
        (Cloud.UpdateLoadBalancer reverse_order example_cloud "cluster"
           example_service example_nodes) []).1
     = Returned (Some (errors_New "denied"))
     ∧ requested (run (membership_remote bound_a_b refusing_answer)
         (Cloud.UpdateLoadBalancer reverse_order example_cloud "cluster"
            example_service example_nodes) []).2
       = [OpDescribeULB; OpDescribeUHostInstance; OpReleaseBackend])
  ∧ ((run (membership_remote bound_a_a_b zero_response)
        (Cloud.UpdateLoadBalancer map_to_list_order example_cloud "cluster"
           example_service example_nodes) []).1
     = Returned None
     ∧ requests_of OpReleaseBackend
         (run (membership_remote bound_a_a_b zero_response)
            (Cloud.UpdateLoadBalancer map_to_list_order example_cloud "cluster"
               example_service example_nodes) []).2
       = [release_backend_url example_cloud "ulb-1" "backend-a2"]).
Proof. vm_compute. repeat split. Qed.

(** ** Further properties of the signed request builder *)

Lemma included_index (p : Params) (k : string) : included p k ↔ index p k ≠ "".
Proof.
  unfold included, index. destruct (p !! k) as [v|]; simpl.
  - split; [by intros (? & [= <-] & ?)|by eauto].
  - split; [by intros (? & ? & ?)|done].
Qed.

Lemma signed_keys_ext (p q : Params) :
  (∀ k, k ≠ "Signature" → index p k = index q k) →
  signed_keys p = signed_keys q.
Proof.
  intros Hpq. apply (Sorted_unique String.le); try apply Sorted_signed_keys.
  apply NoDup_Permutation; try apply NoDup_signed_keys.
  intros k. rewrite !elem_of_signed_keys, !included_index.
  split; intros (Hi & H1 & H2); (split; [|done]).
  - by rewrite <- Hpq.
  - by rewrite Hpq.
Qed.

(** X2. The query string depends only on the values [p[k]] of the keys
    other than [Signature]: two maps that agree on them give the same
    string. So a [Signature] supplied by the caller plays no part, and a key
    mapped to the empty string counts as an absent key. *)
Theorem toQueryString_ext (p q : Params) :
  (∀ k, k ≠ "Signature" → index p k = index q k) →
  toQueryString p = toQueryString q.
Proof.
  intros Hpq. rewrite !toQueryString_shape, !signing_input_signed_keys.
  rewrite (signed_keys_ext p q Hpq), (Hpq "PrivateKey") by done.
  assert (∀ f g : Params → string → string,
            (∀ k, k ≠ "Signature" → f p k = g q k) →
            f p <$> signed_keys q = g q <$> signed_keys q) as Hmap.
  { intros f g Hfg. apply list_fmap_ext. intros i k Hk. apply Hfg.
    apply list_elem_of_lookup_2, elem_of_signed_keys in Hk. tauto. }
  rewrite (Hmap query_pair query_pair), (Hmap signed_pair signed_pair); [done|..].
  - intros k Hk. unfold signed_pair. by rewrite Hpq.
  - intros k Hk. unfold query_pair. by rewrite Hpq.
Qed.

Lemma toQueryString_ext_witness :
  (∀ k, k ≠ "Signature" →
        index params_with_blanks k = index params_without_blanks k)
  ∧ toQueryString params_with_blanks = toQueryString params_without_blanks.
Proof.
  assert (∀ k, k ≠ "Signature" →
            index params_with_blanks k = index params_without_blanks k) as H.
  { intros k Hk. unfold index, params_with_blanks, params_without_blanks.
    rewrite lookup_insert_ne by done.
    destruct (decide (k = "zone")) as [->|Hz].
    - by rewrite lookup_insert_eq, !lookup_insert_ne, lookup_empty by done.
    - by rewrite lookup_insert_ne by done. }
  split; [exact H|].
  exact (toQueryString_ext params_with_blanks params_without_blanks H).
Defined.

Lemma toQueryString_range_irrelevant_witness :
  reverse (map_to_list params_with_blanks) ≡ₚ map_to_list params_with_blanks
  ∧ toQueryString_ranged (reverse (map_to_list params_with_blanks))
      params_with_blanks
    = toQueryString params_with_blanks.
Proof.
  split; [apply reverse_Permutation|].
  exact (toQueryString_range_irrelevant params_with_blanks _
           (reverse_Permutation _)).
Defined.

(** X3. For every parameter record, [toParams] maps each json tag of the
    struct to the [%v] rendering of that field, and holds no other key. *)
Theorem record_params_lookup (op : Operation) (r : Param op) :
  (∀ tag v, (tag, v) ∈ fields op r →
     record_params op r !! tag = Some (Sprintf_v v))
  ∧ (∀ tag, tag ∉ (fields op r).*1 → record_params op r !! tag = None)
  ∧ (∀ tag, is_Some (record_params op r !! tag) ↔ tag ∈ (fields op r).*1).
Proof.
  split; [|split].
  - intros tag v. apply toParams_lookup, fields_NoDup.
  - intros tag. apply toParams_lookup_None.
  - intros tag. split.
    + intros Hs. destruct (decide (tag ∈ (fields op r).*1)) as [|Hn]; [done|].
      apply (toParams_lookup_None _ _) in Hn. unfold record_params in Hs.
      rewrite Hn in Hs. by destruct Hs.
    + intros ([tag' v] & -> & Hin)%list_elem_of_fmap.
      unfold record_params. simpl.
      rewrite (toParams_lookup _ _ _ (fields_NoDup op r) Hin). by eexists.
Qed.

(** ** Further properties of lookup and deletion *)

Lemma named_first (name : string) (l1 l2 : list ULBSet.t) (lb : ULBSet.t) :
  ULBSet.Name lb = name → (∀ x, x ∈ l1 → ULBSet.Name x ≠ name) →
  named name (l1 ++ lb :: l2) = Some lb.
Proof.
  intros Hlb Hl1. unfold named. induction l1 as [|x l1 IH]; simpl.
  - by rewrite filter_cons, decide_True.
  - rewrite filter_cons, decide_False by (apply Hl1; left).
    apply IH. intros y Hy. apply Hl1. by right.
Qed.

Lemma concat_singletons {A B} (f : A → B) (l : list A) :
  concat ((fun x => [f x]) <$> l) = f <$> l.
Proof. induction l as [|x l IH]; [done|]. rewrite !fmap_cons. simpl. by rewrite IH. Qed.

(** X4. When the DescribeULB call succeeds with [RetCode] 0, the lookup
    returns the first entry of the listing that has the requested name,
    whatever follows it. *)
Theorem lookup_returns_first_match
    (h : handler) (c : Cloud.t) (name : string) (tr : list event)
    (r : DescribeULBResponse.t) (l1 l2 : list ULBSet.t) (lb : ULBSet.t) :
  h OpDescribeULB tr (describe_url c) = Decoded _ r None →
  DescribeULBResponse.RetCode r = 0%Z →
  DescribeULBResponse.DataSet r = l1 ++ lb :: l2 →
  ULBSet.Name lb = name →
  (∀ x, x ∈ l1 → ULBSet.Name x ≠ name) →
  run h (Cloud.describeLoadBalancer c name) tr
  = (Returned (Some lb, None), tr ++ [EvGet OpDescribeULB (describe_url c)]).
Proof.
  intros Hh Hcode Hdata Hlb Hl1. rewrite run_describeLoadBalancer, Hh. simpl.
  rewrite bool_decide_false by (by intros ?).
  by rewrite Hdata, (named_first name l1 l2 lb Hlb Hl1).
Qed.

Lemma lookup_returns_first_match_witness :
  (accepting_remote duplicate_listing OpDescribeULB [] (describe_url example_cloud)
   = Decoded _ duplicate_listing None
   ∧ DescribeULBResponse.RetCode duplicate_listing = 0%Z
   ∧ DescribeULBResponse.DataSet duplicate_listing
     = [other_ulb] ++ example_ulb :: [second_ulb]
   ∧ ULBSet.Name example_ulb = "lb-1"
   ∧ (∀ x, x ∈ [other_ulb] → ULBSet.Name x ≠ "lb-1"))
  ∧ run (accepting_remote duplicate_listing)
      (Cloud.describeLoadBalancer example_cloud "lb-1") []
    = (Returned (Some example_ulb, None),
       [] ++ [EvGet OpDescribeULB (describe_url example_cloud)]).
Proof.
  assert (∀ x, x ∈ [other_ulb] → ULBSet.Name x ≠ "lb-1") as Hl1.
  { intros x Hx. apply list_elem_of_singleton in Hx. subst x. discriminate. }
  split; [by repeat split|].
  exact (lookup_returns_first_match (accepting_remote duplicate_listing)
           example_cloud "lb-1" [] duplicate_listing [other_ulb] [second_ulb]
           example_ulb eq_refl eq_refl eq_refl eq_refl Hl1).
Defined.

(** X5. A DescribeULB response with a non-zero [RetCode] is read as "no
    such load balancer": the lookup returns [ULBNotFound], and deleting the
    load balancer then returns nil without any DeleteULB request. *)
Theorem refused_lookup_reads_as_absent
    (h : handler) (c : Cloud.t) (name : string) (tr : list event)
    (r : DescribeULBResponse.t) :
  h OpDescribeULB tr (describe_url c) = Decoded _ r None →
  DescribeULBResponse.RetCode r ≠ 0%Z →
  run h (Cloud.describeLoadBalancer c name) tr
  = (Returned (None, Some ULBNotFound), tr ++ [EvGet OpDescribeULB (describe_url c)])
  ∧ run h (Cloud.deleteLoadBalancer c name) tr
    = (Returned None, tr ++ [EvGet OpDescribeULB (describe_url c)]).
Proof.
  intros Hh Hcode.
  assert (lookup_result name (h OpDescribeULB tr (describe_url c))
          = (None, Some ULBNotFound)) as Hl.
  { rewrite Hh. simpl. by rewrite bool_decide_true. }
  split.
  - by rewrite run_describeLoadBalancer, Hl.
  - by eapply run_deleteLoadBalancer_not_found.
Qed.

Lemma refused_lookup_reads_as_absent_witness :
  (answering refusing_answer OpDescribeULB [] (describe_url example_cloud)
   = Decoded _ (refusing_answer OpDescribeULB) None
   ∧ DescribeULBResponse.RetCode (refusing_answer OpDescribeULB) ≠ 0%Z)
  ∧ run (answering refusing_answer)
      (Cloud.describeLoadBalancer example_cloud "lb-1") []
    = (Returned (None, Some ULBNotFound),
       [] ++ [EvGet OpDescribeULB (describe_url example_cloud)])
  ∧ run (answering refusing_answer)
      (Cloud.deleteLoadBalancer example_cloud "lb-1") []
    = (Returned None, [] ++ [EvGet OpDescribeULB (describe_url example_cloud)]).
Proof.
  assert (DescribeULBResponse.RetCode (refusing_answer OpDescribeULB) ≠ 0%Z) as H
    by discriminate.
  split; [by split|].
  exact (refused_lookup_reads_as_absent (answering refusing_answer) example_cloud
           "lb-1" [] (refusing_answer OpDescribeULB) eq_refl H).
Defined.

(** X6. When the lookup finds the load balancer, its deletion is accepted
    and every release is accepted, [deleteLoadBalancer] returns nil after
    exactly: the lookup, one DeleteULB request for the load balancer's ID,
    and one ReleaseEIP request per elastic IP of the load balancer, in the
    order of its [IPSet]; nothing is logged. *)
Theorem deleteLoadBalancer_releases_every_eip
    (h : handler) (c : Cloud.t) (name : string) (tr : list event)
    (rU : DescribeULBResponse.t) (lb : ULBSet.t) (rD : DeleteULBResponse.t) :
  h OpDescribeULB tr (describe_url c) = Decoded _ rU None →
  DescribeULBResponse.RetCode rU = 0%Z →
  named name (DescribeULBResponse.DataSet rU) = Some lb →
  h OpDeleteULB (tr ++ [EvGet OpDescribeULB (describe_url c)]) (delete_url c lb)
  = Decoded _ rD None →
  DeleteULBResponse.RetCode rD = 0%Z →
  accepts_releases h →
  run h (Cloud.deleteLoadBalancer c name) tr
  = (Returned None,
     tr ++ [EvGet OpDescribeULB (describe_url c);
            EvGet OpDeleteULB (delete_url c lb)]
        ++ ((fun ipSet => EvGet OpReleaseEIP (release_eip_url c ipSet))
            <$> ULBSet.IPSet lb)).
Proof.
  intros HU HcodeU Hnamed HD HcodeD Hrel.
  unfold Cloud.deleteLoadBalancer.
  rewrite run_bind, run_describeLoadBalancer, HU. simpl lookup_result.
  rewrite bool_decide_false by (by intros ?). rewrite Hnamed.
  rewrite bool_decide_false by (by intros [? ?]).
  simpl deref. rewrite run_bind, run_ret, run_bind.
  rewrite (run_call OpDeleteULB). fold (delete_url c lb). rewrite HD.
  simpl client_result. cbv iota beta. cbn [fmap option_fmap option_map].
  rewrite run_bind, run_ret. simpl deref. rewrite run_bind, run_ret, run_bind.
  rewrite bool_decide_false by (by intros ?). rewrite run_ret, run_bind.
  erewrite (run_for_range_events h _
    (fun ipSet => [EvGet OpReleaseEIP (release_eip_url c ipSet)])).
  2:{ intros ipSet t. rewrite run_bind, (run_call OpReleaseEIP).
      fold (release_eip_url c ipSet).
      destruct (Hrel t (release_eip_url c ipSet)) as (r & -> & Hr).
      simpl. by rewrite bool_decide_false by (by intros ?). }
  rewrite run_ret, concat_singletons. by rewrite <- !app_assoc.
Qed.

Lemma deleteLoadBalancer_releases_every_eip_witness :
  (accepting_remote example_listing OpDescribeULB [] (describe_url example_cloud)
   = Decoded _ example_listing None
   ∧ DescribeULBResponse.RetCode example_listing = 0%Z
   ∧ named "lb-1" (DescribeULBResponse.DataSet example_listing) = Some example_ulb
   ∧ accepting_remote example_listing OpDeleteULB
       ([] ++ [EvGet OpDescribeULB (describe_url example_cloud)])
       (delete_url example_cloud example_ulb)
     = Decoded _ ReturnStatus.zero None
   ∧ DeleteULBResponse.RetCode ReturnStatus.zero = 0%Z
   ∧ accepts_releases (accepting_remote example_listing))
  ∧ run (accepting_remote example_listing)
      (Cloud.deleteLoadBalancer example_cloud "lb-1") []
    = (Returned None,
       [] ++ [EvGet OpDescribeULB (describe_url example_cloud);
              EvGet OpDeleteULB (delete_url example_cloud example_ulb)]
          ++ ((fun ipSet => EvGet OpReleaseEIP (release_eip_url example_cloud ipSet))
              <$> ULBSet.IPSet example_ulb)).
Proof.
  assert (accepts_releases (accepting_remote example_listing)) as Hacc.
  { intros t url. eexists. split; reflexivity. }
  assert (named "lb-1" (DescribeULBResponse.DataSet example_listing)
          = Some example_ulb) as Hn by (vm_compute; reflexivity).
  split; [by repeat split|].
  exact (deleteLoadBalancer_releases_every_eip (accepting_remote example_listing)
           example_cloud "lb-1" [] example_listing example_ulb ReturnStatus.zero
           eq_refl eq_refl Hn eq_refl eq_refl Hacc).
Defined.

(** ** The provider adapter: instances *)

Lemma matching_inner_loop (nn : gmap string bool) (id : string)
    (ips : list UHostIPSet.t) (acc : list string) :
  foldl (fun ids ip => match nn !! UHostIPSet.IP ip with
                       | Some _ => ids ++ [id]
                       | None => ids
                       end) acc ips
  = acc ++ ((fun _ => id) <$> filter (fun ip => is_Some (nn !! UHostIPSet.IP ip)) ips).
Proof.
  revert acc. induction ips as [|ip ips IH]; intros acc; simpl.
  - by rewrite app_nil_r.
  - rewrite IH, filter_cons. destruct (nn !! UHostIPSet.IP ip) as [b|] eqn:Hnn.
    + rewrite decide_True by eauto. simpl. by rewrite <- app_assoc.
    + rewrite decide_False; [done|]. by intros [? ?].
Qed.

Lemma node_names_lookup (names : list string) (x : string) :
  is_Some (foldl (fun nn name => <[name := true]> nn) (∅ : gmap string bool) names !! x)
  ↔ x ∈ names.
Proof.
  change (foldl _ ∅ names) with (desired_hosts names).
  rewrite desired_hosts_lookup.
  case_decide; (split; [|by eauto]); [done|by intros [? ?]].
Qed.

(** The two nested loops of [getUHostIDs], host by host: one copy of the
    host's ID for every IP of the host that is a node name. *)
Lemma matching_host_ids_concat (names : list string) (hosts : list UHostInstanceSet.t) :
  matching_host_ids names hosts
  = concat ((fun host =>
               (fun _ => UHostInstanceSet.UHostID host)
               <$> filter (fun ip => UHostIPSet.IP ip ∈ names)
                     (UHostInstanceSet.IPSet host)) <$> hosts).
Proof.
  unfold matching_host_ids.
  set (nn := foldl _ ∅ names).
  enough (∀ acc,
    foldl (fun ids host =>
             foldl (fun ids ip => match nn !! UHostIPSet.IP ip with
                                  | Some _ => ids ++ [UHostInstanceSet.UHostID host]
                                  | None => ids
                                  end) ids (UHostInstanceSet.IPSet host))
          acc hosts
    = acc ++ concat ((fun host =>
               (fun _ => UHostInstanceSet.UHostID host)
               <$> filter (fun ip => UHostIPSet.IP ip ∈ names)
                     (UHostInstanceSet.IPSet host)) <$> hosts)) as H
    by apply (H []).
  induction hosts as [|host hosts IH]; intros acc; simpl.
  - by rewrite app_nil_r.
  - rewrite IH, matching_inner_loop, <- app_assoc. do 3 f_equal.
    apply list_filter_iff. intros ip. apply node_names_lookup.
Qed.

Lemma elem_of_concat {A} (ls : list (list A)) (x : A) :
  x ∈ concat ls ↔ ∃ l, x ∈ l ∧ l ∈ ls.
Proof.
  induction ls as [|l ls IH]; simpl.
  - split; [by intros ?%elem_of_nil|by intros (? & _ & ?%elem_of_nil)].
  - rewrite elem_of_app, IH. split.
    + intros [?|(l' & ? & ?)]; [exists l|exists l']; split; try done;
        [left|by right].
    + intros (l' & Hx & [->|?]%elem_of_cons); [by left|right; by exists l'].
Qed.

Lemma elem_of_matching_host_ids (names : list string)
    (hosts : list UHostInstanceSet.t) (id : string) :
  id ∈ matching_host_ids names hosts
  ↔ ∃ host ip, host ∈ hosts ∧ ip ∈ UHostInstanceSet.IPSet host
               ∧ UHostIPSet.IP ip ∈ names ∧ UHostInstanceSet.UHostID host = id.
Proof.
  rewrite matching_host_ids_concat, elem_of_concat. split.
  - intros (l & Hid & (host & -> & Hhost)%list_elem_of_fmap).
    apply list_elem_of_fmap in Hid as (ip & -> & [Hn Hip]%list_elem_of_filter).
    by exists host, ip.
  - intros (host & ip & Hhost & Hip & Hn & <-).
    exists ((fun _ => UHostInstanceSet.UHostID host)
            <$> filter (fun ip => UHostIPSet.IP ip ∈ names)
                  (UHostInstanceSet.IPSet host)).
    split.
    + apply list_elem_of_fmap. exists ip. split; [done|].
      by apply list_elem_of_filter.
    + apply list_elem_of_fmap. by exists host.
Qed.

(** X7. When the host listing succeeds with [RetCode] 0, [getUHostIDs]
    returns, in the order of the listing, one copy of a host's ID for every
    IP of that host that is among the node names: an ID is returned exactly
    when some listed host with that ID has an IP among the node names, and
    a host that matches through two of its IPs is returned twice. *)
Theorem getUHostIDs_matches_by_ip
    (h : handler) (c : Cloud.t) (nodeNames : list string) (tr : list event)
    (r : DescribeUHostInstanceResponse.t) :
  h OpDescribeUHostInstance tr (hosts_url c) = Decoded _ r None →
  DescribeUHostInstanceResponse.RetCode r = 0%Z →
  ∃ ids,
    run h (Cloud.getUHostIDs c nodeNames) tr
    = (Returned (ids, None), tr ++ [EvGet OpDescribeUHostInstance (hosts_url c)])
    ∧ ids = concat ((fun host =>
               (fun _ => UHostInstanceSet.UHostID host)
               <$> filter (fun ip => UHostIPSet.IP ip ∈ nodeNames)
                     (UHostInstanceSet.IPSet host))
             <$> DescribeUHostInstanceResponse.UHostSet r)
    ∧ (∀ id, id ∈ ids ↔
         ∃ host ip, host ∈ DescribeUHostInstanceResponse.UHostSet r
                    ∧ ip ∈ UHostInstanceSet.IPSet host
                    ∧ UHostIPSet.IP ip ∈ nodeNames
                    ∧ UHostInstanceSet.UHostID host = id).
Proof.
  intros Hh Hcode. eexists. split; [by apply run_getUHostIDs|].
  split; [apply matching_host_ids_concat|apply elem_of_matching_host_ids].
Qed.

Lemma getUHostIDs_matches_by_ip_witness :
  (hosts_remote two_ip_hosts OpDescribeUHostInstance [] (hosts_url example_cloud)
   = Decoded _ two_ip_hosts None
   ∧ DescribeUHostInstanceResponse.RetCode two_ip_hosts = 0%Z)
  ∧ ∃ ids,
      run (hosts_remote two_ip_hosts)
        (Cloud.getUHostIDs example_cloud ["120.0.0.1"; "10.0.0.1"; "10.0.0.9"]) []
      = (Returned (ids, None),
         [] ++ [EvGet OpDescribeUHostInstance (hosts_url example_cloud)])
      ∧ ids = ["uhost-a"; "uhost-a"].
Proof.
  split; [by split|].
  destruct (getUHostIDs_matches_by_ip (hosts_remote two_ip_hosts) example_cloud
              ["120.0.0.1"; "10.0.0.1"; "10.0.0.9"] [] two_ip_hosts eq_refl eq_refl)
    as (ids & Hrun & Hids & _).
  exists ids. split; [exact Hrun|]. rewrite Hids. vm_compute. reflexivity.
Defined.

(** X8. [getUHostIDs] returns no ID together with the error when the listing
    fails: the transport error or the decoding error as it is, and for a
    non-zero [RetCode] a new error carrying the remote message. *)
Theorem getUHostIDs_errors
    (h : handler) (c : Cloud.t) (nodeNames : list string) (tr : list event) :
  (∀ err, h OpDescribeUHostInstance tr (hosts_url c) = GetFailed _ err →
     run h (Cloud.getUHostIDs c nodeNames) tr
     = (Returned ([], Some (http_error err)),
        tr ++ [EvGet OpDescribeUHostInstance (hosts_url c)]))
  ∧ (∀ r err, h OpDescribeUHostInstance tr (hosts_url c) = Decoded _ r (Some err) →
     run h (Cloud.getUHostIDs c nodeNames) tr
     = (Returned ([], Some (json_error err)),
        tr ++ [EvGet OpDescribeUHostInstance (hosts_url c)]))
  ∧ (∀ r, h OpDescribeUHostInstance tr (hosts_url c) = Decoded _ r None →
     DescribeUHostInstanceResponse.RetCode r ≠ 0%Z →
     run h (Cloud.getUHostIDs c nodeNames) tr
     = (Returned ([], Some (errors_New (DescribeUHostInstanceResponse.Message r))),
        tr ++ [EvGet OpDescribeUHostInstance (hosts_url c)])).
Proof.
  unfold Cloud.getUHostIDs.
  split; [|split]; intros; rewrite run_bind, (run_call OpDescribeUHostInstance);
    fold (hosts_url c); rewrite H; simpl; [done|done|].
  by rewrite bool_decide_true.
Qed.

Lemma ids_of_host_no_ip (n id : string) (ips : list UHostIPSet.t) :
  ¬ Exists (fun ip => UHostIPSet.IP ip = n) ips →
  (fun _ : UHostIPSet.t => id) <$> filter (fun ip => UHostIPSet.IP ip ∈ [n]) ips = [].
Proof.
  induction ips as [|ip ips IH]; [done|]. intros Hn.
  rewrite filter_cons, decide_False.
  - apply IH. intros ?. apply Hn. by right.
  - intros ?%list_elem_of_singleton. apply Hn. by left.
Qed.

Lemma ids_of_host_with_ip (n id : string) (ips : list UHostIPSet.t) :
  Exists (fun ip => UHostIPSet.IP ip = n) ips →
  ∃ rest, (fun _ : UHostIPSet.t => id)
          <$> filter (fun ip => UHostIPSet.IP ip ∈ [n]) ips = id :: rest.
Proof.
  induction 1 as [ip ips Hip|ip ips Hex [rest IH]].
  - rewrite filter_cons, decide_True by (by apply list_elem_of_singleton).
    rewrite fmap_cons. by eexists.
  - rewrite filter_cons. case_decide; [|by eexists].
    rewrite fmap_cons. by eexists.
Qed.

Lemma head_matching_host_ids (n : string) (hosts : list UHostInstanceSet.t) :
  head (matching_host_ids [n] hosts)
  = UHostInstanceSet.UHostID <$> first_host_with_ip n hosts.
Proof.
  rewrite matching_host_ids_concat. unfold first_host_with_ip.
  induction hosts as [|host hosts IH]; [done|].
  rewrite fmap_cons, filter_cons. cbn [concat].
  destruct (decide (has_ip n host)) as [Hip|Hip].
  - destruct (ids_of_host_with_ip n (UHostInstanceSet.UHostID host) _ Hip)
      as [rest ->]. done.
  - by rewrite (ids_of_host_no_ip n _ _ Hip).
Qed.

(** X9. When the host listing succeeds with [RetCode] 0, [InstanceID] and
    [ExternalID] return the ID of the first listed host that has the node
    name among its IPs, and [InstanceNotFound] when no listed host has it. *)
Theorem InstanceID_first_host_with_ip
    (h : handler) (c : Cloud.t) (nodeName : string) (tr : list event)
    (r : DescribeUHostInstanceResponse.t) :
  h OpDescribeUHostInstance tr (hosts_url c) = Decoded _ r None →
  DescribeUHostInstanceResponse.RetCode r = 0%Z →
  run h (Cloud.InstanceID c nodeName) tr
  = (Returned
       match first_host_with_ip nodeName (DescribeUHostInstanceResponse.UHostSet r) with
       | Some host => (UHostInstanceSet.UHostID host, None)
       | None => ("", Some InstanceNotFound)
       end,
     tr ++ [EvGet OpDescribeUHostInstance (hosts_url c)])
  ∧ run h (Cloud.ExternalID c nodeName) tr
    = run h (Cloud.InstanceID c nodeName) tr.
Proof.
  intros Hh Hcode. split; [|done]. unfold Cloud.InstanceID.
  rewrite run_bind, (run_getUHostIDs _ _ _ _ r Hh Hcode). cbv beta iota.
  pose proof (head_matching_host_ids nodeName
                (DescribeUHostInstanceResponse.UHostSet r)) as Hhead.
  destruct (matching_host_ids [nodeName] _) as [|id0 ids];
    destruct (first_host_with_ip nodeName _) as [host|]; simplify_eq/=; done.
Qed.

Lemma InstanceID_first_host_with_ip_witness :
  (hosts_remote two_ip_hosts OpDescribeUHostInstance [] (hosts_url example_cloud)
   = Decoded _ two_ip_hosts None
   ∧ DescribeUHostInstanceResponse.RetCode two_ip_hosts = 0%Z)
  ∧ run (hosts_remote two_ip_hosts) (Cloud.InstanceID example_cloud "120.0.0.2") []
    = (Returned
         match first_host_with_ip "120.0.0.2"
                 (DescribeUHostInstanceResponse.UHostSet two_ip_hosts) with
         | Some host => (UHostInstanceSet.UHostID host, None)
         | None => ("", Some InstanceNotFound)
         end,
       [] ++ [EvGet OpDescribeUHostInstance (hosts_url example_cloud)])
  ∧ run (hosts_remote two_ip_hosts) (Cloud.ExternalID example_cloud "120.0.0.2") []
    = run (hosts_remote two_ip_hosts) (Cloud.InstanceID example_cloud "120.0.0.2") [].
Proof.
  split; [by split|].
  exact (InstanceID_first_host_with_ip (hosts_remote two_ip_hosts) example_cloud
           "120.0.0.2" [] two_ip_hosts eq_refl eq_refl).
Defined.

Example InstanceID_examples :
  (run (hosts_remote two_ip_hosts) (Cloud.InstanceID example_cloud "120.0.0.2") []).1
  = Returned ("uhost-b", None)
  ∧ (run (hosts_remote two_ip_hosts) (Cloud.InstanceID example_cloud "10.9.9.9") []).1
    = Returned ("", Some InstanceNotFound).
Proof. vm_compute. done. Qed.

Lemma run_ip_loop {R} (h : handler) (n : string) (v : R) (ips : list UHostIPSet.t)
    (t : list event) :
  run h (for_range ips (fun ip =>
           if bool_decide (UHostIPSet.IP ip = n) then mret (Some v) else mret None)) t
  = (Returned (if decide (Exists (fun ip => UHostIPSet.IP ip = n) ips)
               then Some v else None), t).
Proof.
  induction ips as [|ip ips IH].
  { reflexivity. }
  simpl for_range. rewrite run_bind. case_bool_decide as Hip.
  - rewrite run_ret.
    destruct (decide (Exists _ (ip :: ips))) as [?|Hn]; [done|].
    destruct Hn. by left.
  - rewrite run_ret, IH.
    destruct (decide (Exists _ ips)) as [Hex|Hex];
      destruct (decide (Exists _ (ip :: ips))) as [Hex'|Hex']; try done.
    + destruct Hex'. by right.
    + by apply Exists_cons in Hex' as [?|?].
Qed.

Lemma run_host_loop (h : handler) (n : string) (hosts : list UHostInstanceSet.t)
    (t : list event) :
  run h (for_range hosts (fun host =>
           for_range (UHostInstanceSet.IPSet host) (fun ip =>
             if bool_decide (UHostIPSet.IP ip = n)
             then mret (Some (UHostInstanceSet.UHostType host, @None error))
             else mret None))) t
  = (Returned (match first_host_with_ip n hosts with
               | Some host => Some (UHostInstanceSet.UHostType host, None)
               | None => None
               end), t).
Proof.
  unfold first_host_with_ip. induction hosts as [|host hosts IH]; [done|].
  simpl for_range. rewrite run_bind, run_ip_loop, filter_cons.
  destruct (decide (has_ip n host)) as [Hip|Hip].
  - by rewrite decide_True by exact Hip.
  - by rewrite decide_False by exact Hip.
Qed.

(** X10. When the host listing succeeds with [RetCode] 0, [InstanceType]
    returns the type of the first listed host that has the node name among
    its IPs (the host whose ID [InstanceID] returns), and [InstanceNotFound]
    when no listed host has it. *)
Theorem InstanceType_first_host_with_ip
    (h : handler) (c : Cloud.t) (nodeName : string) (tr : list event)
    (r : DescribeUHostInstanceResponse.t) :
  h OpDescribeUHostInstance tr (hosts_url c) = Decoded _ r None →
  DescribeUHostInstanceResponse.RetCode r = 0%Z →
  run h (Cloud.InstanceType c nodeName) tr
  = (Returned
       match first_host_with_ip nodeName (DescribeUHostInstanceResponse.UHostSet r) with
       | Some host => (UHostInstanceSet.UHostType host, None)
       | None => ("", Some InstanceNotFound)
       end,
     tr ++ [EvGet OpDescribeUHostInstance (hosts_url c)]).
Proof.
  intros Hh Hcode. unfold Cloud.InstanceType.
  rewrite run_bind, (run_call OpDescribeUHostInstance). fold (hosts_url c).
  rewrite Hh. simpl client_result. cbv beta iota. simpl deref.
  rewrite run_bind, run_ret.
  rewrite bool_decide_false by (by intros ?).
  rewrite run_bind, run_host_loop.
  by destruct (first_host_with_ip nodeName _).
Qed.

Lemma InstanceType_first_host_with_ip_witness :
  (hosts_remote two_ip_hosts OpDescribeUHostInstance [] (hosts_url example_cloud)
   = Decoded _ two_ip_hosts None
   ∧ DescribeUHostInstanceResponse.RetCode two_ip_hosts = 0%Z)
  ∧ run (hosts_remote two_ip_hosts) (Cloud.InstanceType example_cloud "10.0.0.1") []
    = (Returned
         match first_host_with_ip "10.0.0.1"
                 (DescribeUHostInstanceResponse.UHostSet two_ip_hosts) with
         | Some host => (UHostInstanceSet.UHostType host, None)
         | None => ("", Some InstanceNotFound)
         end,
       [] ++ [EvGet OpDescribeUHostInstance (hosts_url example_cloud)]).
Proof.
  split; [by split|].
  exact (InstanceType_first_host_with_ip (hosts_remote two_ip_hosts) example_cloud
           "10.0.0.1" [] two_ip_hosts eq_refl eq_refl).
Defined.

(** ** The provider adapter: load-balancer status *)


(** ** The provider adapter: creation *)

(** The run of a creation every step of which is accepted. *)
Lemma run_createLoadBalancer_accepted
    (h : handler) (c : Cloud.t) (name : string) (hostIDs : list string)
    (backendPort frontendPort : Z) (tr : list event)
    (r1 : CreateULBResponse.t) (r2 : AllocateEIPResponse.t)
    (e0 : UnetAllocateEIPSet.t) (es : list UnetAllocateEIPSet.t)
    (r3 : BindEIPResponse.t) (r4 : CreateVServerResponse.t) :
  (∀ t url, h OpCreateULB t url = Decoded _ r1 None) →
  CreateULBResponse.RetCode r1 = 0%Z →
  (∀ t url, h OpAllocateEIP t url = Decoded _ r2 None) →
  AllocateEIPResponse.RetCode r2 = 0%Z →
  AllocateEIPResponse.EIPSet r2 = e0 :: es →
  (∀ t url, h OpBindEIP t url = Decoded _ r3 None) →
  BindEIPResponse.RetCode r3 = 0%Z →
  (∀ t url, h OpCreateVServer t url = Decoded _ r4 None) →
  CreateVServerResponse.RetCode r4 = 0%Z →
  accepts_backends h →
  run h (Cloud.createLoadBalancer c name hostIDs backendPort frontendPort) tr
  = (match UnetAllocateEIPSet.EIPAddr e0 with
     | a0 :: _ => Returned (UnetEIPAddrSet.IP a0, None)
     | [] => Panicked index_out_of_range
     end,
     tr ++ [EvGet OpCreateULB (create_ulb_url c name);
            EvGet OpAllocateEIP (allocate_eip_url c);
            EvGet OpBindEIP
              (bind_eip_url c (UnetAllocateEIPSet.EIPID e0)
                 (CreateULBResponse.ULBID r1));
            EvGet OpCreateVServer
              (create_vserver_url c (CreateULBResponse.ULBID r1) frontendPort)]
        ++ ((fun host =>
               EvGet OpAllocateBackend
                 (allocate_backend_url c (CreateULBResponse.ULBID r1)
                    (CreateVServerResponse.VServerID r4) host backendPort))
            <$> hostIDs)).
Proof.
  intros H1 Hc1 H2 Hc2 Heips H3 Hc3 H4 Hc4 Hacc.
  unfold Cloud.createLoadBalancer.
  rewrite run_bind, (run_call OpCreateULB), H1. simpl client_result.
  cbv beta iota. simpl deref. rewrite run_bind, run_ret.
  rewrite bool_decide_false by (by intros ?).
  rewrite run_bind, (run_call OpAllocateEIP), H2. simpl client_result.
  cbv beta iota. simpl deref. rewrite run_bind, run_ret.
  rewrite bool_decide_false by (by intros ?).
  rewrite Heips. simpl first. rewrite run_bind, run_ret.
  rewrite run_bind, (run_call OpBindEIP), H3. simpl client_result.
  cbv beta iota. simpl deref. rewrite run_bind, run_ret.
  rewrite bool_decide_false by (by intros ?).
  rewrite run_bind, (run_call OpCreateVServer), H4. simpl client_result.
  cbv beta iota. simpl deref. rewrite run_bind, run_ret.
  rewrite bool_decide_false by (by intros ?).
  rewrite run_bind.
  erewrite (run_for_range_events h _
    (fun host => [EvGet OpAllocateBackend
                    (allocate_backend_url c (CreateULBResponse.ULBID r1)
                       (CreateVServerResponse.VServerID r4) host backendPort)])).
  2:{ intros host t. rewrite run_bind, (run_call OpAllocateBackend).
      fold (allocate_backend_url c (CreateULBResponse.ULBID r1)
              (CreateVServerResponse.VServerID r4) host backendPort).
      destruct (Hacc t (allocate_backend_url c (CreateULBResponse.ULBID r1)
                          (CreateVServerResponse.VServerID r4) host backendPort))
        as (r & -> & Hr).
      simpl. by rewrite bool_decide_false by (by intros ?). }
  rewrite run_bind, run_ret, concat_singletons.
  fold (create_ulb_url c name) (allocate_eip_url c)
    (bind_eip_url c (UnetAllocateEIPSet.EIPID e0) (CreateULBResponse.ULBID r1))
    (create_vserver_url c (CreateULBResponse.ULBID r1) frontendPort).
  rewrite <- !app_assoc.
  destruct (UnetAllocateEIPSet.EIPAddr e0) as [|a0 addrs]; done.
Qed.

(** X12. When the remote accepts every step, [createLoadBalancer] issues
    exactly, in this order: CreateULB for the name; AllocateEIP; BindEIP of
    the first allocated elastic IP to the created load balancer; CreateVServer
    on the created load balancer for the frontend port; one AllocateBackend
    per host ID, in the order given, on the created load balancer and
    virtual server for the backend port. It then returns the first address
    of the first allocated elastic IP; when that elastic IP has no address it
    panics, index out of range, after all these requests. *)
Theorem createLoadBalancer_sequence
    (h : handler) (c : Cloud.t) (name : string) (hostIDs : list string)
    (backendPort frontendPort : Z) (tr : list event)
    (r1 : CreateULBResponse.t) (r2 : AllocateEIPResponse.t)
    (e0 : UnetAllocateEIPSet.t) (es : list UnetAllocateEIPSet.t)
    (r3 : BindEIPResponse.t) (r4 : CreateVServerResponse.t) :
  (∀ t url, h OpCreateULB t url = Decoded _ r1 None) →
  CreateULBResponse.RetCode r1 = 0%Z →
  (∀ t url, h OpAllocateEIP t url = Decoded _ r2 None) →
  AllocateEIPResponse.RetCode r2 = 0%Z →
  AllocateEIPResponse.EIPSet r2 = e0 :: es →
  (∀ t url, h OpBindEIP t url = Decoded _ r3 None) →
  BindEIPResponse.RetCode r3 = 0%Z →
  (∀ t url, h OpCreateVServer t url = Decoded _ r4 None) →
  CreateVServerResponse.RetCode r4 = 0%Z →
  accepts_backends h →
  run h (Cloud.createLoadBalancer c name hostIDs backendPort frontendPort) tr
  = (match UnetAllocateEIPSet.EIPAddr e0 with
     | a0 :: _ => Returned (UnetEIPAddrSet.IP a0, None)
     | [] => Panicked index_out_of_range
     end,
     tr ++ [EvGet OpCreateULB (create_ulb_url c name);
            EvGet OpAllocateEIP (allocate_eip_url c);
            EvGet OpBindEIP
              (bind_eip_url c (UnetAllocateEIPSet.EIPID e0)
                 (CreateULBResponse.ULBID r1));
            EvGet OpCreateVServer
              (create_vserver_url c (CreateULBResponse.ULBID r1) frontendPort)]
        ++ ((fun host =>
               EvGet OpAllocateBackend
                 (allocate_backend_url c (CreateULBResponse.ULBID r1)
                    (CreateVServerResponse.VServerID r4) host backendPort))
            <$> hostIDs)).
Proof. apply run_createLoadBalancer_accepted. Qed.

Lemma createLoadBalancer_sequence_witness :
  ((∀ t url, answering (creating_answer [UnetEIPAddrSet.mk "Bgp" "120.0.0.9"])
               OpCreateULB t url
             = Decoded _ (CreateULBResponse.mk ReturnStatus.zero "ulb-9") None)
   ∧ CreateULBResponse.RetCode (CreateULBResponse.mk ReturnStatus.zero "ulb-9") = 0%Z
   ∧ (∀ t url, answering (creating_answer [UnetEIPAddrSet.mk "Bgp" "120.0.0.9"])
                 OpAllocateEIP t url
               = Decoded _ (creating_answer [UnetEIPAddrSet.mk "Bgp" "120.0.0.9"]
                              OpAllocateEIP) None)
   ∧ AllocateEIPResponse.RetCode
       (creating_answer [UnetEIPAddrSet.mk "Bgp" "120.0.0.9"] OpAllocateEIP) = 0%Z
   ∧ AllocateEIPResponse.EIPSet
       (creating_answer [UnetEIPAddrSet.mk "Bgp" "120.0.0.9"] OpAllocateEIP)
     = UnetAllocateEIPSet.mk "eip-9" [UnetEIPAddrSet.mk "Bgp" "120.0.0.9"] :: []
   ∧ (∀ t url, answering (creating_answer [UnetEIPAddrSet.mk "Bgp" "120.0.0.9"])
                 OpBindEIP t url
               = Decoded _ ReturnStatus.zero None)
   ∧ BindEIPResponse.RetCode ReturnStatus.zero = 0%Z
   ∧ (∀ t url, answering (creating_answer [UnetEIPAddrSet.mk "Bgp" "120.0.0.9"])
                 OpCreateVServer t url
               = Decoded _ (CreateVServerResponse.mk ReturnStatus.zero "vs-9") None)
   ∧ CreateVServerResponse.RetCode
       (CreateVServerResponse.mk ReturnStatus.zero "vs-9") = 0%Z
   ∧ accepts_backends
       (answering (creating_answer [UnetEIPAddrSet.mk "Bgp" "120.0.0.9"])))
  ∧ run (answering (creating_answer [UnetEIPAddrSet.mk "Bgp" "120.0.0.9"]))
      (Cloud.createLoadBalancer example_cloud "lb-9" ["uhost-a"; "uhost-b"]
         30080 4000) []
    = (match UnetAllocateEIPSet.EIPAddr
               (UnetAllocateEIPSet.mk "eip-9" [UnetEIPAddrSet.mk "Bgp" "120.0.0.9"])
       with
       | a0 :: _ => Returned (UnetEIPAddrSet.IP a0, None)
       | [] => Panicked index_out_of_range
       end,
       [] ++ [EvGet OpCreateULB (create_ulb_url example_cloud "lb-9");
              EvGet OpAllocateEIP (allocate_eip_url example_cloud);
              EvGet OpBindEIP
                (bind_eip_url example_cloud
                   (UnetAllocateEIPSet.EIPID
                      (UnetAllocateEIPSet.mk "eip-9"
                         [UnetEIPAddrSet.mk "Bgp" "120.0.0.9"]))
                   (CreateULBResponse.ULBID
                      (CreateULBResponse.mk ReturnStatus.zero "ulb-9")));
              EvGet OpCreateVServer
                (create_vserver_url example_cloud
                   (CreateULBResponse.ULBID
                      (CreateULBResponse.mk ReturnStatus.zero "ulb-9")) 4000)]
          ++ ((fun host =>
                 EvGet OpAllocateBackend
                   (allocate_backend_url example_cloud
                      (CreateULBResponse.ULBID
                         (CreateULBResponse.mk ReturnStatus.zero "ulb-9"))
                      (CreateVServerResponse.VServerID
                         (CreateVServerResponse.mk ReturnStatus.zero "vs-9"))
                      host 30080))
              <$> ["uhost-a"; "uhost-b"])).
Proof.
  assert (accepts_backends
            (answering (creating_answer [UnetEIPAddrSet.mk "Bgp" "120.0.0.9"])))
    as Hacc.
  { intros t url. eexists. split; reflexivity. }
  split; [by repeat split|].
  exact (createLoadBalancer_sequence
           (answering (creating_answer [UnetEIPAddrSet.mk "Bgp" "120.0.0.9"]))
           example_cloud "lb-9" ["uhost-a"; "uhost-b"] 30080 4000 []
           (CreateULBResponse.mk ReturnStatus.zero "ulb-9")
           (creating_answer [UnetEIPAddrSet.mk "Bgp" "120.0.0.9"] OpAllocateEIP)
           (UnetAllocateEIPSet.mk "eip-9" [UnetEIPAddrSet.mk "Bgp" "120.0.0.9"]) []
           ReturnStatus.zero (CreateVServerResponse.mk ReturnStatus.zero "vs-9")
           (fun _ _ => eq_refl) eq_refl (fun _ _ => eq_refl) eq_refl eq_refl
           (fun _ _ => eq_refl) eq_refl (fun _ _ => eq_refl) eq_refl Hacc).
Defined.

(** X14. When the load balancer is created and AllocateEIP succeeds with
    [RetCode] 0 but lists no elastic IP, [createLoadBalancer] panics, index
    out of range, right after these two requests. *)
Theorem createLoadBalancer_without_eip_panics
    (h : handler) (c : Cloud.t) (name : string) (hostIDs : list string)
    (backendPort frontendPort : Z) (tr : list event)
    (r1 : CreateULBResponse.t) (r2 : AllocateEIPResponse.t) :
  (∀ t url, h OpCreateULB t url = Decoded _ r1 None) →
  CreateULBResponse.RetCode r1 = 0%Z →
  (∀ t url, h OpAllocateEIP t url = Decoded _ r2 None) →
  AllocateEIPResponse.RetCode r2 = 0%Z →
  AllocateEIPResponse.EIPSet r2 = [] →
  run h (Cloud.createLoadBalancer c name hostIDs backendPort frontendPort) tr
  = (Panicked index_out_of_range,
     tr ++ [EvGet OpCreateULB (create_ulb_url c name);
            EvGet OpAllocateEIP (allocate_eip_url c)]).
Proof.
  intros H1 Hc1 H2 Hc2 Heips.
  unfold Cloud.createLoadBalancer.
  rewrite run_bind, (run_call OpCreateULB), H1. simpl client_result.
  cbv beta iota. simpl deref. rewrite run_bind, run_ret.
  rewrite bool_decide_false by (by intros ?).
  rewrite run_bind, (run_call OpAllocateEIP), H2. simpl client_result.
  cbv beta iota. simpl deref. rewrite run_bind, run_ret.
  rewrite bool_decide_false by (by intros ?).
  rewrite Heips. simpl first. rewrite run_bind.
  fold (create_ulb_url c name) (allocate_eip_url c).
  simpl run. by rewrite <- !app_assoc.
Qed.

Lemma createLoadBalancer_without_eip_panics_witness :
  ((∀ t url, answering zero_response OpCreateULB t url
             = Decoded _ CreateULBResponse.zero None)
   ∧ CreateULBResponse.RetCode CreateULBResponse.zero = 0%Z
   ∧ (∀ t url, answering zero_response OpAllocateEIP t url
               = Decoded _ AllocateEIPResponse.zero None)
   ∧ AllocateEIPResponse.RetCode AllocateEIPResponse.zero = 0%Z
   ∧ AllocateEIPResponse.EIPSet AllocateEIPResponse.zero = [])
  ∧ run (answering zero_response)
      (Cloud.createLoadBalancer example_cloud "lb-9" ["uhost-a"] 30080 4000) []
    = (Panicked index_out_of_range,
       [] ++ [EvGet OpCreateULB (create_ulb_url example_cloud "lb-9");
              EvGet OpAllocateEIP (allocate_eip_url example_cloud)]).
Proof.
  split; [by repeat split|].
  exact (createLoadBalancer_without_eip_panics (answering zero_response)
           example_cloud "lb-9" ["uhost-a"] 30080 4000 []
           CreateULBResponse.zero AllocateEIPResponse.zero
           (fun _ _ => eq_refl) eq_refl (fun _ _ => eq_refl) eq_refl eq_refl).
Defined.

Lemma requested_app (t1 t2 : list event) :
  requested (t1 ++ t2) = requested t1 ++ requested t2.
Proof. apply omap_app. Qed.

Lemma logged_app (t1 t2 : list event) : logged (t1 ++ t2) = logged t1 ++ logged t2.
Proof. apply omap_app. Qed.

(** A loop each of whose iterations makes one GET for [op] and then either
    falls through or returns [("", err)]: it makes at most one GET per
    element, all of them when it falls through to the end. *)
Lemma run_for_range_one_get (h : handler) (op : Operation) {X}
    (body : X → prog (option (string * option error))) (l : list X)
    (t : list event) :
  (∀ x t, ∃ url o,
     run h (body x) t = (Returned o, t ++ [EvGet op url])
     ∧ (o = None ∨ ∃ e, o = Some ("", Some e))) →
  ∃ o evs,
    run h (for_range l body) t = (Returned o, t ++ evs)
    ∧ logged evs = []
    ∧ requested evs `prefix_of` replicate (length l) op
    ∧ (o = None → requested evs = replicate (length l) op)
    ∧ (o = None ∨ ∃ e, o = Some ("", Some e)).
Proof.
  intros Hbody. revert t. induction l as [|x l IH]; intros t.
  { exists None, []. rewrite app_nil_r. by repeat split; eauto. }
  simpl for_range. rewrite run_bind.
  destruct (Hbody x t) as (url & o & -> & [->|[e ->]]).
  - destruct (IH (t ++ [EvGet op url])) as (o' & evs & -> & Hlog & Hpre & Hfull & Ho').
    exists o', (EvGet op url :: evs). rewrite <- app_assoc.
    split; [done|]. split; [done|]. split; [by apply prefix_cons|].
    split; [|done]. intros Hn. simpl. by rewrite (Hfull Hn).
  - exists (Some ("", Some e)), [EvGet op url].
    split; [done|]. split; [done|].
    split; [apply prefix_cons, prefix_nil|]. split; [done|eauto].
Qed.

(** X13. Whatever the remote answers, [createLoadBalancer] logs nothing and
    requests a prefix of the complete sequence CreateULB, AllocateEIP,
    BindEIP, CreateVServer, AllocateBackend (one per host): it stops at the
    first step that fails and never issues a compensating request for the
    steps already done. It returns an address only after the complete
    sequence, returns the empty address with every error, and panics only
    with index out of range. *)
Theorem createLoadBalancer_stops_at_first_failure
    (h : handler) (c : Cloud.t) (name : string) (hostIDs : list string)
    (backendPort frontendPort : Z) (tr : list event) :
  ∃ evs,
    (run h (Cloud.createLoadBalancer c name hostIDs backendPort frontendPort) tr).2
    = tr ++ evs
    ∧ logged evs = []
    ∧ requested evs `prefix_of` create_sequence (length hostIDs)
    ∧ (∀ eip,
         (run h (Cloud.createLoadBalancer c name hostIDs backendPort frontendPort) tr).1
         = Returned (eip, None) →
         requested evs = create_sequence (length hostIDs))
    ∧ (∀ eip e,
         (run h (Cloud.createLoadBalancer c name hostIDs backendPort frontendPort) tr).1
         = Returned (eip, Some e) → eip = "")
    ∧ (∀ p,
         (run h (Cloud.createLoadBalancer c name hostIDs backendPort frontendPort) tr).1
         = Panicked p → p = index_out_of_range).
Proof.
  assert (∀ (o : outcome (string * option error)) (evs : list event) (t : list event),
            t = tr ++ evs → logged evs = [] →
            requested evs `prefix_of` create_sequence (length hostIDs) →
            (∀ eip, o = Returned (eip, None) →
                    requested evs = create_sequence (length hostIDs)) →
            (∀ eip e, o = Returned (eip, Some e) → eip = "") →
            (∀ p, o = Panicked p → p = index_out_of_range) →
            ∃ evs', (o, t).2 = tr ++ evs' ∧ logged evs' = []
              ∧ requested evs' `prefix_of` create_sequence (length hostIDs)
              ∧ (∀ eip, (o, t).1 = Returned (eip, None) →
                        requested evs' = create_sequence (length hostIDs))
              ∧ (∀ eip e, (o, t).1 = Returned (eip, Some e) → eip = "")
              ∧ (∀ p, (o, t).1 = Panicked p → p = index_out_of_range)) as Hfinish.
  { intros o evs t -> ?????. by exists evs. }
  assert (∀ (e : error) evs (t : list event),
            t = tr ++ evs → logged evs = [] →
            requested evs `prefix_of` create_sequence (length hostIDs) →
            ∃ evs', (Returned ("", Some e), t).2 = tr ++ evs' ∧ logged evs' = []
              ∧ requested evs' `prefix_of` create_sequence (length hostIDs)
              ∧ (∀ eip, (Returned ("", Some e), t).1 = Returned (eip, None) →
                        requested evs' = create_sequence (length hostIDs))
              ∧ (∀ eip e', (Returned ("", Some e), t).1 = Returned (eip, Some e')
                           → eip = "")
              ∧ (∀ p, (Returned ("", Some e), t).1 = Panicked p
                      → p = index_out_of_range)) as Herror.
  { intros e evs t Ht Hlog Hpre. apply (Hfinish _ evs); try done.
    by intros ?? [= <- _]. }
  unfold Cloud.createLoadBalancer.
  rewrite run_bind, (run_call OpCreateULB).
  generalize (request_url OpCreateULB (Cloud.UClient c)
    (CreateULBParam.mk "" "" "" "" (Cloud.ProjectID c) (Cloud.Region c) name
       "tidb-k8s-poc" "" "Yes" "" "")). intros u1.
  destruct (h OpCreateULB tr u1) as [e1|r1 [e1|]]; simpl client_result;
    cbv beta iota.
  1,2: rewrite run_ret; apply (Herror _ [EvGet OpCreateULB u1]);
       [done|done|by eexists].
  simpl deref. rewrite run_bind, run_ret. case_bool_decide.
  { rewrite run_ret. apply (Herror _ [EvGet OpCreateULB u1]); [done|done|by eexists]. }
  rewrite run_bind, (run_call OpAllocateEIP).
  generalize (request_url OpAllocateEIP (Cloud.UClient c)
    (AllocateEIPParam.mk "" "" "" "" (Cloud.Region c) operatorName 2 "" "" 1
       "" "" "" "" "")). intros u2.
  destruct (h OpAllocateEIP (tr ++ [EvGet OpCreateULB u1]) u2) as [e2|r2 [e2|]];
    simpl client_result; cbv beta iota.
  1,2: rewrite run_ret;
       apply (Herror _ [EvGet OpCreateULB u1; EvGet OpAllocateEIP u2]);
       [by rewrite <- app_assoc|done|by eexists].
  simpl deref. rewrite run_bind, run_ret. case_bool_decide.
  { rewrite run_ret.
    apply (Herror _ [EvGet OpCreateULB u1; EvGet OpAllocateEIP u2]);
      [by rewrite <- app_assoc|done|by eexists]. }
  destruct (AllocateEIPResponse.EIPSet r2) as [|e0 es] eqn:Heips.
  { simpl first. rewrite run_bind. simpl run.
    apply (Hfinish _ [EvGet OpCreateULB u1; EvGet OpAllocateEIP u2]);
      [by rewrite <- app_assoc|done|by eexists|done|done|by intros ? [= <-]]. }
  simpl first. rewrite run_bind, run_ret.
  rewrite run_bind, (run_call OpBindEIP).
  generalize (request_url OpBindEIP (Cloud.UClient c)
    (BindEIPParam.mk "" "" "" "" (Cloud.Region c) (UnetAllocateEIPSet.EIPID e0)
       "ulb" (CreateULBResponse.ULBID r1))). intros u3.
  destruct (h OpBindEIP ((tr ++ [EvGet OpCreateULB u1]) ++ [EvGet OpAllocateEIP u2]) u3)
    as [e3|r3 [e3|]]; simpl client_result; cbv beta iota.
  1,2: rewrite run_ret;
       apply (Herror _ [EvGet OpCreateULB u1; EvGet OpAllocateEIP u2;
                        EvGet OpBindEIP u3]);
       [by rewrite <- !app_assoc|done|by eexists].
  simpl deref. rewrite run_bind, run_ret. case_bool_decide.
  { rewrite run_ret.
    apply (Herror _ [EvGet OpCreateULB u1; EvGet OpAllocateEIP u2;
                     EvGet OpBindEIP u3]);
      [by rewrite <- !app_assoc|done|by eexists]. }
  rewrite run_bind, (run_call OpCreateVServer).
  generalize (request_url OpCreateVServer (Cloud.UClient c)
    (CreateVServerParam.mk "" "" "" "" (Cloud.ProjectID c) (Cloud.Region c)
       (CreateULBResponse.ULBID r1) "tidb-server" "RequestProxy" "TCP"
       frontendPort "" "" "" 60)). intros u4.
  destruct (h OpCreateVServer
              (((tr ++ [EvGet OpCreateULB u1]) ++ [EvGet OpAllocateEIP u2])
               ++ [EvGet OpBindEIP u3]) u4)
    as [e4|r4 [e4|]]; simpl client_result; cbv beta iota.
  1,2: rewrite run_ret;
       apply (Herror _ [EvGet OpCreateULB u1; EvGet OpAllocateEIP u2;
                        EvGet OpBindEIP u3; EvGet OpCreateVServer u4]);
       [by rewrite <- !app_assoc|done|by eexists].
  simpl deref. rewrite run_bind, run_ret. case_bool_decide.
  { rewrite run_ret.
    apply (Herror _ [EvGet OpCreateULB u1; EvGet OpAllocateEIP u2;
                     EvGet OpBindEIP u3; EvGet OpCreateVServer u4]);
      [by rewrite <- !app_assoc|done|by eexists]. }
  rewrite run_bind.
  match goal with |- context [for_range hostIDs ?b] =>
    destruct (run_for_range_one_get h OpAllocateBackend b hostIDs
                ((((tr ++ [EvGet OpCreateULB u1]) ++ [EvGet OpAllocateEIP u2])
                  ++ [EvGet OpBindEIP u3]) ++ [EvGet OpCreateVServer u4]))
      as (o & evs & -> & Hlog & Hpre & Hfull & Ho)
  end.
  { intros host t. rewrite run_bind, (run_call OpAllocateBackend).
    eexists. destruct (h OpAllocateBackend t _) as [e5|r5 [e5|]];
      simpl client_result; cbv beta iota.
    - rewrite run_ret. eexists. split; [done|]. right. by eexists.
    - rewrite run_ret. eexists. split; [done|]. right. by eexists.
    - simpl deref. rewrite run_bind, run_ret. case_bool_decide; rewrite run_ret.
      + eexists. split; [done|]. right. by eexists.
      + eexists. split; [done|]. by left. }
  assert (((((tr ++ [EvGet OpCreateULB u1]) ++ [EvGet OpAllocateEIP u2])
              ++ [EvGet OpBindEIP u3]) ++ [EvGet OpCreateVServer u4]) ++ evs
          = tr ++ ([EvGet OpCreateULB u1; EvGet OpAllocateEIP u2;
                    EvGet OpBindEIP u3; EvGet OpCreateVServer u4] ++ evs)) as Htr
    by (by rewrite <- !app_assoc).
  assert (logged ([EvGet OpCreateULB u1; EvGet OpAllocateEIP u2;
                   EvGet OpBindEIP u3; EvGet OpCreateVServer u4] ++ evs) = [])
    as Hlog' by (by rewrite logged_app, Hlog).
  assert (requested ([EvGet OpCreateULB u1; EvGet OpAllocateEIP u2;
                      EvGet OpBindEIP u3; EvGet OpCreateVServer u4] ++ evs)
          `prefix_of` create_sequence (length hostIDs)) as Hpre'.
  { rewrite requested_app. by apply prefix_app. }
  destruct Ho as [->|[e ->]]; cbv beta iota.
  - assert (requested ([EvGet OpCreateULB u1; EvGet OpAllocateEIP u2;
                        EvGet OpBindEIP u3; EvGet OpCreateVServer u4] ++ evs)
            = create_sequence (length hostIDs)) as Hall.
    { rewrite requested_app, Hfull by done. done. }
    simpl first. rewrite run_bind, run_ret.
    destruct (UnetAllocateEIPSet.EIPAddr e0) as [|a0 addrs]; simpl first.
    + rewrite run_bind. simpl run.
      apply (Hfinish _ _ _ Htr Hlog' Hpre'); [done|done|by intros ? [= <-]].
    + rewrite run_bind, !run_ret.
      apply (Hfinish _ _ _ Htr Hlog' Hpre'); [done|done|done].
  - rewrite run_ret. apply (Herror _ _ _ Htr Hlog' Hpre').
Qed.

(** ** Further properties of the membership update *)

(** X16. What [UpdateLoadBalancer] does when a precondition of the update
    fails; in none of these cases is a ReleaseBackend or AllocateBackend
    request made. A failed lookup ([ULBNotFound] included) is returned as it
    is. A service without port gives the error [no port found for serivce]
    right after the lookup, before the hosts are listed. A failed host
    listing is returned. A load balancer without virtual server makes the
    function panic, index out of range, after the two lookups. *)
Theorem UpdateLoadBalancer_preconditions
    (h : handler) (ord : RangeOrder) (c : Cloud.t) (clusterName : string)
    (service : api.Service) (nodeNames : list string) (tr : list event) :
  (∀ x e,
     (run h (Cloud.describeLoadBalancer c
               (cloudprovider.GetLoadBalancerName service)) tr).1
     = Returned (x, Some e) →
     run h (Cloud.UpdateLoadBalancer ord c clusterName service nodeNames) tr
     = (Returned (Some e), tr ++ [EvGet OpDescribeULB (describe_url c)]))
  ∧ (∀ lb,
       (run h (Cloud.describeLoadBalancer c
                 (cloudprovider.GetLoadBalancerName service)) tr).1
       = Returned (Some lb, None) →
       api.Spec_Ports service = [] →
       run h (Cloud.UpdateLoadBalancer ord c clusterName service nodeNames) tr
       = (Returned (Some (errors_New "no port found for serivce")),
          tr ++ [EvGet OpDescribeULB (describe_url c)]))
  ∧ (∀ lb ids e,
       (run h (Cloud.describeLoadBalancer c
                 (cloudprovider.GetLoadBalancerName service)) tr).1
       = Returned (Some lb, None) →
       api.Spec_Ports service ≠ [] →
       (run h (Cloud.getUHostIDs c nodeNames)
          (tr ++ [EvGet OpDescribeULB (describe_url c)])).1
       = Returned (ids, Some e) →
       run h (Cloud.UpdateLoadBalancer ord c clusterName service nodeNames) tr
       = (Returned (Some e),
          tr ++ [EvGet OpDescribeULB (describe_url c);
                 EvGet OpDescribeUHostInstance (hosts_url c)]))
  ∧ (∀ lb ids,
       (run h (Cloud.describeLoadBalancer c
                 (cloudprovider.GetLoadBalancerName service)) tr).1
       = Returned (Some lb, None) →
       api.Spec_Ports service ≠ [] →
       (run h (Cloud.getUHostIDs c nodeNames)
          (tr ++ [EvGet OpDescribeULB (describe_url c)])).1
       = Returned (ids, None) →
       ULBSet.VServerSet lb = [] →
       run h (Cloud.UpdateLoadBalancer ord c clusterName service nodeNames) tr
       = (Panicked index_out_of_range,
          tr ++ [EvGet OpDescribeULB (describe_url c);
                 EvGet OpDescribeUHostInstance (hosts_url c)])).
Proof.
  assert (∀ t, ∃ res, run h (Cloud.getUHostIDs c nodeNames) t
            = (Returned res, t ++ [EvGet OpDescribeUHostInstance (hosts_url c)]))
    as Hhosts.
  { intros t. unfold Cloud.getUHostIDs.
    rewrite run_bind, (run_call OpDescribeUHostInstance). fold (hosts_url c).
    destruct (h OpDescribeUHostInstance t (hosts_url c)) as [e|r [e|]];
      simpl; eauto. case_bool_decide; eauto. }
  unfold Cloud.UpdateLoadBalancer.
  set (name := cloudprovider.GetLoadBalancerName service).
  rewrite !run_bind, !run_describeLoadBalancer. cbn [fst].
  split; [|split; [|split]].
  - intros x e [= ->]. done.
  - intros lb [= ->] ->. done.
  - intros lb ids e [= ->] Hports.
    destruct (api.Spec_Ports service) as [|port0 ports]; [done|].
    rewrite run_bind.
    destruct (Hhosts (tr ++ [EvGet OpDescribeULB (describe_url c)]))
      as [res ->]. cbn [fst]. intros [= ->]. by rewrite <- app_assoc.
  - intros lb ids [= ->] Hports.
    destruct (api.Spec_Ports service) as [|port0 ports]; [done|].
    rewrite run_bind.
    destruct (Hhosts (tr ++ [EvGet OpDescribeULB (describe_url c)]))
      as [res ->]. cbn [fst]. intros [= ->] Hvs. cbv beta iota.
    simpl deref. rewrite run_bind, run_ret, Hvs. simpl first. rewrite run_bind.
    simpl run. by rewrite <- app_assoc.
Qed.

(** A loop that skips the elements outside [P] and returns [v] at the first
    element in [P], after the one event [ev] of that element. *)
Lemma run_for_range_first {X R} (h : handler) (body : X → prog (option R))
    (P : X → Prop) `{∀ x, Decision (P x)} (ev : X → event) (v : R)
    (l : list X) (t : list event) :
  (∀ x t, ¬ P x → run h (body x) t = (Returned None, t)) →
  (∀ x t, P x → run h (body x) t = (Returned (Some v), t ++ [ev x])) →
  run h (for_range l body) t
  = match filter P l with
    | [] => (Returned None, t)
    | x :: _ => (Returned (Some v), t ++ [ev x])
    end.
Proof.
  intros Hskip Hhit. induction l as [|x l IH]; [done|].
  simpl for_range. rewrite run_bind, filter_cons.
  destruct (decide (P x)) as [Hx|Hx].
  - by rewrite Hhit.
  - by rewrite Hskip, IH.
Qed.

(** X17. Let both lookups succeed, the service have a port and the load
    balancer a virtual server. If the remote answers every ReleaseBackend
    call with the same non-zero [RetCode] response and some bound host is not
    desired, [UpdateLoadBalancer] makes one ReleaseBackend request, for the
    binding recorded for one such host, and returns an error carrying the
    remote message: no other release is tried and no AllocateBackend request
    is made, whatever hosts are desired. *)
Theorem UpdateLoadBalancer_stops_at_refused_release
    (h : handler) (ord : RangeOrder) (c : Cloud.t) (clusterName : string)
    (service : api.Service) (nodeNames : list string) (tr : list event)
    (rU : DescribeULBResponse.t) (lb : ULBSet.t)
    (vs : ULBVServerSet.t) (vss : list ULBVServerSet.t)
    (rH : DescribeUHostInstanceResponse.t)
    (port0 : api.ServicePort) (ports : list api.ServicePort)
    (rR : ReleaseBackendResponse.t) (gone : string) :
  h OpDescribeULB tr (describe_url c) = Decoded _ rU None →
  DescribeULBResponse.RetCode rU = 0%Z →
  named (cloudprovider.GetLoadBalancerName service) (DescribeULBResponse.DataSet rU)
  = Some lb →
  api.Spec_Ports service = port0 :: ports →
  h OpDescribeUHostInstance (tr ++ [EvGet OpDescribeULB (describe_url c)]) (hosts_url c)
  = Decoded _ rH None →
  DescribeUHostInstanceResponse.RetCode rH = 0%Z →
  ULBSet.VServerSet lb = vs :: vss →
  (∀ t url, h OpReleaseBackend t url = Decoded _ rR None) →
  ReleaseBackendResponse.RetCode rR ≠ 0%Z →
  gone ∈ ULBBackendSet.ResourceID <$> ULBVServerSet.VServerSet vs →
  gone ∉ matching_host_ids nodeNames (DescribeUHostInstanceResponse.UHostSet rH) →
  ∃ host bid,
    bound_backends (ULBVServerSet.VServerSet vs) !! host = Some bid
    ∧ (host ∉ matching_host_ids nodeNames
                 (DescribeUHostInstanceResponse.UHostSet rH))
    ∧ run h (Cloud.UpdateLoadBalancer ord c clusterName service nodeNames) tr
      = (Returned (Some (errors_New (ReleaseBackendResponse.Message rR))),
         tr ++ [EvGet OpDescribeULB (describe_url c);
                EvGet OpDescribeUHostInstance (hosts_url c);
                EvGet OpReleaseBackend
                  (release_backend_url c (ULBSet.ULBID lb) bid)]).
Proof.
  intros HU HcodeU Hnamed Hports HH HcodeH Hvs Hrel HcodeR Hbound Hgone.
  set (desired := matching_host_ids nodeNames
                    (DescribeUHostInstanceResponse.UHostSet rH)) in *.
  set (backends := ULBVServerSet.VServerSet vs) in *.
  set (P := fun kv : string * string => desired_hosts desired !! kv.1 = None).
  destruct (filter P (range ord (bound_backends backends)))
    as [|[host bid] rest] eqn:Hfilter.
  { apply bound_backends_lookup_is_Some in Hbound as [bid Hbid].
    assert ((gone, bid) ∈ filter P (range ord (bound_backends backends))) as Hin.
    { apply list_elem_of_filter. split; [|by apply elem_of_range].
      unfold P. simpl. rewrite desired_hosts_lookup. by rewrite decide_False. }
    rewrite Hfilter in Hin. by apply elem_of_nil in Hin. }
  assert ((host, bid) ∈ filter P (range ord (bound_backends backends))) as Hin
    by (rewrite Hfilter; left).
  apply list_elem_of_filter in Hin as [HP Hin]. apply elem_of_range in Hin.
  unfold P in HP. simpl in HP. rewrite desired_hosts_lookup in HP.
  exists host, bid. split; [done|]. split; [by case_decide|].
  unfold Cloud.UpdateLoadBalancer.
  rewrite run_bind, run_describeLoadBalancer, HU. simpl lookup_result.
  rewrite bool_decide_false by (by intros ?). rewrite Hnamed, Hports.
  rewrite run_bind, (run_getUHostIDs _ _ _ _ rH HH HcodeH). cbv beta iota.
  simpl deref. rewrite run_bind, run_ret, Hvs. simpl first.
  rewrite run_bind, run_ret.
  fold desired. fold (desired_hosts desired). fold backends.
  fold (bound_backends backends).
  rewrite run_bind.
  erewrite (run_for_range_first h _ P
    (fun kv => EvGet OpReleaseBackend (release_backend_url c (ULBSet.ULBID lb) kv.2))
    (Some (errors_New (ReleaseBackendResponse.Message rR)))).
  - rewrite Hfilter. cbv beta iota. rewrite run_ret. simpl.
    by rewrite <- !app_assoc.
  - intros [host' bid'] t HnP. cbv beta iota. unfold P in HnP. simpl in HnP.
    destruct (desired_hosts desired !! host'); [done|]. by destruct HnP.
  - intros [host' bid'] t HP'. cbv beta iota. unfold P in HP'. simpl in HP'.
    rewrite HP'. rewrite run_bind, (run_call OpReleaseBackend), Hrel.
    simpl client_result. cbv beta iota. simpl deref. rewrite run_bind, run_ret.
    by rewrite bool_decide_true.
Qed.

Lemma UpdateLoadBalancer_stops_at_refused_release_witness :
  (membership_remote bound_a_b refusing_answer OpDescribeULB []
     (describe_url example_cloud)
   = Decoded _ (membership_listing bound_a_b) None
   ∧ DescribeULBResponse.RetCode (membership_listing bound_a_b) = 0%Z
   ∧ named (cloudprovider.GetLoadBalancerName example_service)
       (DescribeULBResponse.DataSet (membership_listing bound_a_b))
     = Some (membership_ulb bound_a_b)
   ∧ api.Spec_Ports example_service = [api.mkServicePort 4000 30080]
   ∧ membership_remote bound_a_b refusing_answer OpDescribeUHostInstance
       ([] ++ [EvGet OpDescribeULB (describe_url example_cloud)])
       (hosts_url example_cloud)
     = Decoded _ example_hosts None
   ∧ DescribeUHostInstanceResponse.RetCode example_hosts = 0%Z
   ∧ ULBSet.VServerSet (membership_ulb bound_a_b) = [example_vserver bound_a_b]
   ∧ (∀ t url, membership_remote bound_a_b refusing_answer OpReleaseBackend t url
               = Decoded _ failed_status None)
   ∧ ReleaseBackendResponse.RetCode failed_status ≠ 0%Z
   ∧ ("uhost-a" ∈ ULBBackendSet.ResourceID
                   <$> ULBVServerSet.VServerSet (example_vserver bound_a_b))
   ∧ ("uhost-a" ∉ matching_host_ids example_nodes
                    (DescribeUHostInstanceResponse.UHostSet example_hosts)))
  ∧ ∃ host bid,
      bound_backends (ULBVServerSet.VServerSet (example_vserver bound_a_b)) !! host
      = Some bid
      ∧ (host ∉ matching_host_ids example_nodes
                   (DescribeUHostInstanceResponse.UHostSet example_hosts))
      ∧ run (membership_remote bound_a_b refusing_answer)
          (Cloud.UpdateLoadBalancer map_to_list_order example_cloud "cluster"
             example_service example_nodes) []
        = (Returned (Some (errors_New (ReleaseBackendResponse.Message failed_status))),
           [] ++ [EvGet OpDescribeULB (describe_url example_cloud);
                  EvGet OpDescribeUHostInstance (hosts_url example_cloud);
                  EvGet OpReleaseBackend
                    (release_backend_url example_cloud
                       (ULBSet.ULBID (membership_ulb bound_a_b)) bid)]).
Proof.
  assert (named (cloudprovider.GetLoadBalancerName example_service)
            (DescribeULBResponse.DataSet (membership_listing bound_a_b))
          = Some (membership_ulb bound_a_b)) as H3
    by (vm_compute; reflexivity).
  assert (ReleaseBackendResponse.RetCode failed_status ≠ 0%Z) as H9 by discriminate.
  assert ("uhost-a" ∈ ULBBackendSet.ResourceID
                      <$> ULBVServerSet.VServerSet (example_vserver bound_a_b))
    as H10 by left.
  assert ("uhost-a" ∉ matching_host_ids example_nodes
                       (DescribeUHostInstanceResponse.UHostSet example_hosts))
    as H11.
  { replace (matching_host_ids example_nodes
               (DescribeUHostInstanceResponse.UHostSet example_hosts))
      with ["uhost-b"; "uhost-c"] by (vm_compute; reflexivity).
    intros Hin. apply elem_of_cons in Hin as [Hin|Hin]; [discriminate|].
    apply list_elem_of_singleton in Hin. discriminate. }
  split; [by repeat split|].
  exact (UpdateLoadBalancer_stops_at_refused_release
           (membership_remote bound_a_b refusing_answer) map_to_list_order
           example_cloud "cluster" example_service example_nodes []
           (membership_listing bound_a_b) (membership_ulb bound_a_b)
           (example_vserver bound_a_b) [] example_hosts
           (api.mkServicePort 4000 30080) [] failed_status "uhost-a"
           eq_refl eq_refl H3 eq_refl eq_refl eq_refl eq_refl
           (fun _ _ => eq_refl) H9 H10 H11).
Defined.

(** ** The provider adapter: ensuring a load balancer *)

(** An answered listing never stops [EnsureLoadBalancer]: the lookup gives
    the load balancer or [ULBNotFound]. *)
Lemma answered_lookup_passes (name : string) (r : DescribeULBResponse.t) :
  let err := (lookup_result name (Decoded _ r None)).2 in
  ¬ (err ≠ None ∧ err ≠ Some ULBNotFound).
Proof.
  simpl. case_bool_decide; simpl; [naive_solver|].
  destruct (named name _); simpl; naive_solver.
Qed.

(** X18. [EnsureLoadBalancer] creates a load balancer whether or not one of
    that name is listed: once the listing is answered, with the name in it
    or not, and the service has a port, the host listing is read and a
    creation is run for the hosts matching the node names. The frontend
    port is the target port's number when the target port is numeric, else
    the first port's [Port]; the backend port is its [NodePort]. When every
    step is accepted the status returned holds one ingress, the first
    address of the allocated elastic IP. *)
Theorem EnsureLoadBalancer_creates_regardless_of_lookup
    (h : handler) (c : Cloud.t) (clusterName : string) (service : api.Service)
    (targetPort : intstr.IntOrString) (nodeNames : list string)
    (tr : list event) (port0 : api.ServicePort) (ports : list api.ServicePort)
    (rD : DescribeULBResponse.t) (rH : DescribeUHostInstanceResponse.t)
    (r1 : CreateULBResponse.t) (r2 : AllocateEIPResponse.t)
    (e0 : UnetAllocateEIPSet.t) (es : list UnetAllocateEIPSet.t)
    (a0 : UnetEIPAddrSet.t) (addrs : list UnetEIPAddrSet.t)
    (r3 : BindEIPResponse.t) (r4 : CreateVServerResponse.t) :
  api.Spec_Ports service = port0 :: ports →
  h OpDescribeULB tr (describe_url c) = Decoded _ rD None →
  h OpDescribeUHostInstance (tr ++ [EvGet OpDescribeULB (describe_url c)])
    (hosts_url c) = Decoded _ rH None →
  DescribeUHostInstanceResponse.RetCode rH = 0%Z →
  (∀ t url, h OpCreateULB t url = Decoded _ r1 None) →
  CreateULBResponse.RetCode r1 = 0%Z →
  (∀ t url, h OpAllocateEIP t url = Decoded _ r2 None) →
  AllocateEIPResponse.RetCode r2 = 0%Z →
  AllocateEIPResponse.EIPSet r2 = e0 :: es →
  UnetAllocateEIPSet.EIPAddr e0 = a0 :: addrs →
  (∀ t url, h OpBindEIP t url = Decoded _ r3 None) →
  BindEIPResponse.RetCode r3 = 0%Z →
  (∀ t url, h OpCreateVServer t url = Decoded _ r4 None) →
  CreateVServerResponse.RetCode r4 = 0%Z →
  accepts_backends h →
  run h (Cloud.EnsureLoadBalancer c clusterName service targetPort nodeNames) tr
  = (Returned
       (Some (api.mkLoadBalancerStatus
                [api.mkLoadBalancerIngress (UnetEIPAddrSet.IP a0)]), None),
     tr ++ [EvGet OpDescribeULB (describe_url c);
            EvGet OpDescribeUHostInstance (hosts_url c);
            EvGet OpCreateULB (create_ulb_url c (api.LoadBalancerName service));
            EvGet OpAllocateEIP (allocate_eip_url c);
            EvGet OpBindEIP
              (bind_eip_url c (UnetAllocateEIPSet.EIPID e0)
                 (CreateULBResponse.ULBID r1));
            EvGet OpCreateVServer
              (create_vserver_url c (CreateULBResponse.ULBID r1)
                 (if bool_decide (intstr.type targetPort = intstr.Int)
                  then intstr.IntVal targetPort
                  else api.Port port0))]
        ++ ((fun host =>
               EvGet OpAllocateBackend
                 (allocate_backend_url c (CreateULBResponse.ULBID r1)
                    (CreateVServerResponse.VServerID r4) host
                    (api.NodePort port0)))
            <$> matching_host_ids nodeNames
                  (DescribeUHostInstanceResponse.UHostSet rH))).
Proof.
  intros Hports HD HH HcH H1 Hc1 H2 Hc2 Heips Haddr H3 Hc3 H4 Hc4 Hacc.
  unfold Cloud.EnsureLoadBalancer, cloudprovider.GetLoadBalancerName.
  cbv zeta. rewrite run_bind, run_describeLoadBalancer, HD.
  pose proof (answered_lookup_passes (api.LoadBalancerName service) rD) as Hpass.
  cbv zeta in Hpass.
  destruct (lookup_result (api.LoadBalancerName service) (Decoded _ rD None))
    as [found err]. simpl in Hpass. cbv beta iota.
  rewrite bool_decide_false by done. rewrite Hports.
  rewrite run_bind, (run_getUHostIDs h c nodeNames _ rH HH HcH). cbv beta iota.
  rewrite run_bind.
  rewrite (run_createLoadBalancer_accepted h c _ _ _ _ _ r1 r2 e0 es r3 r4)
    by assumption.
  rewrite Haddr. cbv beta iota. rewrite run_ret.
  by rewrite <- !app_assoc.
Qed.

(** The remote [ensure_remote] lists [lb-1] already; a second load balancer
    of that name is created all the same, for the two matching hosts. *)
Lemma EnsureLoadBalancer_creates_regardless_of_lookup_witness :
  named "lb-1" (DescribeULBResponse.DataSet example_listing) = Some example_ulb
  ∧ run ensure_remote
      (Cloud.EnsureLoadBalancer example_cloud "" example_service numeric_target
         example_nodes) []
    = (Returned
         (Some (api.mkLoadBalancerStatus
                  [api.mkLoadBalancerIngress
                     (UnetEIPAddrSet.IP (UnetEIPAddrSet.mk "Bgp" "120.0.0.9"))]),
          None),
       [] ++ [EvGet OpDescribeULB (describe_url example_cloud);
              EvGet OpDescribeUHostInstance (hosts_url example_cloud);
              EvGet OpCreateULB
                (create_ulb_url example_cloud
                   (api.LoadBalancerName example_service));
              EvGet OpAllocateEIP (allocate_eip_url example_cloud);
              EvGet OpBindEIP
                (bind_eip_url example_cloud
                   (UnetAllocateEIPSet.EIPID
                      (UnetAllocateEIPSet.mk "eip-9"
                         [UnetEIPAddrSet.mk "Bgp" "120.0.0.9"]))
                   (CreateULBResponse.ULBID
                      (CreateULBResponse.mk ReturnStatus.zero "ulb-9")));
              EvGet OpCreateVServer
                (create_vserver_url example_cloud
                   (CreateULBResponse.ULBID
                      (CreateULBResponse.mk ReturnStatus.zero "ulb-9"))
                   (if bool_decide (intstr.type numeric_target = intstr.Int)
                    then intstr.IntVal numeric_target
                    else api.Port (api.mkServicePort 4000 30080)))]
          ++ ((fun host =>
                 EvGet OpAllocateBackend
                   (allocate_backend_url example_cloud
                      (CreateULBResponse.ULBID
                         (CreateULBResponse.mk ReturnStatus.zero "ulb-9"))
                      (CreateVServerResponse.VServerID
                         (CreateVServerResponse.mk ReturnStatus.zero "vs-9"))
                      host
                      (api.NodePort (api.mkServicePort 4000 30080))))
              <$> matching_host_ids example_nodes
                    (DescribeUHostInstanceResponse.UHostSet example_hosts))).
Proof.
  assert (accepts_backends ensure_remote) as Hacc.
  { intros t url. eexists. split; reflexivity. }
  split; [reflexivity|].
  exact (EnsureLoadBalancer_creates_regardless_of_lookup
           ensure_remote example_cloud "" example_service numeric_target
           example_nodes [] (api.mkServicePort 4000 30080) []
           example_listing example_hosts
           (CreateULBResponse.mk ReturnStatus.zero "ulb-9")
           (AllocateEIPResponse.mk ReturnStatus.zero
              [UnetAllocateEIPSet.mk "eip-9" [UnetEIPAddrSet.mk "Bgp" "120.0.0.9"]])
           (UnetAllocateEIPSet.mk "eip-9" [UnetEIPAddrSet.mk "Bgp" "120.0.0.9"]) []
           (UnetEIPAddrSet.mk "Bgp" "120.0.0.9") []
           ReturnStatus.zero (CreateVServerResponse.mk ReturnStatus.zero "vs-9")
           eq_refl eq_refl eq_refl eq_refl
           (fun _ _ => eq_refl) eq_refl (fun _ _ => eq_refl) eq_refl eq_refl
           eq_refl
           (fun _ _ => eq_refl) eq_refl (fun _ _ => eq_refl) eq_refl Hacc).
Defined.

(** The frontend port follows the target port only when it is numeric. *)
Example EnsureLoadBalancer_frontend_port :
  (run ensure_remote
     (Cloud.EnsureLoadBalancer example_cloud "" example_service numeric_target
        example_nodes) []).2 !! 5%nat
  = Some (EvGet OpCreateVServer (create_vserver_url example_cloud "ulb-9" 8080))
  ∧ (run ensure_remote
       (Cloud.EnsureLoadBalancer example_cloud "" example_service named_target
          example_nodes) []).2 !! 5%nat
    = Some (EvGet OpCreateVServer (create_vserver_url example_cloud "ulb-9" 4000)).
Proof. vm_compute. done. Qed.

(** X19. What [EnsureLoadBalancer] does before anything is created. A lookup
    error other than [ULBNotFound] is returned as it is after the one
    listing request. A service without ports is refused with "no port found
    for service", but only after the listing was requested and answered.
    A failure to list the hosts is returned after the two listings. In none
    of these cases is anything created. *)
Theorem EnsureLoadBalancer_early_returns
    (h : handler) (c : Cloud.t) (clusterName : string) (service : api.Service)
    (targetPort : intstr.IntOrString) (nodeNames : list string)
    (tr : list event) :
  let lookup :=
    lookup_result (api.LoadBalancerName service)
      (h OpDescribeULB tr (describe_url c)) in
  let listed := tr ++ [EvGet OpDescribeULB (describe_url c)] in
  (∀ e : error, lookup.2 = Some e → e ≠ ULBNotFound →
     run h (Cloud.EnsureLoadBalancer c clusterName service targetPort nodeNames) tr
     = (Returned (None, Some e), listed))
  ∧ (lookup.2 = None ∨ lookup.2 = Some ULBNotFound →
     api.Spec_Ports service = [] →
     run h (Cloud.EnsureLoadBalancer c clusterName service targetPort nodeNames) tr
     = (Returned (None, Some (errors_New "no port found for service")), listed))
  ∧ (∀ (ids : list string) (e : error),
       lookup.2 = None ∨ lookup.2 = Some ULBNotFound →
       api.Spec_Ports service ≠ [] →
       (run h (Cloud.getUHostIDs c nodeNames) listed).1 = Returned (ids, Some e) →
       run h (Cloud.EnsureLoadBalancer c clusterName service targetPort nodeNames) tr
       = (Returned (None, Some e),
          listed ++ [EvGet OpDescribeUHostInstance (hosts_url c)])).
Proof.
  cbv zeta.
  unfold Cloud.EnsureLoadBalancer, cloudprovider.GetLoadBalancerName. cbv zeta.
  rewrite run_bind, run_describeLoadBalancer.
  destruct (lookup_result (api.LoadBalancerName service)
              (h OpDescribeULB tr (describe_url c))) as [found err].
  simpl snd. cbv beta iota.
  split; [|split].
  - intros e -> Hne. rewrite bool_decide_true; [by rewrite run_ret|].
    split; congruence.
  - intros Herr ->. rewrite bool_decide_false by naive_solver.
    by rewrite run_ret.
  - intros ids e Herr Hports Hhosts.
    rewrite bool_decide_false by naive_solver.
    destruct (api.Spec_Ports service) as [|port0 ports]; [done|].
    rewrite run_bind.
    assert (run h (Cloud.getUHostIDs c nodeNames)
              (tr ++ [EvGet OpDescribeULB (describe_url c)])
            = (Returned (ids, Some e),
               (tr ++ [EvGet OpDescribeULB (describe_url c)])
               ++ [EvGet OpDescribeUHostInstance (hosts_url c)])) as ->.
    { revert Hhosts. unfold Cloud.getUHostIDs.
      rewrite run_bind, (run_call OpDescribeUHostInstance). fold (hosts_url c).
      destruct (h OpDescribeUHostInstance _ (hosts_url c)) as [err'|r [err'|]];
        simpl; try (by intros [= <- <-]).
      case_bool_decide; simpl; by intros [= <- <-]. }
    cbv beta iota. by rewrite run_ret.
Qed.
